(** * Task Tracker: the due-date engine of [sensor.py]

    A shallow embedding of [TaskSensor] (custom_components/task_tracker/sensor.py):
    the recompute-and-classify cycle [_update_state], the mutations
    [mark_as_done] and [reset_history], and the restore step of
    [async_added_to_hass], together with the parts of the Python runtime they
    rest on ([datetime], [timedelta], [float], [dateutil.rrule]).

    Conventions of the embedding.
    - All timestamps live on one wall-clock time line (the zone of
      [dt_util.now()]); Python compares and subtracts datetimes that share
      their [tzinfo] by their wall-clock fields, so a timestamp is the number
      of microseconds since 0001-01-01T00:00:00 and [replace(tzinfo=...)] is
      the identity.
    - A [timedelta] is its total number of microseconds; [days], [seconds]
      and [microseconds] are the normalised fields Python derives from it.
    - Exceptions are results: an operation that raises returns [Raise e].
    - Logging and [async_write_ha_state] are effects of the host and do not
      appear in the state. *)

From Stdlib Require Import Reals Lra.
From Stdlib Require Import ZArith List String Bool Lia Floats QArith Qabs.
From Stdlib Require Import Sorting.Sorted Sorting.Permutation DecimalString.
Import ListNotations.

Local Open Scope Z_scope.

(** ** Exceptions as results *)

(** The exception classes the modelled operations raise; each is a subclass
    of Python's [Exception]. *)
Inductive exn : Type :=
| OverflowError
| ValueError
| AttributeError.

Inductive result (A : Type) : Type :=
| Ok (a : A)
| Raise (e : exn).

Arguments Ok {A} a.
Arguments Raise {A} e.

Definition bind {A B : Type} (r : result A) (k : A -> result B) : result B :=
  match r with
  | Ok a => k a
  | Raise e => Raise e
  end.

Notation "x <- r ;; k" := (bind r (fun x => k))
  (at level 61, r at next level, right associativity).

(** ** [datetime.timedelta] and [datetime.datetime] *)

Module Datetime.

Definition us_per_second : Z := 1000000.
Definition us_per_day : Z := 86400000000.

(** A duration, in microseconds. *)
Definition timedelta : Type := Z.

(** The normalised fields: [0 <= seconds < 86400], [0 <= microseconds < 10^6],
    and [days] carries the sign. *)
Definition days (d : timedelta) : Z := d / us_per_day.
Definition seconds (d : timedelta) : Z := (d mod us_per_day) / us_per_second.
Definition microseconds (d : timedelta) : Z := d mod us_per_second.

Definition max_delta_days : Z := 999999999.

(** [check_delta_day_range]: a timedelta whose [days] leaves
    [-999999999 .. 999999999] is an [OverflowError]. *)
Definition check_delta (d : timedelta) : result timedelta :=
  if (- max_delta_days <=? days d) && (days d <=? max_delta_days)
  then Ok d else Raise OverflowError.

(** [timedelta(days=n)] *)
Definition timedelta_days (n : Z) : result timedelta :=
  check_delta (n * us_per_day).

(** A time of day ([datetime.time]), in microseconds since midnight. *)
Definition time : Type := Z.

Definition mk_time (h m s : Z) : time := ((h * 60 + m) * 60 + s) * us_per_second.
Definition hour (t : time) : Z := (t / (3600 * us_per_second)) mod 24.
Definition minute (t : time) : Z := (t / (60 * us_per_second)) mod 60.

(** A timestamp, in microseconds since 0001-01-01T00:00:00. *)
Definition datetime : Type := Z.

(** [date.max.toordinal()], the ordinal of 9999-12-31. *)
Definition max_ordinal : Z := 3652059.

Definition in_range (d : datetime) : bool :=
  (0 <=? d) && (d <? max_ordinal * us_per_day).

(** [d + td]: "date value out of range" is an [OverflowError]. *)
Definition add (d : datetime) (td : timedelta) : result datetime :=
  if in_range (d + td) then Ok (d + td) else Raise OverflowError.

(** [a - b] of two datetimes of the same zone. *)
Definition sub (a b : datetime) : timedelta := a - b.

(** [d.toordinal()]: day 1 is 0001-01-01. *)
Definition toordinal (d : datetime) : Z := d / us_per_day + 1.

(** [d.weekday()]: Monday is 0, Sunday is 6. *)
Definition weekday (d : datetime) : Z := (toordinal d + 6) mod 7.

(** [d.time()] *)
Definition timeofday (d : datetime) : time := d mod us_per_day.

(** [datetime.combine(date.fromordinal(o), t)] *)
Definition combine (o : Z) (t : time) : datetime := (o - 1) * us_per_day + t.

(** [d.replace(microsecond=0)] *)
Definition replace_microsecond0 (d : datetime) : datetime :=
  d - d mod us_per_second.

(** [d.replace(hour=h, minute=m, second=0, microsecond=0)] *)
Definition replace_hm (d : datetime) (h m : Z) : datetime :=
  combine (toordinal d) (mk_time h m 0).

(** The proleptic Gregorian calendar of the [datetime] module
    ([_is_leap], [_days_before_year], [_days_before_month], [_ymd2ord]). *)
Definition is_leap (y : Z) : bool :=
  (y mod 4 =? 0) && (negb (y mod 100 =? 0) || (y mod 400 =? 0)).

Definition days_before_year (y : Z) : Z :=
  let y1 := y - 1 in y1 * 365 + y1 / 4 - y1 / 100 + y1 / 400.

Definition days_before_month (y m : Z) : Z :=
  nth (Z.to_nat m) [0; 0; 31; 59; 90; 120; 151; 181; 212; 243; 273; 304; 334] 0
  + (if (2 <? m) && is_leap y then 1 else 0).

Definition ymd2ord (y m d : Z) : Z :=
  days_before_year y + days_before_month y m + d.

(** [datetime(y, mo, d, h, mi, s, us)] *)
Definition mk_datetime (y mo d h mi s us : Z) : datetime :=
  combine (ymd2ord y mo d) (mk_time h mi s + us).

End Datetime.

(** ** Python [float] arithmetic (IEEE 754 binary64) *)

Module PyFloat.

Import Datetime.

Definition Z2SF (z : Z) : spec_float :=
  match z with
  | Z0 => S754_zero false
  | Zpos p => S754_finite false p 0
  | Zneg p => S754_finite true p 0
  end.

(** [float(n)] for an integer [n]: rounded to the nearest double, ties to even. *)
Definition of_int (n : Z) : float :=
  SF2Prim (binary_normalize prec emax n 0 false).

(** [a / b] on integers: the correctly rounded quotient. *)
Definition int_truediv (a b : Z) : float :=
  SF2Prim (SFdiv prec emax (Z2SF a) (Z2SF b)).

(** [td.total_seconds()], which is [microseconds_total / 10**6]. *)
Definition total_seconds (td : timedelta) : float :=
  int_truediv td us_per_second.

(** [sum(xs)] over floats, from the integer start value [0]: the additions
    in order, each rounded to the nearest double. (From version 3.12 on
    CPython also carries a compensation term, which can move the sum by one
    unit in the last place.) *)
Definition sum (xs : list float) : float :=
  fold_left PrimFloat.add xs (of_int 0).

(** The integral part of [math.modf]; NaN and the infinities do not convert
    to an integer. *)
Definition trunc (x : float) : result Z :=
  match Prim2SF x with
  | S754_zero _ => Ok 0
  | S754_finite s m e =>
      let v := if 0 <=? e then Zpos m * 2 ^ e else Zpos m / 2 ^ (- e) in
      Ok (if s then - v else v)
  | S754_infinity _ => Raise OverflowError
  | S754_nan => Raise ValueError
  end.

(** [round(x)] to an integer, ties to even. *)
Definition round_half_even (x : float) : Z :=
  match Prim2SF x with
  | S754_finite s m e =>
      let v :=
        if 0 <=? e then Zpos m * 2 ^ e
        else
          let q := Zpos m / 2 ^ (- e) in
          let r := Zpos m mod 2 ^ (- e) in
          match 2 * r ?= 2 ^ (- e) with
          | Lt => q
          | Gt => q + 1
          | Eq => if Z.even q then q else q + 1
          end in
      if s then - v else v
  | _ => 0
  end.

(** [timedelta(seconds=x)] for a float [x]: the whole seconds are taken
    exactly, the fraction is scaled to microseconds in floating point and
    rounded to the nearest microsecond, ties to even. *)
Definition timedelta_seconds (x : float) : result timedelta :=
  whole <- trunc x ;;
  let secondsfrac := PrimFloat.sub x (of_int whole) in
  let usdouble := PrimFloat.mul secondsfrac (of_int us_per_second) in
  check_delta (whole * us_per_second + round_half_even usdouble).

End PyFloat.

(** ** [sorted] and list slices *)

(** [sorted(l)] on timestamps, by insertion; any sort returns the same list
    on a total order without distinct equal keys. *)
Fixpoint insert (x : Z) (l : list Z) : list Z :=
  match l with
  | [] => [x]
  | y :: l' => if x <=? y then x :: l else y :: insert x l'
  end.

Fixpoint sorted (l : list Z) : list Z :=
  match l with
  | [] => []
  | x :: l' => insert x (sorted l')
  end.

(** [l[-n:]] for a positive [n]: the last [n] entries, all of [l] when it is
    shorter. *)
Definition last_n {A : Type} (n : nat) (l : list A) : list A :=
  skipn (List.length l - n) l.

(** [l[-1]] of a non-empty list, as an option. *)
Definition last_opt {A : Type} (l : list A) : option A :=
  match l with
  | [] => None
  | x :: l' => Some (last l' x)
  end.

(** ** [dateutil.rrule], for the two rules the sensor builds

    A rule built with [rrule(freq, byweekday=..., dtstart=...)] and neither
    [count] nor [until] recurs at the clock time of [dtstart] (its
    microseconds dropped) on every day from [dtstart]'s date on whose weekday
    passes the filter, up to the last representable date. *)

Module Rrule.

Import Datetime.

Inductive frequency : Type := WEEKLY | DAILY.

Record rule : Type := {
  _freq : frequency;
  _byweekday : option (list Z);
  _dtstart : datetime
}.

(** [rrule.rrule(freq, byweekday=byweekday, dtstart=dtstart)]: the start loses
    its microseconds; a weekly rule given no [byweekday] at all recurs on the
    start's weekday, and an empty [byweekday] is no filter. *)
Definition rrule (freq : frequency) (byweekday : option (list Z))
    (dtstart : datetime) : rule :=
  let dtstart := replace_microsecond0 dtstart in
  {| _freq := freq;
     _byweekday :=
       match byweekday with
       | None =>
           match freq with
           | WEEKLY => Some [weekday dtstart]
           | DAILY => None
           end
       | Some [] => None
       | Some l => Some l
       end;
     _dtstart := dtstart |}.

(** The weekday of the day of ordinal [o]. *)
Definition ord_weekday (o : Z) : Z := (o + 6) mod 7.

Definition day_ok (r : rule) (o : Z) : bool :=
  match _byweekday r with
  | None => true
  | Some l => existsb (Z.eqb (ord_weekday o)) l
  end.

(** The occurrence of [r] on the day of ordinal [o]. *)
Definition occurrence (r : rule) (o : Z) : datetime :=
  combine o (timeofday (_dtstart r)).

(** The first occurrence after [dt] among the days [o], [o+1], ...: the
    iteration stops past the last representable date. The filter has period
    7, so eight days decide the search. *)
Fixpoint scan (r : rule) (dt : datetime) (o : Z) (n : nat) : option datetime :=
  match n with
  | O => None
  | S n' =>
      if max_ordinal <? o then None
      else if day_ok r o && (dt <? occurrence r o) then Some (occurrence r o)
      else scan r dt (o + 1) n'
  end.

(** [rule.after(dt)]: the first occurrence strictly after [dt], or [None]. *)
Definition after (r : rule) (dt : datetime) : option datetime :=
  scan r dt (Z.max (toordinal (_dtstart r)) (toordinal dt)) 8.

End Rrule.

(** ** [const.py] and the weekday table of [sensor.py] *)

Local Open Scope string_scope.

Definition TYPE_FIXED : string := "fixed".
Definition TYPE_SLIDING : string := "sliding".
Definition TYPE_PREDICTIVE : string := "predictive".

(** [WEEKDAY_MAP]: [rrule.MO] is weekday 0, ..., [rrule.SU] is weekday 6. *)
Definition WEEKDAY_MAP (d : string) : option Z :=
  if d =? "mon" then Some 0%Z
  else if d =? "tue" then Some 1%Z
  else if d =? "wed" then Some 2%Z
  else if d =? "thu" then Some 3%Z
  else if d =? "fri" then Some 4%Z
  else if d =? "sat" then Some 5%Z
  else if d =? "sun" then Some 6%Z
  else None.

Local Close Scope string_scope.

(** ** [TaskSensor] *)

Import Datetime.

(** The [CONF_SCHEDULE] dictionary: each key may be missing. *)
Record Schedule : Type := {
  CONF_TIME : option time;
  CONF_DAYS : option (list string)
}.

(** The display-only attributes (tags, assignees) play no part in the
    computation and are left out. *)
Record TaskSensor : Type := {
  _name : string;
  _calc_type : string;
  _icon_default : string;
  _icon : string;
  _interval_days : option Z;
  _schedule : option Schedule;
  _state : string;
  _last_done : option datetime;
  _next_due : option datetime;
  _days_remaining : option Z;
  _history : list datetime
}.

(** [TaskSensor.__init__] from the configuration entries it reads. *)
Definition init (name calc_type icon : string) (interval : option Z)
    (schedule : option Schedule) : TaskSensor :=
  {| _name := name; _calc_type := calc_type;
     _icon_default := icon; _icon := icon;
     _interval_days := interval; _schedule := schedule;
     _state := "Unknown"; _last_done := None; _next_due := None;
     _days_remaining := None; _history := [] |}.

(** Assignments to the derived fields, and to the two completion fields. *)
Definition set_derived (self : TaskSensor) (next_due : option datetime)
    (days_remaining : option Z) (state icon : string) : TaskSensor :=
  {| _name := _name self; _calc_type := _calc_type self;
     _icon_default := _icon_default self; _icon := icon;
     _interval_days := _interval_days self; _schedule := _schedule self;
     _state := state; _last_done := _last_done self; _next_due := next_due;
     _days_remaining := days_remaining; _history := _history self |}.

Definition set_completions (self : TaskSensor) (history : list datetime)
    (last_done : option datetime) : TaskSensor :=
  {| _name := _name self; _calc_type := _calc_type self;
     _icon_default := _icon_default self; _icon := _icon self;
     _interval_days := _interval_days self; _schedule := _schedule self;
     _state := _state self; _last_done := last_done;
     _next_due := _next_due self;
     _days_remaining := _days_remaining self; _history := history |}.

(** Truth values: an interval is true when it is present and not 0, a
    dictionary when it has a key. *)
Definition truthy_int (i : option Z) : option Z :=
  match i with
  | Some 0 => None
  | _ => i
  end.

Definition truthy_dict (s : option Schedule) : option Schedule :=
  match s with
  | Some {| CONF_TIME := None; CONF_DAYS := None |} => None
  | _ => s
  end.

(** [str(n)] *)
Definition str (n : Z) : string := NilZero.string_of_int (Z.to_int n).

(** The gaps [sorted_hist[i] - sorted_hist[i-1]] for [i = 1 .. len-1]. *)
Fixpoint deltas (sorted_hist : list datetime) : list timedelta :=
  match sorted_hist with
  | a :: (b :: _) as rest => sub b a :: deltas rest
  | _ => []
  end.

(** [timedelta(seconds=sum(d.total_seconds() for d in deltas) / len(deltas))] *)
Definition avg_interval (deltas : list timedelta) : result timedelta :=
  let avg_seconds :=
    PrimFloat.div (PyFloat.sum (map PyFloat.total_seconds deltas))
                  (PyFloat.of_int (Z.of_nat (List.length deltas))) in
  PyFloat.timedelta_seconds avg_seconds.

(** [base + timedelta(days=n)] *)
Definition plus_days (base : datetime) (n : Z) : result (option datetime) :=
  td <- timedelta_days n ;;
  r <- add base td ;;
  Ok (Some r).

(** The weekdays of [days_list] that [WEEKDAY_MAP] knows. *)
Fixpoint parsed_days (days_list : list string) : list Z :=
  match days_list with
  | [] => []
  | d :: rest =>
      match WEEKDAY_MAP d with
      | Some w => w :: parsed_days rest
      | None => parsed_days rest
      end
  end.

(** [self._schedule.get(CONF_TIME) or time(0,0)] *)
Definition target_time (schedule : Schedule) : time :=
  match CONF_TIME schedule with
  | Some t => t
  | None => mk_time 0 0 0
  end.

(** [self._last_done if self._last_done else now], the anchor of the search
    of a Fixed task. *)
Definition start_point (self : TaskSensor) (now : datetime) : datetime :=
  match _last_done self with
  | Some last_done => last_done
  | None => now
  end.

(** [_update_state], lines 176-249: the due date. Every read of [self]
    happens here and nothing is assigned, so an exception raised by this part
    leaves [self] as it was. *)
Definition calculated_next (self : TaskSensor) (now : datetime)
    : result (option datetime) :=
  if String.eqb (_calc_type self) TYPE_PREDICTIVE then
    predicted <-
      (if (2 <=? List.length (_history self))%nat then
         let sorted_hist := sorted (_history self) in
         match deltas sorted_hist with
         | [] => Ok None
         | ds =>
             avg <- avg_interval ds ;;
             match _last_done self with
             | Some last_done => r <- add last_done avg ;; Ok (Some r)
             | None => Ok None
             end
         end
       else Ok None) ;;
    match predicted, truthy_int (_interval_days self) with
    | None, Some interval_days =>
        match _last_done self with
        | Some last_done => plus_days last_done interval_days
        | None => plus_days now interval_days
        end
    | _, _ => Ok predicted
    end
  else if String.eqb (_calc_type self) TYPE_SLIDING then
    match _last_done self, truthy_int (_interval_days self) with
    | Some last_done, Some interval_days => plus_days last_done interval_days
    | _, _ =>
        let days :=
          match truthy_int (_interval_days self) with
          | Some interval_days => interval_days
          | None => 1
          end in
        plus_days now days
    end
  else if String.eqb (_calc_type self) TYPE_FIXED then
    match truthy_dict (_schedule self) with
    | Some schedule =>
        let target_time := target_time schedule in
        let days_list :=
          match CONF_DAYS schedule with
          | Some l => l
          | None => []
          end in
        let '(freq, byweekday) :=
          match days_list with
          | [] => (Rrule.DAILY, None)
          | _ => (Rrule.WEEKLY, Some (parsed_days days_list))
          end in
        let start_point := start_point self now in
        let rule := Rrule.rrule freq byweekday start_point in
        match Rrule.after rule start_point with
        | Some next_occurrence =>
            let candidate :=
              replace_hm next_occurrence (hour target_time) (minute target_time) in
            if candidate <=? start_point then
              one_day <- timedelta_days 1 ;;
              later <- add start_point one_day ;;
              match Rrule.after rule later with
              | Some next_occurrence' =>
                  Ok (Some (replace_hm next_occurrence'
                              (hour target_time) (minute target_time)))
              | None => Raise AttributeError
              end
            else Ok (Some candidate)
        | None => Ok None
        end
    | None =>
        match truthy_int (_interval_days self) with
        | Some interval_days =>
            match _last_done self with
            | Some last_done => plus_days last_done interval_days
            | None => plus_days now interval_days
            end
        | None => Ok None
        end
    end
  else Ok None.

(** [_update_state], lines 251-270: the assignment of [_next_due] and the
    classification. Nothing here raises. *)
Definition classify (self : TaskSensor) (now : datetime)
    (calculated : option datetime) : TaskSensor :=
  match calculated with
  | Some next_due =>
      let delta := sub next_due now in
      let days_remaining := days delta + (if 0 <? seconds delta then 1 else 0) in
      let is_today := toordinal next_due =? toordinal now in
      if next_due <? now then
        set_derived self calculated (Some days_remaining)
          "Overdue" "mdi:alert-circle"
      else if is_today then
        set_derived self calculated (Some days_remaining)
          "Due Today" "mdi:calendar-today"
      else
        set_derived self calculated (Some days_remaining)
          ("Due in " ++ str days_remaining ++ " days") (_icon_default self)
  | None =>
      set_derived self None None
        (if String.eqb (_calc_type self) TYPE_PREDICTIVE
         then "Need more history" else "Unknown")
        "mdi:help-circle-outline"
  end.

(** [_update_state]: the [try] body, and the handler of [except Exception],
    which logs and forces the error state. [now] is the reading of
    [dt_util.now()]. *)
Definition _update_state (self : TaskSensor) (now : datetime) : TaskSensor :=
  match calculated_next self now with
  | Ok calculated => classify self now calculated
  | Raise _ =>
      set_derived self (_next_due self) (_days_remaining self)
        "Error" "mdi:alert"
  end.

(** [mark_as_done(custom_date)]: [clock] is the reading of [dt_util.now()]
    taken when no date is given, [now] the later one of the recompute. *)
Definition mark_as_done (self : TaskSensor) (custom_date : option datetime)
    (clock now : datetime) : TaskSensor :=
  let done_time :=
    match custom_date with
    | Some d => d
    | None => clock
    end in
  let history := last_n 10 (sorted (_history self ++ [done_time])) in
  let last_done :=
    match last_opt history with
    | Some l => Some l
    | None => _last_done self
    end in
  _update_state (set_completions self history last_done) now.

(** [reset_history()] *)
Definition reset_history (self : TaskSensor) (now : datetime) : TaskSensor :=
  _update_state (set_completions self [] None) now.

(** The attributes of the restored state that [async_added_to_hass] reads. *)
Record StoredState : Type := {
  attr_last_done : option string;
  attr_history : option (list string)
}.

Section Restore.

(** [dt_util.parse_datetime] of the host: [None] for a string that is not a
    timestamp; it may raise. *)
Variable parse_datetime : string -> result (option datetime).

(** [[parse_datetime(d) for d in raw_history if parse_datetime(d)]] *)
Fixpoint parse_history (raw_history : list string) : result (list datetime) :=
  match raw_history with
  | [] => Ok []
  | d :: rest =>
      p <- parse_datetime d ;;
      match p with
      | Some t => parsed <- parse_history rest ;; Ok (t :: parsed)
      | None => parse_history rest
      end
  end.

(** [async_added_to_hass], lines 156-171: the restore of the two completion
    fields, each under its own [try ... except Exception: pass], and the
    recompute. The resolution of the assignee names is left out. *)
Definition async_added_to_hass (self : TaskSensor)
    (last_state : option StoredState) (now : datetime) : TaskSensor :=
  let restored :=
    match last_state with
    | Some st =>
        let self1 :=
          match attr_last_done st with
          | Some (String c s) =>
              match parse_datetime (String c s) with
              | Ok parsed => set_completions self (_history self) parsed
              | Raise _ => self
              end
          | _ => self
          end in
        match attr_history st with
        | Some (d :: rest) =>
            match parse_history (d :: rest) with
            | Ok parsed => set_completions self1 parsed (_last_done self1)
            | Raise _ => self1
            end
        | _ => self1
        end
    | None => self
    end in
  _update_state restored now.

(** The entry points through which the host drives a sensor. *)
Inductive call : Type :=
| Call_update_state (now : datetime)
| Call_mark_as_done (custom_date : option datetime) (clock now : datetime)
| Call_reset_history (now : datetime)
| Call_async_added_to_hass (last_state : option StoredState) (now : datetime).

Definition run (c : call) (self : TaskSensor) : TaskSensor :=
  match c with
  | Call_update_state now => _update_state self now
  | Call_mark_as_done custom_date clock now =>
      mark_as_done self custom_date clock now
  | Call_reset_history now => reset_history self now
  | Call_async_added_to_hass last_state now =>
      async_added_to_hass self last_state now
  end.

End Restore.

(** The two mutations the specification names for the completion fields. *)
Definition is_completion_call (c : call) : bool :=
  match c with
  | Call_mark_as_done _ _ _ | Call_reset_history _ => true
  | _ => false
  end.

Definition is_restore_call (c : call) : bool :=
  match c with
  | Call_async_added_to_hass _ _ => true
  | _ => false
  end.

(** A sensor is coherent when [_last_done] is the last entry of its history
    ([None] for an empty history). *)
Definition coherent (self : TaskSensor) : Prop :=
  _last_done self = last_opt (_history self).

(** ** The scenarios of [tests/test_sensor.py] *)

Definition DEFAULT_ICON : string := "mdi:checkbox-marked-circle-outline".

(** Monday, January 1st 2024, 12:00:00. *)
Definition mock_now : datetime := mk_datetime 2024 1 1 12 0 0 0.

(** Tuesday, January 2nd 2024, 10:00:00. *)
Definition tuesday : datetime := mk_datetime 2024 1 2 10 0 0 0.

Definition sliding_task : TaskSensor :=
  init "Sliding Task" TYPE_SLIDING DEFAULT_ICON (Some 7) None.

Definition fixed_task : TaskSensor :=
  init "Fixed Task" TYPE_FIXED DEFAULT_ICON None
    (Some {| CONF_TIME := Some (mk_time 9 0 0); CONF_DAYS := Some ["wed"%string] |}).

Definition predictive_task : TaskSensor :=
  init "Predictive Task" TYPE_PREDICTIVE DEFAULT_ICON (Some 10) None.

(** A sliding task completed on January 10th 2024, 12:00:00. *)
Definition sliding_done_jan10 : TaskSensor :=
  mark_as_done sliding_task (Some (mk_datetime 2024 1 10 12 0 0 0))
    mock_now mock_now.

(** A sliding task with a full history: ten completions, one a day, from
    January 1st to January 10th 2024 at 12:00:00. *)
Definition ten_completions : list datetime :=
  map (fun k => mock_now + k * us_per_day) [0; 1; 2; 3; 4; 5; 6; 7; 8; 9].

Definition sliding_full : TaskSensor :=
  set_completions sliding_task ten_completions
    (last_opt ten_completions).

Definition jan5 : datetime := mk_datetime 2024 1 5 12 0 0 0.
Definition jan11 : datetime := mk_datetime 2024 1 11 12 0 0 0.

(** The sliding task completed at [mock_now], looked at half a second before
    the due date is exactly one day away. *)
Definition sliding_done_now : TaskSensor :=
  mark_as_done sliding_task None mock_now mock_now.

Definition half_second_early : datetime :=
  mock_now + 6 * us_per_day - 500000.

(** A sliding task whose interval leaves the calendar. *)
Definition sliding_far : TaskSensor :=
  init "Far Task" TYPE_SLIDING DEFAULT_ICON (Some 4000000) None.

(** A parser that knows one timestamp. *)
Definition parse_one (s : string) : result (option datetime) :=
  if String.eqb s "2024-01-01T12:00:00" then Ok (Some mock_now) else Ok None.

Definition stored_jan1 : StoredState :=
  {| attr_last_done := Some "2024-01-01T12:00:00"%string;
     attr_history := Some ["2024-01-01T12:00:00"%string] |}.


(** The predictive scenario of the tests: completions 20 and 10 days
    before [mock_now]. *)
Definition predictive_tested : TaskSensor :=
  set_completions predictive_task
    [mock_now - 20 * us_per_day; mock_now - 10 * us_per_day]
    (Some (mock_now - 10 * us_per_day)).


(** Wednesday, January 3rd 2024, 08:00:00: an hour before the fixed task's
    clock time, on one of its days. *)
Definition wednesday_8am : datetime := mk_datetime 2024 1 3 8 0 0 0.

(** ** Further scenarios *)

(** A task due every day at 07:30. *)
Definition fixed_daily : TaskSensor :=
  init "Daily Task" TYPE_FIXED DEFAULT_ICON None
    (Some {| CONF_TIME := Some (mk_time 7 30 0); CONF_DAYS := Some [] |}).

(** Wednesday, January 3rd 2024, 18:00:00.250000. *)
Definition wednesday_6pm : datetime := mk_datetime 2024 1 3 18 0 0 250000.

(** The fixed task of the tests, completed at [wednesday_8am] and at
    [wednesday_6pm]. *)
Definition fixed_done_8am : TaskSensor :=
  mark_as_done fixed_task (Some wednesday_8am) mock_now mock_now.

Definition fixed_done_6pm : TaskSensor :=
  mark_as_done fixed_task (Some wednesday_6pm) mock_now mock_now.

(** A sliding task configured without an interval, completed at [mock_now]. *)
Definition sliding_no_interval : TaskSensor :=
  mark_as_done (init "No Interval" TYPE_SLIDING DEFAULT_ICON None None)
    None mock_now mock_now.

(** A fixed task configured with neither a schedule nor an interval, and one
    with an interval of 3 days only. *)
Definition fixed_unscheduled : TaskSensor :=
  init "Unscheduled" TYPE_FIXED DEFAULT_ICON None None.

Definition fixed_interval_only : TaskSensor :=
  init "Interval Only" TYPE_FIXED DEFAULT_ICON (Some 3) None.

(** The sliding task completed on January 10th, looked at three weeks
    later. *)
Definition three_weeks_later : datetime := mk_datetime 2024 1 31 8 0 0 0.

(** One call of [mark_as_done]: the date given, if any, and the two clock
    readings; [done_time] is the completion it records. *)
Definition completion : Type := (option datetime * datetime * datetime)%type.

Definition done_time (c : completion) : datetime :=
  match fst (fst c) with
  | Some custom_date => custom_date
  | None => snd (fst c)
  end.

(** Successive calls of [mark_as_done]. *)
Definition mark_all (self : TaskSensor) (calls : list completion) : TaskSensor :=
  fold_left (fun s c => mark_as_done s (fst (fst c)) (snd (fst c)) (snd c))
            calls self.

(** Two completions recorded late and in the wrong order. *)
Definition late_entries : list completion :=
  [(Some jan11, mock_now, mock_now); (Some jan5, tuesday, tuesday)].

Definition late_entries_swapped : list completion :=
  [(Some jan5, tuesday, tuesday); (Some jan11, mock_now, mock_now)].

(** A completion dated before everything in the full history. *)
Definition new_year_eve : datetime := mk_datetime 2023 12 31 9 0 0 0.

(** A day in the life of the sliding task: a recompute, a completion, a
    backdated completion, a reset and another completion. *)
Definition busy_day : list call :=
  [Call_update_state mock_now;
   Call_mark_as_done None tuesday tuesday;
   Call_mark_as_done (Some mock_now) tuesday tuesday;
   Call_reset_history tuesday;
   Call_mark_as_done (Some jan5) jan11 jan11].

(** ** The attributes shown to the host, and the state it stores *)

(** The fields of a [TaskSensor] object that play no part in the due date. *)
Record Display : Type := {
  _attr_unique_id : option string;
  _tags : list string;
  _assignee_ids : list string;
  _assignee_names : list string
}.


Section Attributes.

(** [datetime.isoformat] *)
Variable isoformat : datetime -> string.


End Attributes.


(** [native_value] and [icon] *)
Definition native_value (self : TaskSensor) : string := _state self.
Definition icon (self : TaskSensor) : string := _icon self.

(** The stored entries that [parse_datetime] turns into a timestamp. *)
Definition well_formed (parse_datetime : string -> result (option datetime))
    (raw_history : list string) : list datetime :=
  flat_map (fun d => match parse_datetime d with
                     | Ok (Some t) => [t]
                     | _ => []
                     end) raw_history.



(** A stored history with an entry that is not a timestamp. *)
Definition stored_with_rubbish : StoredState :=
  {| attr_last_done := Some "2024-01-01T12:00:00"%string;
     attr_history :=
       Some ["2024-01-01T12:00:00"%string; "yesterday"%string;
             "2024-01-01T12:00:00"%string] |}.

(** ** Setting up a sensor from a config entry

    Strings are sequences of code points below 256. *)

From Stdlib Require Import Ascii.

(** [c.isspace()] *)
Definition is_space (c : Ascii.ascii) : bool :=
  let n := Ascii.nat_of_ascii c in
  ((9 <=? n) && (n <=? 13) || (28 <=? n) && (n <=? 32)
   || (n =? 133) || (n =? 160))%nat.

(** [s.lstrip()], [s.rstrip()] and [s.strip()] *)
Fixpoint lstrip (s : string) : string :=
  match s with
  | EmptyString => EmptyString
  | String c s' => if is_space c then lstrip s' else s
  end.

Fixpoint rstrip (s : string) : string :=
  match s with
  | EmptyString => EmptyString
  | String c s' =>
      match rstrip s' with
      | EmptyString => if is_space c then EmptyString else String c EmptyString
      | r => String c r
      end
  end.

Definition strip (s : string) : string := rstrip (lstrip s).

(** [s.split(sep)] for a separator of one character: the pieces between the
    separators, the empty ones too. *)
Fixpoint split (sep : Ascii.ascii) (s : string) : list string :=
  match s with
  | EmptyString => [EmptyString]
  | String c s' =>
      if Ascii.eqb c sep then EmptyString :: split sep s'
      else
        match split sep s' with
        | piece :: pieces => String c piece :: pieces
        | [] => [String c EmptyString]
        end
  end.

(** A value of the configuration dictionary, as [isinstance] sees it. *)
Inductive ConfigValue : Type :=
| Missing
| Text (s : string)
| Items (l : list string)
| Other.

(** Lines 39-51: a list is taken as it is; a string that is not blank is cut
    at the commas, its pieces stripped and the empty ones dropped; anything
    else gives no entries. *)
Definition entries (raw : ConfigValue) : list string :=
  match raw with
  | Items l => l
  | Text s =>
      match strip s with
      | EmptyString => []
      | _ =>
          flat_map (fun t => match strip t with
                             | EmptyString => []
                             | stripped => [stripped]
                             end)
                   (split ","%char s)
      end
  | _ => []
  end.

(** The value of a decimal digit. *)
Definition digit (c : Ascii.ascii) : option Z :=
  let n := Z.of_nat (Ascii.nat_of_ascii c) in
  if (48 <=? n) && (n <=? 57) then Some (n - 48) else None.

(** One field of [strptime]: one digit, or two digits that stay within the
    field's limit. *)
Definition field (limit : Z) (s : string) : option Z :=
  match s with
  | String a EmptyString => digit a
  | String a (String b EmptyString) =>
      match digit a, digit b with
      | Some x, Some y => if 10 * x + y <=? limit then Some (10 * x + y) else None
      | _, _ => None
      end
  | _ => None
  end.

(** [datetime.strptime(s, "%H:%M:%S").time()]: anything but three such
    fields between two colons is a [ValueError]. *)
Definition strptime_time (s : string) : result time :=
  match split ":"%char s with
  | [h; m; sec] =>
      match field 23 h, field 59 m, field 59 sec with
      | Some h, Some m, Some sec => Ok (mk_time h m sec)
      | _, _, _ => Raise ValueError
      end
  | _ => Raise ValueError
  end.

(** The merged configuration of an entry, as far as the setup reads it. *)
Record Config : Type := {
  config_name : string;
  config_icon : string;
  config_type : string;
  config_interval : option Z;
  config_tags : ConfigValue;
  config_assignees : ConfigValue;
  config_time : option string;
  config_days : option (list string)
}.

(** [async_setup_entry], lines 39-75, from the merged configuration: the
    sensor it adds, with its display fields. *)
Definition async_setup_entry (config : Config) (entry_id : string)
    : TaskSensor * Display :=
  let tags := entries (config_tags config) in
  let assignees := entries (config_assignees config) in
  let time_obj :=
    match config_time config with
    | Some (String c s) =>
        match strptime_time (String c s) with
        | Ok t => t
        | Raise _ => mk_time 0 0 0
        end
    | _ => mk_time 0 0 0
    end in
  (init (config_name config) (config_type config) (config_icon config)
        (config_interval config)
        (Some {| CONF_TIME := Some time_obj;
                 CONF_DAYS :=
                   Some (match config_days config with
                         | Some days => days
                         | None => []
                         end) |}),
   {| _attr_unique_id := Some entry_id;
      _tags := tags;
      _assignee_ids := assignees;
      _assignee_names := [] |}).

(** The two decimal digits of a number below 100. *)
Definition two_digits (n : Z) : string :=
  String (Ascii.ascii_of_nat (Z.to_nat (48 + n / 10)))
    (String (Ascii.ascii_of_nat (Z.to_nat (48 + n mod 10))) EmptyString).

(** [HH:MM:SS] *)
Definition hms (h m s : Z) : string :=
  (two_digits h ++ ":" ++ two_digits m ++ ":" ++ two_digits s)%string.

(** A config entry of a task due on Mondays and Thursdays at 06:45:30, with
    an interval that the fixed type does not use, and its tags typed as one
    line. *)
Definition bins_config : Config :=
  {| config_name := "Bins"; config_icon := DEFAULT_ICON;
     config_type := TYPE_FIXED; config_interval := Some 14;
     config_tags := Text " kitchen , ,chores,";
     config_assignees := Missing;
     config_time := Some (hms 6 45 30);
     config_days := Some ["mon"%string; "thu"%string] |}.


(** ** The services of [__init__.py]

    [complete_task] and [reset_history] run the same two loops over the
    entities of the integration's platforms; [for_each] is that iteration,
    over the entities in the order the loops meet them. *)

(** [call.data.get("entity_id")]: nothing, one id, or a list of ids. *)
Inductive EntityIds : Type :=
| NoEntityId
| OneEntityId (id : string)
| ManyEntityIds (ids : list string).

(** The data of a service call, as far as the handlers read it. *)
Record ServiceCall : Type := {
  data_entity_id : EntityIds;
  data_last_done : option string
}.

(** A sensor as the host registers it. *)
Record Entity : Type := {
  entity_id : string;
  sensor : TaskSensor
}.

(** What ends a handler early: [x in None] is a [TypeError]; an exception of
    the date parser passes through. *)
Inductive ServiceError : Type :=
| TypeError
| Raised (e : exn).

Inductive Outcome : Type :=
| Handled (entities : list Entity)
| Failed (e : ServiceError).

(** [entity.entity_id in entity_ids] *)
Definition named (ids : list string) (e : Entity) : bool :=
  existsb (String.eqb (entity_id e)) ids.

(** The loops: [action i] is what the handler awaits on the [i]-th entity it
    meets, when that entity is named. *)
Fixpoint for_each (action : nat -> TaskSensor -> TaskSensor)
    (ids : list string) (i : nat) (entities : list Entity) : list Entity :=
  match entities with
  | [] => []
  | e :: rest =>
      (if named ids e
       then {| entity_id := entity_id e; sensor := action i (sensor e) |}
       else e)
      :: for_each action ids (S i) rest
  end.

(** [entity_ids] after the [isinstance(entity_ids, str)] step, and the
    loops. The membership test is evaluated at the first entity: without an
    [entity_id] it raises there, before any sensor is touched. *)
Definition dispatch (action : nat -> TaskSensor -> TaskSensor)
    (entity_ids : EntityIds) (entities : list Entity) : Outcome :=
  match entity_ids with
  | NoEntityId =>
      match entities with
      | [] => Handled []
      | _ :: _ => Failed TypeError
      end
  | OneEntityId id => Handled (for_each action [id] 0 entities)
  | ManyEntityIds ids => Handled (for_each action ids 0 entities)
  end.

Section Services.

Variable parse_datetime : string -> result (option datetime).

(** [handle_complete_task]: [clock i] holds the two readings of
    [dt_util.now()] during the completion of the [i]-th entity. *)
Definition handle_complete_task (call : ServiceCall)
    (clock : nat -> datetime * datetime) (entities : list Entity) : Outcome :=
  let parsed :=
    match data_last_done call with
    | Some (String c s) => parse_datetime (String c s)
    | _ => Ok None
    end in
  match parsed with
  | Ok custom_date =>
      dispatch (fun i self =>
                  mark_as_done self custom_date (fst (clock i)) (snd (clock i)))
               (data_entity_id call) entities
  | Raise e => Failed (Raised e)
  end.

(** [handle_reset_history]: [clock i] is the reading of [dt_util.now()]
    during the reset of the [i]-th entity. *)
Definition handle_reset_history (call : ServiceCall)
    (clock : nat -> datetime) (entities : list Entity) : Outcome :=
  dispatch (fun i self => reset_history self (clock i))
           (data_entity_id call) entities.

End Services.

(** The ids a call names, once there are any. *)
Definition ids_of (entity_ids : EntityIds) : option (list string) :=
  match entity_ids with
  | NoEntityId => None
  | OneEntityId id => Some [id]
  | ManyEntityIds ids => Some ids
  end.

(** Two registered tasks, and a clock that stands at [tuesday]. *)
Definition household : list Entity :=
  [ {| entity_id := "sensor.bins"; sensor := sliding_done_jan10 |};
    {| entity_id := "sensor.plants"; sensor := fixed_task |} ].

Definition tuesday_clock (i : nat) : datetime * datetime := (tuesday, tuesday).

Definition bins_done_yesterday : ServiceCall :=
  {| data_entity_id := OneEntityId "sensor.bins";
     data_last_done := Some "yesterday"%string |}.

(** Two calls that name the same entity of [household] in different words. *)
Definition reset_bins : ServiceCall :=
  {| data_entity_id := OneEntityId "sensor.bins"; data_last_done := None |}.

Definition reset_bins_twice : ServiceCall :=
  {| data_entity_id :=
       ManyEntityIds ["sensor.bins"; "sensor.car"; "sensor.bins"]%string;
     data_last_done := None |}.

Definition tuesday_reading (i : nat) : datetime := tuesday.

(** The invariant of the completion fields. *)
Definition tidy (self : TaskSensor) : Prop :=
  coherent self /\ StronglySorted Z.le (_history self) /\
  (List.length (_history self) <= 10)%nat.

(** ** The real numbers that floats stand for

    Used to compare the floating-point average with the exact mean. *)





(** ** Time zones and naive timestamps

    [_update_state] once more, with timestamps as Python has them: the
    wall-clock fields and a [tzinfo] that may be missing. Two aware
    timestamps that share their [tzinfo] object are compared and subtracted
    by their wall-clock fields, two with different objects by their instants,
    and an aware one against a naive one is a [TypeError]; [date()] and
    [+ timedelta] work on the wall-clock fields alone. The [try] body is a
    program over the sensor's fields, so that an exception leaves the
    assignments made before it in place. *)

Module Zoned.

(** The [tzinfo] objects that reach the sensor: the host's zone
    [dt_util.DEFAULT_TIME_ZONE], which [dt_util.now()] carries, and the
    zones of constant offset that the date parser builds. *)
Inductive zone : Type :=
| DEFAULT_TIME_ZONE
| FixedOffset (offset : timedelta).

Record datetime : Type := {
  wall : Datetime.datetime;
  tzinfo : option zone
}.

(** The exceptions of the simpler model, and [TypeError]. *)
Inductive error : Type :=
| TypeError
| Raised (e : exn).

(** An expression returns a value or raises. *)
Inductive outcome (A : Type) : Type :=
| Returns (a : A)
| Raises (e : error).

Arguments Returns {A} a.
Arguments Raises {A} e.

Definition lift {A : Type} (r : result A) : outcome A :=
  match r with
  | Ok a => Returns a
  | Raise e => Raises (Raised e)
  end.

Definition obind {A B : Type} (r : outcome A) (k : A -> outcome B)
    : outcome B :=
  match r with
  | Returns a => k a
  | Raises e => Raises e
  end.

Notation "x <~ r ;; k" := (obind r (fun x => k))
  (at level 61, r at next level, right associativity).

Record TaskSensor : Type := {
  _name : string;
  _calc_type : string;
  _icon_default : string;
  _icon : string;
  _interval_days : option Z;
  _schedule : option Schedule;
  _state : string;
  _last_done : option datetime;
  _next_due : option datetime;
  _days_remaining : option Z;
  _history : list datetime
}.

(** A statement runs on the sensor's fields: it leaves them, changed or
    not, and returns or raises. *)
Definition stmt (A : Type) : Type := TaskSensor -> outcome A * TaskSensor.

Definition ret {A : Type} (a : A) : stmt A := fun self => (Returns a, self).

Definition sbind {A B : Type} (m : stmt A) (k : A -> stmt B) : stmt B :=
  fun self =>
    match m self with
    | (Returns a, self') => k a self'
    | (Raises e, self') => (Raises e, self')
    end.

Notation "x <== m ;; k" := (sbind m (fun x => k))
  (at level 61, m at next level, right associativity).
Notation "m ;;; k" := (sbind m (fun _ => k))
  (at level 61, right associativity).

(** An expression over the fields, which assigns nothing. *)
Definition eval {A : Type} (f : TaskSensor -> outcome A) : stmt A :=
  fun self => (f self, self).

(** [self._next_due = v], [self._days_remaining = v], [self._state = v],
    [self._icon = v] *)
Definition assign_next_due (v : option datetime) : stmt unit :=
  fun self =>
    (Returns tt,
     {| _name := _name self; _calc_type := _calc_type self;
        _icon_default := _icon_default self; _icon := _icon self;
        _interval_days := _interval_days self; _schedule := _schedule self;
        _state := _state self; _last_done := _last_done self;
        _next_due := v;
        _days_remaining := _days_remaining self; _history := _history self |}).

Definition assign_days_remaining (v : option Z) : stmt unit :=
  fun self =>
    (Returns tt,
     {| _name := _name self; _calc_type := _calc_type self;
        _icon_default := _icon_default self; _icon := _icon self;
        _interval_days := _interval_days self; _schedule := _schedule self;
        _state := _state self; _last_done := _last_done self;
        _next_due := _next_due self;
        _days_remaining := v; _history := _history self |}).

Definition assign_state (v : string) : stmt unit :=
  fun self =>
    (Returns tt,
     {| _name := _name self; _calc_type := _calc_type self;
        _icon_default := _icon_default self; _icon := _icon self;
        _interval_days := _interval_days self; _schedule := _schedule self;
        _state := v; _last_done := _last_done self;
        _next_due := _next_due self;
        _days_remaining := _days_remaining self; _history := _history self |}).

Definition assign_icon (v : string) : stmt unit :=
  fun self =>
    (Returns tt,
     {| _name := _name self; _calc_type := _calc_type self;
        _icon_default := _icon_default self; _icon := v;
        _interval_days := _interval_days self; _schedule := _schedule self;
        _state := _state self; _last_done := _last_done self;
        _next_due := _next_due self;
        _days_remaining := _days_remaining self; _history := _history self |}).

(** The sensor with the two completion fields as the restore of
    [async_added_to_hass] (lines 156-169) leaves them. *)
Definition set_completions (self : TaskSensor) (history : list datetime)
    (last_done : option datetime) : TaskSensor :=
  {| _name := _name self; _calc_type := _calc_type self;
     _icon_default := _icon_default self; _icon := _icon self;
     _interval_days := _interval_days self; _schedule := _schedule self;
     _state := _state self; _last_done := last_done;
     _next_due := _next_due self;
     _days_remaining := _days_remaining self; _history := history |}.

(** [try: body except Exception as e: handler]: every exception of the
    model is an [Exception]; the handler runs on the fields as the body
    left them. *)
Definition try_except {A : Type} (body : stmt A) (handler : error -> stmt A)
    : stmt A :=
  fun self =>
    match body self with
    | (Returns a, self') => (Returns a, self')
    | (Raises e, self') => handler e self'
    end.

Section Host.

(** The offset from UTC of the host's zone at a wall-clock reading. *)
Variable utcoffset : Datetime.datetime -> timedelta.

(** [sorted] on a list of timestamps, under their own comparison: it
    returns a list or raises. *)
Variable sorted : list datetime -> outcome (list datetime).

(** The timestamp as microseconds of UTC. *)
Definition instant (d : datetime) (z : zone) : Z :=
  match z with
  | DEFAULT_TIME_ZONE => wall d - utcoffset (wall d)
  | FixedOffset offset => wall d - offset
  end.

(** [a - b] *)
Definition sub (a b : datetime) : outcome timedelta :=
  match tzinfo a, tzinfo b with
  | None, None => Returns (wall a - wall b)
  | Some DEFAULT_TIME_ZONE, Some DEFAULT_TIME_ZONE => Returns (wall a - wall b)
  | Some za, Some zb => Returns (instant a za - instant b zb)
  | _, _ => Raises TypeError
  end.

(** [a < b] and [a <= b] *)
Definition lt (a b : datetime) : outcome bool :=
  match tzinfo a, tzinfo b with
  | None, None => Returns (wall a <? wall b)
  | Some DEFAULT_TIME_ZONE, Some DEFAULT_TIME_ZONE => Returns (wall a <? wall b)
  | Some za, Some zb => Returns (instant a za <? instant b zb)
  | _, _ => Raises TypeError
  end.

Definition le (a b : datetime) : outcome bool :=
  match tzinfo a, tzinfo b with
  | None, None => Returns (wall a <=? wall b)
  | Some DEFAULT_TIME_ZONE, Some DEFAULT_TIME_ZONE => Returns (wall a <=? wall b)
  | Some za, Some zb => Returns (instant a za <=? instant b zb)
  | _, _ => Raises TypeError
  end.

(** [d + td]: on the wall-clock fields, under the same [tzinfo]. *)
Definition add (d : datetime) (td : timedelta) : outcome datetime :=
  r <~ lift (Datetime.add (wall d) td) ;;
  Returns {| wall := r; tzinfo := tzinfo d |}.

(** [base + timedelta(days=n)] *)
Definition plus_days (base : datetime) (n : Z) : outcome (option datetime) :=
  td <~ lift (timedelta_days n) ;;
  r <~ add base td ;;
  Returns (Some r).

(** The gaps [sorted_hist[i] - sorted_hist[i-1]], in the order of the loop. *)
Fixpoint deltas (sorted_hist : list datetime) : outcome (list timedelta) :=
  match sorted_hist with
  | a :: (b :: _) as rest =>
      d <~ sub b a ;;
      ds <~ deltas rest ;;
      Returns (d :: ds)
  | _ => Returns []
  end.

(** [_update_state], lines 176-249: the due date. *)
Definition calculated_next (now : datetime) (self : TaskSensor)
    : outcome (option datetime) :=
  if String.eqb (_calc_type self) TYPE_PREDICTIVE then
    predicted <~
      (if (2 <=? List.length (_history self))%nat then
         sorted_hist <~ sorted (_history self) ;;
         ds <~ deltas sorted_hist ;;
         match ds with
         | [] => Returns None
         | _ =>
             avg <~ lift (avg_interval ds) ;;
             match _last_done self with
             | Some last_done => r <~ add last_done avg ;; Returns (Some r)
             | None => Returns None
             end
         end
       else Returns None) ;;
    match predicted, truthy_int (_interval_days self) with
    | None, Some interval_days =>
        match _last_done self with
        | Some last_done => plus_days last_done interval_days
        | None => plus_days now interval_days
        end
    | _, _ => Returns predicted
    end
  else if String.eqb (_calc_type self) TYPE_SLIDING then
    match _last_done self, truthy_int (_interval_days self) with
    | Some last_done, Some interval_days => plus_days last_done interval_days
    | _, _ =>
        let days :=
          match truthy_int (_interval_days self) with
          | Some interval_days => interval_days
          | None => 1
          end in
        plus_days now days
    end
  else if String.eqb (_calc_type self) TYPE_FIXED then
    match truthy_dict (_schedule self) with
    | Some schedule =>
        let target_time := target_time schedule in
        let days_list :=
          match CONF_DAYS schedule with
          | Some l => l
          | None => []
          end in
        let '(freq, byweekday) :=
          match days_list with
          | [] => (Rrule.DAILY, None)
          | _ => (Rrule.WEEKLY, Some (parsed_days days_list))
          end in
        let start_point :=
          match _last_done self with
          | Some last_done => last_done
          | None => now
          end in
        let start_point :=
          match tzinfo start_point with
          | None => {| wall := wall start_point;
                       tzinfo := Some DEFAULT_TIME_ZONE |}
          | Some _ => start_point
          end in
        let rule := Rrule.rrule freq byweekday (wall start_point) in
        match Rrule.after rule (wall start_point) with
        | Some next_occurrence =>
            let candidate :=
              {| wall := replace_hm next_occurrence
                           (hour target_time) (minute target_time);
                 tzinfo := tzinfo start_point |} in
            not_after <~ le candidate start_point ;;
            if not_after then
              one_day <~ lift (timedelta_days 1) ;;
              later <~ add start_point one_day ;;
              match Rrule.after rule (wall later) with
              | Some next_occurrence' =>
                  Returns
                    (Some {| wall := replace_hm next_occurrence'
                                       (hour target_time) (minute target_time);
                             tzinfo := tzinfo start_point |})
              | None => Raises (Raised AttributeError)
              end
            else Returns (Some candidate)
        | None => Returns None
        end
    | None =>
        match truthy_int (_interval_days self) with
        | Some interval_days =>
            match _last_done self with
            | Some last_done => plus_days last_done interval_days
            | None => plus_days now interval_days
            end
        | None => Returns None
        end
    end
  else Returns None.

(** [_update_state], lines 251-270: the assignments, in their order, with
    the subtraction and the comparison that may raise between them. *)
Definition classification (now : datetime) (calculated : option datetime)
    : stmt unit :=
  assign_next_due calculated ;;;
  match calculated with
  | Some next_due =>
      delta <== eval (fun _ => sub next_due now) ;;
      let days_remaining :=
        days delta + (if 0 <? seconds delta then 1 else 0) in
      assign_days_remaining (Some days_remaining) ;;;
      let is_today := toordinal (wall next_due) =? toordinal (wall now) in
      overdue <== eval (fun _ => lt next_due now) ;;
      if overdue then
        assign_state "Overdue" ;;; assign_icon "mdi:alert-circle"
      else if is_today then
        assign_state "Due Today" ;;; assign_icon "mdi:calendar-today"
      else
        assign_state ("Due in " ++ str days_remaining ++ " days") ;;;
        icon_default <== eval (fun self => Returns (_icon_default self)) ;;
        assign_icon icon_default
  | None =>
      calc_type <== eval (fun self => Returns (_calc_type self)) ;;
      assign_state (if String.eqb calc_type TYPE_PREDICTIVE
                    then "Need more history" else "Unknown") ;;;
      assign_days_remaining None ;;;
      assign_icon "mdi:help-circle-outline"
  end.

(** The body of the [try], lines 176-270. *)
Definition body (now : datetime) : stmt unit :=
  calculated <== eval (calculated_next now) ;;
  classification now calculated.

(** [_update_state]; [now] is the reading of [dt_util.now()]. *)
Definition _update_state (now : datetime) : stmt unit :=
  try_except (body now)
    (fun _ => assign_state "Error" ;;; assign_icon "mdi:alert").

End Host.

(** [sorted] for lists whose entries compare as their instants do: a list
    that holds both naive and aware entries is a [TypeError]. *)
Section Sorting.

Variable utcoffset : Datetime.datetime -> timedelta.

Fixpoint insert (x : datetime) (l : list datetime) : outcome (list datetime) :=
  match l with
  | [] => Returns [x]
  | y :: l' =>
      first <~ le utcoffset x y ;;
      if first then Returns (x :: y :: l')
      else rest <~ insert x l' ;; Returns (y :: rest)
  end.

Fixpoint insertion_sorted (l : list datetime) : outcome (list datetime) :=
  match l with
  | [] => Returns []
  | x :: l' => s <~ insertion_sorted l' ;; insert x s
  end.

End Sorting.

End Zoned.

(** A timestamp of the host's zone, and one without a zone. *)
Definition aware (d : datetime) : Zoned.datetime :=
  {| Zoned.wall := d; Zoned.tzinfo := Some Zoned.DEFAULT_TIME_ZONE |}.

Definition naive (d : datetime) : Zoned.datetime :=
  {| Zoned.wall := d; Zoned.tzinfo := None |}.

(** The sensor of the simpler model as one whose timestamps are all of the
    host's zone, and back. *)
Definition zoned (self : TaskSensor) : Zoned.TaskSensor :=
  {| Zoned._name := _name self; Zoned._calc_type := _calc_type self;
     Zoned._icon_default := _icon_default self; Zoned._icon := _icon self;
     Zoned._interval_days := _interval_days self;
     Zoned._schedule := _schedule self;
     Zoned._state := _state self;
     Zoned._last_done := option_map aware (_last_done self);
     Zoned._next_due := option_map aware (_next_due self);
     Zoned._days_remaining := _days_remaining self;
     Zoned._history := map aware (_history self) |}.


(** A host with a constant offset of one hour. *)
Definition cet (wall : datetime) : timedelta := 3600 * us_per_second.

(** The sliding task with a last completion restored without a zone. *)
Definition sliding_restored_naive : Zoned.TaskSensor :=
  Zoned.Build_TaskSensor "Sliding Task" TYPE_SLIDING DEFAULT_ICON DEFAULT_ICON
    (Some 7) None "Unknown" (Some (naive mock_now)) None None
    [naive mock_now].

(** * Properties *)

(** ** Recompute: what it reads and what it writes *)

Lemma classify_completions (self : TaskSensor) (now : datetime)
    (c : option datetime) :
  _history (classify self now c) = _history self /\
  _last_done (classify self now c) = _last_done self.
Proof.
  unfold classify.
  destruct c as [next_due|]; [|split; reflexivity].
  destruct (next_due <? now); [split; reflexivity|].
  destruct (toordinal next_due =? toordinal now); split; reflexivity.
Qed.

Lemma update_state_completions (self : TaskSensor) (now : datetime) :
  _history (_update_state self now) = _history self /\
  _last_done (_update_state self now) = _last_done self.
Proof.
  unfold _update_state.
  destruct (calculated_next self now) as [c|e].
  - apply classify_completions.
  - split; reflexivity.
Qed.

Lemma classify_next_due (self : TaskSensor) (now : datetime)
    (c : option datetime) :
  _next_due (classify self now c) = c.
Proof.
  unfold classify.
  destruct c as [next_due|]; [|reflexivity].
  destruct (next_due <? now); [reflexivity|].
  destruct (toordinal next_due =? toordinal now); reflexivity.
Qed.

Lemma update_state_next_due (self : TaskSensor) (now : datetime)
    (c : option datetime) :
  calculated_next self now = Ok c ->
  _next_due (_update_state self now) = c.
Proof.
  intros H. unfold _update_state. rewrite H. apply classify_next_due.
Qed.

Lemma update_state_coherent (self : TaskSensor) (now : datetime) :
  coherent self -> coherent (_update_state self now).
Proof.
  unfold coherent.
  destruct (update_state_completions self now) as [-> ->]. trivial.
Qed.

Lemma init_coherent name calc_type icon interval schedule :
  coherent (init name calc_type icon interval schedule).
Proof. reflexivity. Qed.

Lemma reset_history_coherent (self : TaskSensor) (now : datetime) :
  coherent (reset_history self now).
Proof. apply update_state_coherent. reflexivity. Qed.

(** [base + timedelta(days=n)] succeeds on a representable result. *)
Lemma plus_days_ok (base : datetime) (n : Z) :
  - max_delta_days <= n <= max_delta_days ->
  in_range (base + n * us_per_day) = true ->
  plus_days base n = Ok (Some (base + n * us_per_day)).
Proof.
  intros Hn Hr. unfold plus_days, timedelta_days, check_delta, days.
  replace (n * us_per_day / us_per_day) with n
    by (symmetry; apply Z.div_mul; discriminate).
  replace ((- max_delta_days <=? n) && (n <=? max_delta_days)) with true
    by (symmetry; apply andb_true_intro; split; apply Z.leb_le; lia).
  simpl. unfold add. rewrite Hr. reflexivity.
Qed.

Lemma truthy_int_pos (n : Z) : 1 <= n -> truthy_int (Some n) = Some n.
Proof. intros H. destruct n; try reflexivity; lia. Qed.

(** ** [sorted] and the slice [[-10:]] *)

Lemma insert_perm (x : Z) (l : list Z) : Permutation (x :: l) (insert x l).
Proof.
  induction l as [|y l IH]; simpl; [reflexivity|].
  destruct (x <=? y); [reflexivity|].
  rewrite perm_swap. apply perm_skip, IH.
Qed.

Lemma sorted_perm (l : list Z) : Permutation l (sorted l).
Proof.
  induction l as [|x l IH]; simpl; [constructor|].
  rewrite <- insert_perm. apply perm_skip, IH.
Qed.

Lemma insert_sorted (x : Z) (l : list Z) :
  StronglySorted Z.le l -> StronglySorted Z.le (insert x l).
Proof.
  induction 1 as [|y l Hs IH Hy]; simpl.
  - repeat constructor.
  - destruct (x <=? y) eqn:E.
    + apply Z.leb_le in E. constructor.
      * constructor; assumption.
      * constructor; [assumption|].
        eapply Forall_impl; [|exact Hy]. intros; lia.
    + apply Z.leb_gt in E. constructor; [assumption|].
      eapply Permutation_Forall; [apply insert_perm|].
      constructor; [lia|assumption].
Qed.

Lemma sorted_sorted (l : list Z) : StronglySorted Z.le (sorted l).
Proof.
  induction l as [|x l IH]; simpl; [constructor|].
  apply insert_sorted, IH.
Qed.

Lemma sorted_length (l : list Z) : List.length (sorted l) = List.length l.
Proof. symmetry. apply Permutation_length, sorted_perm. Qed.

(** On an ascending list the sort is the identity. *)
Lemma sorted_id (l : list Z) : StronglySorted Z.le l -> sorted l = l.
Proof.
  induction 1 as [|x l Hs IH Hx]; simpl; [reflexivity|].
  rewrite IH. destruct l as [|y l']; [reflexivity|].
  simpl. inversion Hx as [|? ? Hxy _]; subst.
  apply Z.leb_le in Hxy. rewrite Hxy. reflexivity.
Qed.

Lemma skipn_sorted (n : nat) (l : list Z) :
  StronglySorted Z.le l -> StronglySorted Z.le (skipn n l).
Proof.
  revert l. induction n as [|n IH]; intros l H; [exact H|].
  destruct l as [|x l]; [exact H|].
  simpl. apply IH. inversion H; assumption.
Qed.

Lemma last_n_length {A : Type} (n : nat) (l : list A) :
  List.length (last_n n l) = Nat.min n (List.length l).
Proof. unfold last_n. rewrite length_skipn. lia. Qed.

Lemma last_opt_app {A : Type} (l : list A) (x : A) :
  last_opt (l ++ [x]) = Some x.
Proof.
  destruct l as [|y l]; [reflexivity|].
  simpl. f_equal. apply last_last.
Qed.

Lemma insert_app_last (x t : Z) (l : list Z) :
  x <= t -> insert x (l ++ [t]) = insert x l ++ [t].
Proof.
  intros Hx. induction l as [|y l IH]; simpl.
  - apply Z.leb_le in Hx. rewrite Hx. reflexivity.
  - destruct (x <=? y); [reflexivity|]. rewrite IH. reflexivity.
Qed.

(** A completion not earlier than any recorded one sorts to the end. *)
Lemma sorted_app_last (h : list Z) (t : Z) :
  Forall (fun x => x <= t) h -> sorted (h ++ [t]) = sorted h ++ [t].
Proof.
  induction 1 as [|x h Hx Hh IH]; simpl; [reflexivity|].
  rewrite IH. apply insert_app_last, Hx.
Qed.

Lemma last_n_app_last {A : Type} (n : nat) (l : list A) (x : A) :
  (1 <= n)%nat -> last_opt (last_n n (l ++ [x])) = Some x.
Proof.
  intros Hn. unfold last_n. rewrite length_app, skipn_app. simpl.
  replace (List.length l + 1 - n - List.length l)%nat with 0%nat by lia.
  simpl. apply last_opt_app.
Qed.

Lemma mark_as_done_history (self : TaskSensor) (custom_date : option datetime)
    (clock now : datetime) :
  _history (mark_as_done self custom_date clock now) =
  last_n 10 (sorted (_history self ++
    [match custom_date with Some d => d | None => clock end])).
Proof.
  unfold mark_as_done.
  destruct (update_state_completions
    (set_completions self
      (last_n 10 (sorted (_history self ++
         [match custom_date with Some d => d | None => clock end])))
      match last_opt (last_n 10 (sorted (_history self ++
         [match custom_date with Some d => d | None => clock end]))) with
      | Some l => Some l
      | None => _last_done self
      end) now) as [H _].
  exact H.
Qed.

Lemma mark_as_done_last_done (self : TaskSensor) (custom_date : option datetime)
    (clock now : datetime) :
  _last_done (mark_as_done self custom_date clock now) =
  last_opt (_history (mark_as_done self custom_date clock now)).
Proof.
  rewrite mark_as_done_history. unfold mark_as_done. cbv zeta.
  set (l := sorted _).
  match goal with
  | |- _last_done (_update_state ?s now) = _ =>
      destruct (update_state_completions s now) as [_ H]
  end.
  rewrite H. simpl.
  destruct (last_opt (last_n 10 l)) eqn:E; [symmetry; exact E|].
  exfalso. unfold last_n in E.
  assert (Hl : (1 <= List.length l)%nat).
  { unfold l. rewrite sorted_length, length_app. simpl. lia. }
  destruct (skipn (List.length l - 10) l) eqn:Es; [|discriminate].
  apply (f_equal (@List.length Z)) in Es. rewrite length_skipn in Es.
  simpl in Es. lia.
Qed.

Lemma mark_as_done_coherent (self : TaskSensor) (custom_date : option datetime)
    (clock now : datetime) :
  coherent (mark_as_done self custom_date clock now).
Proof. apply mark_as_done_last_done. Qed.

Lemma type_sliding_dispatch :
  String.eqb TYPE_SLIDING TYPE_PREDICTIVE = false /\
  String.eqb TYPE_SLIDING TYPE_SLIDING = true.
Proof. split; reflexivity. Qed.

Lemma calculated_next_sliding (self : TaskSensor) (now : datetime) (n : Z) :
  _calc_type self = TYPE_SLIDING ->
  _interval_days self = Some n ->
  1 <= n ->
  calculated_next self now =
  plus_days (match _last_done self with Some l => l | None => now end) n.
Proof.
  intros Ht Hi Hn. unfold calculated_next.
  rewrite Ht. destruct type_sliding_dispatch as [-> ->].
  rewrite Hi, (truthy_int_pos n Hn).
  destruct (_last_done self); reflexivity.
Qed.

(** ** Sliding tasks *)

(** C3. A Sliding task with [interval_days >= 1] and no completion on record
    (an empty history, in a coherent sensor) is due at
    [now + interval_days], whenever that timestamp is representable. *)
Theorem C3_sliding_without_history (self : TaskSensor) (now : datetime) (n : Z) :
  _calc_type self = TYPE_SLIDING ->
  _interval_days self = Some n ->
  1 <= n <= max_delta_days ->
  coherent self ->
  _history self = [] ->
  in_range (now + n * us_per_day) = true ->
  _next_due (_update_state self now) = Some (now + n * us_per_day).
Proof.
  intros Ht Hi Hn Hc Hh Hr.
  apply update_state_next_due.
  rewrite (calculated_next_sliding self now n Ht Hi) by lia.
  unfold coherent in Hc. rewrite Hh in Hc. simpl in Hc. rewrite Hc.
  apply plus_days_ok; [unfold max_delta_days in *; lia|exact Hr].
Qed.

Lemma C3_sliding_without_history_witness :
  _next_due (_update_state sliding_task mock_now) =
  Some (mock_now + 7 * us_per_day).
Proof.
  apply (C3_sliding_without_history sliding_task mock_now 7).
  - reflexivity.
  - reflexivity.
  - unfold max_delta_days. lia.
  - reflexivity.
  - reflexivity.
  - reflexivity.
Defined.

(** C4, as amended. After [record_completion(t)] on a Sliding task with
    [interval_days >= 1], where [t] is not earlier than any completion
    already in the history, [last_completion] is [t] and the recomputed
    [next_due] is [t + interval_days] (when representable). *)
Theorem C4_sliding_after_completion (self : TaskSensor) (t clock now : datetime)
    (n : Z) :
  _calc_type self = TYPE_SLIDING ->
  _interval_days self = Some n ->
  1 <= n <= max_delta_days ->
  Forall (fun x => x <= t) (_history self) ->
  in_range (t + n * us_per_day) = true ->
  _last_done (mark_as_done self (Some t) clock now) = Some t /\
  _next_due (mark_as_done self (Some t) clock now) = Some (t + n * us_per_day).
Proof.
  intros Ht Hi Hn Hall Hr.
  assert (Hlast : last_opt (last_n 10 (sorted (_history self ++ [t]))) = Some t).
  { rewrite sorted_app_last by exact Hall. apply last_n_app_last. lia. }
  split.
  - rewrite mark_as_done_last_done, mark_as_done_history. exact Hlast.
  - unfold mark_as_done. cbv zeta. rewrite Hlast.
    apply update_state_next_due.
    rewrite (calculated_next_sliding _ now n) by (try assumption; lia).
    simpl. apply plus_days_ok; [unfold max_delta_days in *; lia|exact Hr].
Qed.

Lemma C4_sliding_after_completion_witness :
  _last_done (mark_as_done sliding_task (Some mock_now) mock_now mock_now)
    = Some mock_now /\
  _next_due (mark_as_done sliding_task (Some mock_now) mock_now mock_now)
    = Some (mock_now + 7 * us_per_day).
Proof.
  apply (C4_sliding_after_completion sliding_task mock_now mock_now mock_now 7).
  - reflexivity.
  - reflexivity.
  - unfold max_delta_days. lia.
  - constructor.
  - reflexivity.
Defined.

(** C4, as stated, fails for a backdated completion: a task completed on
    January 10th and then marked done for January 5th keeps January 10th as
    its last completion and stays due on January 17th. *)
Lemma C4_backdated_completion :
  _calc_type sliding_done_jan10 = TYPE_SLIDING /\
  _interval_days sliding_done_jan10 = Some 7 /\
  _last_done (mark_as_done sliding_done_jan10 (Some jan5) mock_now mock_now)
    = Some (mk_datetime 2024 1 10 12 0 0 0) /\
  _last_done (mark_as_done sliding_done_jan10 (Some jan5) mock_now mock_now)
    <> Some jan5 /\
  _next_due (mark_as_done sliding_done_jan10 (Some jan5) mock_now mock_now)
    = Some (mk_datetime 2024 1 17 12 0 0 0) /\
  _next_due (mark_as_done sliding_done_jan10 (Some jan5) mock_now mock_now)
    <> Some (jan5 + 7 * us_per_day).
Proof.
  vm_compute. repeat split; discriminate.
Qed.

(** ** The completion history *)

(** C5. Whatever the history and the timestamp, [record_completion] leaves
    the history ascending and with at most 10 entries; on a history of 10
    the new one is the sort of the 11 entries without its first, oldest,
    entry. A reset leaves the empty history and a recompute leaves the
    history as it is, so the bound and the order are kept from then on. *)
Theorem C5_history_sorted_and_bounded (self : TaskSensor)
    (custom_date : option datetime) (clock now : datetime) :
  let done_time := match custom_date with Some d => d | None => clock end in
  let after := mark_as_done self custom_date clock now in
  StronglySorted Z.le (_history after) /\
  (List.length (_history after) <= 10)%nat /\
  (List.length (_history self) = 10%nat ->
   exists oldest,
     sorted (_history self ++ [done_time]) = oldest :: _history after /\
     Forall (fun x => oldest <= x) (_history after) /\
     Permutation (oldest :: _history after) (_history self ++ [done_time])) /\
  _history (reset_history self now) = [] /\
  _history (_update_state self now) = _history self.
Proof.
  intros done_time after. unfold after.
  rewrite mark_as_done_history. fold done_time.
  split; [|split; [|split; [|split]]].
  - apply skipn_sorted, sorted_sorted.
  - rewrite last_n_length. lia.
  - intros Hlen.
    pose proof (sorted_sorted (_history self ++ [done_time])) as Hs.
    pose proof (sorted_perm (_history self ++ [done_time])) as Hp.
    pose proof (sorted_length (_history self ++ [done_time])) as Hl.
    rewrite length_app, Hlen in Hl. simpl in Hl.
    unfold last_n. rewrite Hl. simpl.
    destruct (sorted (_history self ++ [done_time])) as [|oldest rest];
      [discriminate|].
    exists oldest. simpl. split; [reflexivity|]. split.
    + inversion Hs; assumption.
    + symmetry. exact Hp.
  - unfold reset_history.
    destruct (update_state_completions (set_completions self [] None) now)
      as [H _].
    exact H.
  - apply update_state_completions.
Qed.

Lemma C5_history_sorted_and_bounded_witness :
  exists oldest,
    sorted (_history sliding_full ++ [jan11]) =
      oldest :: _history (mark_as_done sliding_full (Some jan11) mock_now mock_now) /\
    Forall (fun x => oldest <= x)
      (_history (mark_as_done sliding_full (Some jan11) mock_now mock_now)) /\
    Permutation
      (oldest :: _history (mark_as_done sliding_full (Some jan11) mock_now mock_now))
      (_history sliding_full ++ [jan11]).
Proof.
  apply (C5_history_sorted_and_bounded sliding_full (Some jan11) mock_now mock_now).
  reflexivity.
Defined.

(** ** Classification *)

Lemma update_state_ok (self : TaskSensor) (now : datetime)
    (c : option datetime) :
  calculated_next self now = Ok c ->
  _update_state self now = classify self now c.
Proof. intros H. unfold _update_state. rewrite H. reflexivity. Qed.

(** The whole seconds of a timedelta are positive exactly when its
    remainder of the day reaches one second. *)
Lemma seconds_pos_iff (delta : timedelta) :
  (0 <? seconds delta) = true <-> us_per_second <= delta mod us_per_day.
Proof.
  unfold seconds, us_per_second, us_per_day. rewrite Z.ltb_lt.
  pose proof (Z.mod_pos_bound delta 86400000000 ltac:(lia)) as Hb.
  split; intros H.
  - destruct (Z_lt_le_dec (delta mod 86400000000) 1000000) as [Hlt|Hle];
      [|exact Hle].
    rewrite Z.div_small in H by lia. lia.
  - apply Z.div_str_pos. lia.
Qed.

(** C6, as amended. Whenever recompute classifies a present [next_due],
    [days_remaining] is [delta.days + 1] if the remainder of the day of
    [delta = next_due - now] is at least one second (the [seconds] field is
    positive) and [delta.days] otherwise; it is the [n] of the status
    "Due in n days". *)
Theorem C6_days_remaining (self : TaskSensor) (now next_due : datetime) :
  calculated_next self now = Ok (Some next_due) ->
  let delta := sub next_due now in
  let n := days delta + (if 0 <? seconds delta then 1 else 0) in
  _days_remaining (_update_state self now) = Some n /\
  (us_per_second <= delta mod us_per_day -> n = days delta + 1) /\
  (delta mod us_per_day < us_per_second -> n = days delta) /\
  (now <= next_due -> toordinal next_due <> toordinal now ->
   _state (_update_state self now) = ("Due in " ++ str n ++ " days")%string).
Proof.
  intros H delta n. rewrite (update_state_ok self now _ H).
  unfold classify. fold delta. fold n.
  split; [|split; [|split]].
  - destruct (next_due <? now); [reflexivity|].
    destruct (toordinal next_due =? toordinal now); reflexivity.
  - intros Hs. apply seconds_pos_iff in Hs. unfold n. rewrite Hs. reflexivity.
  - intros Hs. unfold n.
    destruct (0 <? seconds delta) eqn:E; [|lia].
    apply seconds_pos_iff in E. lia.
  - intros Hle Hday.
    replace (next_due <? now) with false by (symmetry; apply Z.ltb_ge; exact Hle).
    apply Z.eqb_neq in Hday. rewrite Hday. reflexivity.
Qed.

Lemma C6_days_remaining_witness :
  _days_remaining (_update_state sliding_done_now half_second_early) =
    Some (days (sub (mock_now + 7 * us_per_day) half_second_early) +
          (if 0 <? seconds (sub (mock_now + 7 * us_per_day) half_second_early)
           then 1 else 0)).
Proof.
  apply (C6_days_remaining sliding_done_now half_second_early
           (mock_now + 7 * us_per_day)).
  reflexivity.
Defined.

(** C6, as stated, fails on a remainder shorter than a second: due in one day
    and half a second, the task is "Due in 1 days", though the remainder of
    the day is not zero. *)
Lemma C6_subsecond_remainder :
  calculated_next sliding_done_now half_second_early =
    Ok (Some (mock_now + 7 * us_per_day)) /\
  sub (mock_now + 7 * us_per_day) half_second_early mod us_per_day = 500000 /\
  days (sub (mock_now + 7 * us_per_day) half_second_early) = 1 /\
  _state (_update_state sliding_done_now half_second_early)
    = "Due in 1 days"%string /\
  _days_remaining (_update_state sliding_done_now half_second_early) = Some 1 /\
  _days_remaining (_update_state sliding_done_now half_second_early)
    <> Some (days (sub (mock_now + 7 * us_per_day) half_second_early) + 1).
Proof.
  vm_compute. repeat split; discriminate.
Qed.

Lemma classify_not_error (self : TaskSensor) (now : datetime)
    (c : option datetime) :
  _state (classify self now c) <> "Error"%string.
Proof.
  unfold classify. destruct c as [next_due|].
  - destruct (next_due <? now); [discriminate|].
    destruct (toordinal next_due =? toordinal now); discriminate.
  - destruct (String.eqb (_calc_type self) TYPE_PREDICTIVE); discriminate.
Qed.

(** C7. A [next_due] equal to [now] is not Overdue; a classified [next_due]
    is Overdue exactly when it is strictly before [now]; and one on the
    calendar date of [now] but later in the day is "Due Today", not
    "Due in 0 days". *)
Theorem C7_status_boundaries (self : TaskSensor) (now : datetime) :
  (_next_due (_update_state self now) = Some now ->
   _state (_update_state self now) <> "Overdue"%string) /\
  (forall next_due,
     calculated_next self now = Ok (Some next_due) ->
     (_state (_update_state self now) = "Overdue"%string <-> next_due < now) /\
     (toordinal next_due = toordinal now -> now < next_due ->
      _state (_update_state self now) = "Due Today"%string /\
      _state (_update_state self now) <> ("Due in " ++ str 0 ++ " days")%string)).
Proof.
  split.
  - unfold _update_state.
    destruct (calculated_next self now) as [c|e]; [|discriminate].
    rewrite classify_next_due. intros ->. unfold classify.
    rewrite Z.ltb_irrefl, Z.eqb_refl. discriminate.
  - intros next_due H. rewrite (update_state_ok self now _ H).
    unfold classify. split.
    + destruct (next_due <? now) eqn:E.
      * apply Z.ltb_lt in E. split; [intros _; exact E|reflexivity].
      * apply Z.ltb_ge in E. split; [|lia].
        destruct (toordinal next_due =? toordinal now); discriminate.
    + intros Hday Hlt.
      replace (next_due <? now) with false by (symmetry; apply Z.ltb_ge; lia).
      rewrite Hday, Z.eqb_refl. split; [reflexivity|discriminate].
Qed.

Lemma C7_status_boundaries_witness :
  _state (_update_state sliding_done_now (mock_now + 7 * us_per_day))
    <> "Overdue"%string /\
  (_state (_update_state sliding_done_now (mock_now + 7 * us_per_day - 1))
     = "Due Today"%string /\
   _state (_update_state sliding_done_now (mock_now + 7 * us_per_day - 1))
     <> ("Due in " ++ str 0 ++ " days")%string).
Proof.
  split.
  - apply (proj1 (C7_status_boundaries sliding_done_now
                    (mock_now + 7 * us_per_day))).
    reflexivity.
  - apply (proj2 (C7_status_boundaries sliding_done_now
                    (mock_now + 7 * us_per_day - 1))
             (mock_now + 7 * us_per_day)).
    + reflexivity.
    + reflexivity.
    + reflexivity.
Defined.

(** ** Predictive tasks with too little history *)

Lemma type_predictive_dispatch :
  String.eqb TYPE_PREDICTIVE TYPE_PREDICTIVE = true.
Proof. reflexivity. Qed.

Lemma calculated_next_predictive_short (self : TaskSensor) (now : datetime) :
  _calc_type self = TYPE_PREDICTIVE ->
  (List.length (_history self) < 2)%nat ->
  calculated_next self now =
  match truthy_int (_interval_days self) with
  | Some n => plus_days (match _last_done self with Some l => l | None => now end) n
  | None => Ok None
  end.
Proof.
  intros Ht Hlen. unfold calculated_next.
  rewrite Ht, type_predictive_dispatch.
  replace (2 <=? List.length (_history self))%nat with false
    by (symmetry; apply Nat.leb_gt; exact Hlen).
  simpl. destruct (truthy_int (_interval_days self)); [|reflexivity].
  destruct (_last_done self); reflexivity.
Qed.

(** C8. A Predictive task with fewer than 2 history entries: with an
    [interval_days >= 1] configured, [next_due] is
    [last_completion + interval_days] if a completion is on record and
    [now + interval_days] otherwise (when representable); with none
    configured, [next_due] and [days_remaining] are absent, the status is
    "Need more history" and the icon the help icon. *)
Theorem C8_predictive_insufficient_history (self : TaskSensor) (now : datetime) :
  _calc_type self = TYPE_PREDICTIVE ->
  (List.length (_history self) < 2)%nat ->
  (forall n base,
     _interval_days self = Some n ->
     1 <= n <= max_delta_days ->
     base = match _last_done self with Some l => l | None => now end ->
     in_range (base + n * us_per_day) = true ->
     _next_due (_update_state self now) = Some (base + n * us_per_day)) /\
  (_interval_days self = None ->
   _next_due (_update_state self now) = None /\
   _days_remaining (_update_state self now) = None /\
   _state (_update_state self now) = "Need more history"%string /\
   _icon (_update_state self now) = "mdi:help-circle-outline"%string).
Proof.
  intros Ht Hlen.
  pose proof (calculated_next_predictive_short self now Ht Hlen) as Hc.
  split.
  - intros n base Hi Hn -> Hr.
    apply update_state_next_due. rewrite Hc, Hi.
    rewrite truthy_int_pos by lia.
    apply plus_days_ok; [unfold max_delta_days in *; lia|exact Hr].
  - intros Hi. rewrite Hi in Hc. simpl in Hc.
    rewrite (update_state_ok self now _ Hc).
    unfold classify. rewrite Ht, type_predictive_dispatch.
    repeat split.
Qed.

Lemma C8_predictive_insufficient_history_witness :
  _next_due (_update_state predictive_task mock_now) =
    Some (mock_now + 10 * us_per_day) /\
  _next_due
    (_update_state (mark_as_done predictive_task None mock_now mock_now) tuesday)
    = Some (mock_now + 10 * us_per_day).
Proof.
  split.
  - apply (proj1 (C8_predictive_insufficient_history predictive_task mock_now
                    eq_refl ltac:(simpl; lia)) 10 mock_now).
    + reflexivity.
    + unfold max_delta_days. lia.
    + reflexivity.
    + reflexivity.
  - apply (proj1 (C8_predictive_insufficient_history
                    (mark_as_done predictive_task None mock_now mock_now)
                    tuesday eq_refl ltac:(simpl; lia)) 10 mock_now).
    + reflexivity.
    + unfold max_delta_days. lia.
    + reflexivity.
    + reflexivity.
Defined.

(** ** Failures of the recompute *)

Lemma zoned_sub_lt (utcoffset : datetime -> timedelta) (a b : Zoned.datetime) :
  (exists d o, Zoned.sub utcoffset a b = Zoned.Returns d /\
               Zoned.lt utcoffset a b = Zoned.Returns o) \/
  (Zoned.sub utcoffset a b = Zoned.Raises Zoned.TypeError /\
   (Zoned.tzinfo a = None <-> Zoned.tzinfo b <> None)).
Proof.
  unfold Zoned.sub, Zoned.lt.
  destruct (Zoned.tzinfo a) as [[|oa]|], (Zoned.tzinfo b) as [[|ob]|];
    try (left; eexists; eexists; split; reflexivity);
    right; (split; [reflexivity|]); split; intros H; congruence.
Qed.

Lemma due_in_not_error (n : Z) : ("Due in " ++ str n ++ " days")%string <> "Error"%string.
Proof. discriminate. Qed.

(** What the classification leaves: the due date is assigned first, and
    nothing else when the subtraction raises. *)
Lemma classification_spec (utcoffset : datetime -> timedelta)
    (now : Zoned.datetime) (calculated : option Zoned.datetime)
    (self : Zoned.TaskSensor) :
  Zoned._next_due (snd (Zoned.classification utcoffset now calculated self))
    = calculated /\
  Zoned._history (snd (Zoned.classification utcoffset now calculated self))
    = Zoned._history self /\
  Zoned._last_done (snd (Zoned.classification utcoffset now calculated self))
    = Zoned._last_done self /\
  ((fst (Zoned.classification utcoffset now calculated self) = Zoned.Returns tt /\
    Zoned._state (snd (Zoned.classification utcoffset now calculated self))
      <> "Error"%string) \/
   (exists next_due,
      calculated = Some next_due /\
      fst (Zoned.classification utcoffset now calculated self)
        = Zoned.Raises Zoned.TypeError /\
      (Zoned.tzinfo next_due = None <-> Zoned.tzinfo now <> None) /\
      Zoned._state (snd (Zoned.classification utcoffset now calculated self))
        = Zoned._state self /\
      Zoned._icon (snd (Zoned.classification utcoffset now calculated self))
        = Zoned._icon self /\
      Zoned._days_remaining
        (snd (Zoned.classification utcoffset now calculated self))
        = Zoned._days_remaining self)).
Proof.
  unfold Zoned.classification.
  destruct calculated as [next_due|].
  - destruct (zoned_sub_lt utcoffset next_due now)
      as [(d & o & Hs & Hl)|[Hs Hmix]].
    + unfold Zoned.sbind, Zoned.eval, Zoned.assign_next_due,
        Zoned.assign_days_remaining, Zoned.assign_state, Zoned.assign_icon.
      rewrite Hs, Hl.
      destruct o; [|destruct (toordinal (Zoned.wall next_due)
                              =? toordinal (Zoned.wall now))];
        cbn; repeat split; left; split; try reflexivity; discriminate.
    + unfold Zoned.sbind, Zoned.eval, Zoned.assign_next_due. rewrite Hs.
      cbn. repeat split. right. exists next_due. repeat split; apply Hmix.
  - unfold Zoned.sbind, Zoned.eval, Zoned.assign_next_due,
      Zoned.assign_days_remaining, Zoned.assign_state, Zoned.assign_icon.
    cbn. repeat split. left. split; [reflexivity|].
    destruct (String.eqb (Zoned._calc_type self) TYPE_PREDICTIVE); discriminate.
Qed.

Lemma body_unfold (utcoffset : datetime -> timedelta)
    (sorted : list Zoned.datetime -> Zoned.outcome (list Zoned.datetime))
    (now : Zoned.datetime) (self : Zoned.TaskSensor) :
  Zoned.body utcoffset sorted now self =
  match Zoned.calculated_next utcoffset sorted now self with
  | Zoned.Returns calculated => Zoned.classification utcoffset now calculated self
  | Zoned.Raises e => (Zoned.Raises e, self)
  end.
Proof.
  unfold Zoned.body, Zoned.sbind, Zoned.eval.
  destruct (Zoned.calculated_next utcoffset sorted now self); reflexivity.
Qed.

(** C9. Recompute never lets an exception out: whatever the due-date
    computation or the classification raises, the call returns, the status
    is "Error"%string and the icon "mdi:alert"%string. The completions are as they were,
    and so are the days remaining; the due date is as it was when the
    computation raised, and is the newly computed one when the
    classification raised, which it does exactly on a due date and a clock
    reading of which one has a zone and the other has none. The status
    "Error"%string arises in no other way. *)
Theorem C9_exceptions_are_caught (utcoffset : datetime -> timedelta)
    (sorted : list Zoned.datetime -> Zoned.outcome (list Zoned.datetime))
    (self : Zoned.TaskSensor) (now : Zoned.datetime) :
  fst (Zoned._update_state utcoffset sorted now self) = Zoned.Returns tt /\
  (forall e,
     fst (Zoned.body utcoffset sorted now self) = Zoned.Raises e ->
     Zoned._state (snd (Zoned._update_state utcoffset sorted now self)) = "Error"%string /\
     Zoned._icon (snd (Zoned._update_state utcoffset sorted now self)) = "mdi:alert"%string /\
     Zoned._history (snd (Zoned._update_state utcoffset sorted now self))
       = Zoned._history self /\
     Zoned._last_done (snd (Zoned._update_state utcoffset sorted now self))
       = Zoned._last_done self /\
     Zoned._days_remaining (snd (Zoned._update_state utcoffset sorted now self))
       = Zoned._days_remaining self /\
     ((Zoned.calculated_next utcoffset sorted now self = Zoned.Raises e /\
       Zoned._next_due (snd (Zoned._update_state utcoffset sorted now self))
         = Zoned._next_due self) \/
      (exists next_due,
         Zoned.calculated_next utcoffset sorted now self
           = Zoned.Returns (Some next_due) /\
         e = Zoned.TypeError /\
         (Zoned.tzinfo next_due = None <-> Zoned.tzinfo now <> None) /\
         Zoned._next_due (snd (Zoned._update_state utcoffset sorted now self))
           = Some next_due))) /\
  (Zoned._state (snd (Zoned._update_state utcoffset sorted now self)) = "Error"%string ->
   exists e, fst (Zoned.body utcoffset sorted now self) = Zoned.Raises e).
Proof.
  unfold Zoned._update_state, Zoned.try_except. rewrite body_unfold.
  destruct (Zoned.calculated_next utcoffset sorted now self) as [calculated|e0].
  - destruct (classification_spec utcoffset now calculated self)
      as (Hnd & Hh & Hl & [[Hr Hst]|(nd & Hc & Hr & Hmix & Hs & Hi & Hd)]);
      destruct (Zoned.classification utcoffset now calculated self) as [r self'];
      cbn [fst snd] in *; subst r.
    + split; [reflexivity|]. split; [discriminate|].
      intros H. contradiction.
    + cbn. split; [reflexivity|]. split.
      * intros e He. injection He as <-.
        repeat split; try assumption.
        right. exists nd. split; [congruence|]. split; [reflexivity|].
        split; [exact Hmix|congruence].
      * intros _. exists Zoned.TypeError. reflexivity.
  - cbn. split; [reflexivity|]. split.
    + intros e He. injection He as <-. repeat split. left. split; reflexivity.
    + intros _. exists e0. reflexivity.
Qed.

(** ** The simpler model is the zoned one in the host's zone *)

Lemma deltas_one_zone (utcoffset : datetime -> timedelta) (l : list datetime) :
  Zoned.deltas utcoffset (map aware l) = Zoned.Returns (deltas l).
Proof.
  induction l as [|a l IH]; [reflexivity|].
  destruct l as [|b l']; [reflexivity|].
  change (map aware (a :: b :: l')) with (aware a :: map aware (b :: l')).
  change (map aware (b :: l')) with (aware b :: map aware l') in *.
  cbn [Zoned.deltas]. cbn [Zoned.deltas] in IH. rewrite IH. reflexivity.
Qed.

Lemma add_one_zone (d : datetime) (td : timedelta) :
  Zoned.add (aware d) td =
  match add d td with
  | Ok r => Zoned.Returns (aware r)
  | Raise e => Zoned.Raises (Zoned.Raised e)
  end.
Proof. unfold Zoned.add. cbn. destruct (add d td); reflexivity. Qed.

Lemma plus_days_one_zone (base : datetime) (n : Z) :
  Zoned.plus_days (aware base) n =
  match plus_days base n with
  | Ok c => Zoned.Returns (option_map aware c)
  | Raise e => Zoned.Raises (Zoned.Raised e)
  end.
Proof.
  unfold Zoned.plus_days, plus_days.
  destruct (timedelta_days n) as [td|e]; [|reflexivity].
  cbn [Zoned.lift Zoned.obind bind]. rewrite add_one_zone.
  destruct (add base td); reflexivity.
Qed.

Lemma calculated_next_one_zone (utcoffset : datetime -> timedelta)
    (zsorted : list Zoned.datetime -> Zoned.outcome (list Zoned.datetime))
    (self : TaskSensor) (now : datetime) :
  (forall l, zsorted (map aware l) = Zoned.Returns (map aware (sorted l))) ->
  Zoned.calculated_next utcoffset zsorted (aware now) (zoned self) =
  match calculated_next self now with
  | Ok c => Zoned.Returns (option_map aware c)
  | Raise e => Zoned.Raises (Zoned.Raised e)
  end.
Proof.
  intros Hsorted. unfold Zoned.calculated_next, calculated_next.
  cbn [zoned Zoned._calc_type Zoned._history Zoned._last_done
       Zoned._interval_days Zoned._schedule].
  destruct (String.eqb (_calc_type self) TYPE_PREDICTIVE).
  - rewrite length_map.
    destruct (2 <=? List.length (_history self))%nat.
    + rewrite Hsorted. cbn [Zoned.obind]. rewrite deltas_one_zone. cbn [Zoned.obind].
      destruct (deltas (sorted (_history self))) as [|g gs].
      * cbn [Zoned.obind bind].
        destruct (truthy_int (_interval_days self)) as [n|]; [|reflexivity].
        destruct (_last_done self) as [l|]; apply plus_days_one_zone.
      * destruct (avg_interval (g :: gs)) as [avg|e]; [|reflexivity].
        cbn [Zoned.lift Zoned.obind bind].
        destruct (_last_done self) as [l|]; cbn [option_map].
        -- rewrite add_one_zone. destruct (add l avg) as [r|e]; reflexivity.
        -- cbn [Zoned.obind bind].
           destruct (truthy_int (_interval_days self)) as [n|]; [|reflexivity].
           apply plus_days_one_zone.
    + cbn [Zoned.obind bind].
      destruct (truthy_int (_interval_days self)) as [n|]; [|reflexivity].
      destruct (_last_done self) as [l|]; apply plus_days_one_zone.
  - destruct (String.eqb (_calc_type self) TYPE_SLIDING).
    + destruct (_last_done self) as [l|]; cbn [option_map];
        destruct (truthy_int (_interval_days self)) as [n|];
        apply plus_days_one_zone.
    + destruct (String.eqb (_calc_type self) TYPE_FIXED); [|reflexivity].
      destruct (truthy_dict (_schedule self)) as [schedule|].
      * set (days_list := match CONF_DAYS schedule with
                          | Some l => l
                          | None => []
                          end).
        set (fb := match days_list with
                   | [] => (Rrule.DAILY, None)
                   | _ => (Rrule.WEEKLY, Some (parsed_days days_list))
                   end).
        destruct fb as [freq byweekday].
        assert (Hsp : match option_map aware (_last_done self) with
                      | Some last_done => last_done
                      | None => aware now
                      end = aware (start_point self now)).
        { unfold start_point. destruct (_last_done self); reflexivity. }
        rewrite Hsp. cbn [aware Zoned.tzinfo Zoned.wall].
        destruct (Rrule.after (Rrule.rrule freq byweekday (start_point self now))
                    (start_point self now)) as [occ|]; [|reflexivity].
        unfold Zoned.le. cbn [aware Zoned.tzinfo Zoned.wall Zoned.obind].
        destruct (replace_hm occ (hour (target_time schedule))
                    (minute (target_time schedule)) <=? start_point self now);
          [|reflexivity].
        destruct (timedelta_days 1) as [one_day|e]; [|reflexivity].
        cbn [Zoned.lift Zoned.obind bind].
        fold (aware (start_point self now)). rewrite add_one_zone.
        destruct (add (start_point self now) one_day) as [later|e]; [|reflexivity].
        cbn [Zoned.obind bind aware Zoned.wall].
        destruct (Rrule.after (Rrule.rrule freq byweekday (start_point self now))
                    later); reflexivity.
      * destruct (truthy_int (_interval_days self)) as [n|]; [|reflexivity].
        destruct (_last_done self) as [l|]; apply plus_days_one_zone.
Qed.

Lemma classification_one_zone (utcoffset : datetime -> timedelta)
    (self : TaskSensor) (now : datetime) (c : option datetime) :
  Zoned.classification utcoffset (aware now) (option_map aware c) (zoned self)
  = (Zoned.Returns tt, zoned (classify self now c)).
Proof.
  unfold Zoned.classification, classify.
  destruct c as [next_due|]; cbn [option_map].
  - unfold Zoned.sbind, Zoned.eval, Zoned.assign_next_due,
      Zoned.assign_days_remaining, Zoned.assign_state, Zoned.assign_icon,
      Zoned.sub, Zoned.lt, sub.
    cbn [aware Zoned.tzinfo Zoned.wall].
    destruct (next_due <? now); [reflexivity|].
    destruct (toordinal next_due =? toordinal now); reflexivity.
  - unfold Zoned.sbind, Zoned.eval, Zoned.assign_next_due,
      Zoned.assign_days_remaining, Zoned.assign_state, Zoned.assign_icon.
    reflexivity.
Qed.

(** On a sensor whose timestamps all carry the host's zone, read at a
    clock of that zone, the zoned recompute is the recompute of the simpler
    model. *)
Lemma update_state_one_zone (utcoffset : datetime -> timedelta)
    (zsorted : list Zoned.datetime -> Zoned.outcome (list Zoned.datetime))
    (self : TaskSensor) (now : datetime) :
  (forall l, zsorted (map aware l) = Zoned.Returns (map aware (sorted l))) ->
  Zoned._update_state utcoffset zsorted (aware now) (zoned self)
  = (Zoned.Returns tt, zoned (_update_state self now)).
Proof.
  intros Hsorted. unfold Zoned._update_state, Zoned.try_except, _update_state.
  rewrite body_unfold, (calculated_next_one_zone utcoffset zsorted self now Hsorted).
  destruct (calculated_next self now) as [c|e].
  - rewrite classification_one_zone. reflexivity.
  - reflexivity.
Qed.

Lemma C9_exceptions_are_caught_witness :
  (Zoned._state (snd (Zoned._update_state cet (Zoned.insertion_sorted cet)
                        (aware tuesday) sliding_restored_naive)) = "Error"%string /\
   Zoned._icon (snd (Zoned._update_state cet (Zoned.insertion_sorted cet)
                       (aware tuesday) sliding_restored_naive)) = "mdi:alert"%string /\
   Zoned._history (snd (Zoned._update_state cet (Zoned.insertion_sorted cet)
                          (aware tuesday) sliding_restored_naive))
     = Zoned._history sliding_restored_naive /\
   Zoned._last_done (snd (Zoned._update_state cet (Zoned.insertion_sorted cet)
                            (aware tuesday) sliding_restored_naive))
     = Zoned._last_done sliding_restored_naive /\
   Zoned._days_remaining (snd (Zoned._update_state cet (Zoned.insertion_sorted cet)
                                 (aware tuesday) sliding_restored_naive))
     = Zoned._days_remaining sliding_restored_naive /\
   ((Zoned.calculated_next cet (Zoned.insertion_sorted cet) (aware tuesday)
       sliding_restored_naive = Zoned.Raises Zoned.TypeError /\
     Zoned._next_due (snd (Zoned._update_state cet (Zoned.insertion_sorted cet)
                             (aware tuesday) sliding_restored_naive))
       = Zoned._next_due sliding_restored_naive) \/
    (exists next_due,
       Zoned.calculated_next cet (Zoned.insertion_sorted cet) (aware tuesday)
         sliding_restored_naive = Zoned.Returns (Some next_due) /\
       Zoned.TypeError = Zoned.TypeError /\
       (Zoned.tzinfo next_due = None <-> Zoned.tzinfo (aware tuesday) <> None) /\
       Zoned._next_due (snd (Zoned._update_state cet (Zoned.insertion_sorted cet)
                               (aware tuesday) sliding_restored_naive))
         = Some next_due))) /\
  Zoned._state (snd (Zoned._update_state cet (Zoned.insertion_sorted cet)
                       (aware mock_now) (zoned sliding_far))) = "Error"%string.
Proof.
  split.
  - apply (proj1 (proj2 (C9_exceptions_are_caught cet (Zoned.insertion_sorted cet)
                           sliding_restored_naive (aware tuesday)))
             Zoned.TypeError).
    vm_compute. reflexivity.
  - apply (proj1 (proj2 (C9_exceptions_are_caught cet (Zoned.insertion_sorted cet)
                           (zoned sliding_far) (aware mock_now)))
             (Zoned.Raised OverflowError)).
    vm_compute. reflexivity.
Defined.

(** ** The frame of the recompute *)

(** C10, as amended. Recompute never changes [_history] or [_last_done],
    on the classification branches and on the caught-exception branch
    alike; among the entry points of the sensor, those two fields change
    only through [mark_as_done], [reset_history] and the restore of
    [async_added_to_hass]. *)
Theorem C10_recompute_frame
    (parse_datetime : string -> result (option datetime))
    (self : TaskSensor) (now : datetime) :
  (_history (_update_state self now) = _history self /\
   _last_done (_update_state self now) = _last_done self) /\
  (forall e,
     calculated_next self now = Raise e ->
     _state (_update_state self now) = "Error"%string /\
     _history (_update_state self now) = _history self /\
     _last_done (_update_state self now) = _last_done self) /\
  (forall c,
     _history (run parse_datetime c self) <> _history self \/
     _last_done (run parse_datetime c self) <> _last_done self ->
     is_completion_call c || is_restore_call c = true).
Proof.
  pose proof (update_state_completions self now) as Hf.
  split; [exact Hf|]. split.
  - intros e H. split; [|exact Hf].
    unfold _update_state. rewrite H. reflexivity.
  - intros c Hch. destruct c as [now'|cd clock now'|now'|ls now'];
      try reflexivity.
    exfalso. simpl in Hch.
    destruct (update_state_completions self now') as [H1 H2].
    destruct Hch as [Hch|Hch]; contradiction.
Qed.

Lemma C10_recompute_frame_witness :
  is_completion_call (Call_async_added_to_hass (Some stored_jan1) mock_now)
  || is_restore_call (Call_async_added_to_hass (Some stored_jan1) mock_now)
  = true.
Proof.
  apply (proj2 (proj2 (C10_recompute_frame parse_one sliding_task mock_now))
           (Call_async_added_to_hass (Some stored_jan1) mock_now)).
  left. discriminate.
Defined.

(** C10, as stated, fails on the restore: [async_added_to_hass] is neither
    [mark_as_done] nor [reset_history], and it sets both fields from the
    stored state. *)
Lemma C10_restore_changes_completions :
  is_completion_call (Call_async_added_to_hass (Some stored_jan1) mock_now)
    = false /\
  _history sliding_task = [] /\
  _last_done sliding_task = None /\
  _history (run parse_one
              (Call_async_added_to_hass (Some stored_jan1) mock_now)
              sliding_task) = [mock_now] /\
  _last_done (run parse_one
                (Call_async_added_to_hass (Some stored_jan1) mock_now)
                sliding_task) = Some mock_now.
Proof.
  repeat split; vm_compute; reflexivity.
Qed.

(** ** Floating-point rounding

    The operations of [SpecFloat] on floats that are not negative: each
    returns the real result rounded to the nearest double, so within
    [roundoff] of it in relative terms. *)














































(** ** The floats of the sensor *)
























Lemma last_in {A : Type} (l : list A) (d : A) : In (last l d) (d :: l).
Proof.
  induction l as [|a l IH]; [left; reflexivity|].
  destruct l as [|b l]; [right; left; reflexivity|].
  change (last (a :: b :: l) d) with (last (b :: l) d).
  destruct IH as [E|Hin]; [left; exact E|right; right; exact Hin].
Qed.

(** ** Predictive tasks with enough history *)








(** ** Dates and clock times *)

Lemma timeofday_bound (d : datetime) : 0 <= timeofday d < us_per_day.
Proof. unfold timeofday, us_per_day. apply Z.mod_pos_bound. lia. Qed.

Lemma combine_split (d : datetime) : combine (toordinal d) (timeofday d) = d.
Proof.
  unfold combine, toordinal, timeofday.
  pose proof (Z.div_mod d us_per_day ltac:(discriminate)). lia.
Qed.

Lemma toordinal_combine (o : Z) (t : time) :
  0 <= t < us_per_day -> toordinal (combine o t) = o.
Proof.
  intros Ht. unfold toordinal, combine.
  rewrite Z.div_add_l by discriminate.
  rewrite Z.div_small by exact Ht. lia.
Qed.

Lemma timeofday_combine (o : Z) (t : time) :
  0 <= t < us_per_day -> timeofday (combine o t) = t.
Proof.
  intros Ht. unfold timeofday, combine.
  rewrite Z.add_comm, Z.mod_add by discriminate.
  apply Z.mod_small, Ht.
Qed.

(** A timestamp on a later date is a later timestamp. *)
Lemma toordinal_lt (a b : datetime) : toordinal a < toordinal b -> a < b.
Proof.
  unfold toordinal. intros H.
  pose proof (Z.div_mod a us_per_day ltac:(discriminate)) as Ha.
  pose proof (Z.div_mod b us_per_day ltac:(discriminate)) as Hb.
  pose proof (Z.mod_pos_bound a us_per_day ltac:(reflexivity)) as Ha'.
  pose proof (Z.mod_pos_bound b us_per_day ltac:(reflexivity)) as Hb'.
  unfold us_per_day in *. lia.
Qed.

Lemma replace_microsecond0_le (d : datetime) : replace_microsecond0 d <= d.
Proof.
  unfold replace_microsecond0.
  pose proof (Z.mod_pos_bound d us_per_second ltac:(reflexivity)). lia.
Qed.

Lemma toordinal_replace_microsecond0 (d : datetime) :
  toordinal (replace_microsecond0 d) = toordinal d.
Proof.
  unfold toordinal, replace_microsecond0, us_per_second, us_per_day.
  f_equal.
  pose proof (Z.div_mod d 86400000000 ltac:(discriminate)) as Hd.
  pose proof (Z.mod_pos_bound d 86400000000 ltac:(reflexivity)) as Hb.
  pose proof (Z.div_mod (d mod 86400000000) 1000000 ltac:(discriminate)) as Hs.
  pose proof (Z.mod_pos_bound (d mod 86400000000) 1000000 ltac:(reflexivity)) as Hsb.
  assert (Hm : d mod 1000000 = (d mod 86400000000) mod 1000000).
  { rewrite Hd at 1.
    replace (86400000000 * (d / 86400000000))
      with ((86400 * (d / 86400000000)) * 1000000) by lia.
    rewrite Z.add_comm, Z.mod_add by discriminate. reflexivity. }
  rewrite Hm.
  symmetry. apply (Z.div_unique _ _ _
    ((d mod 86400000000) - (d mod 86400000000) mod 1000000)); lia.
Qed.

Lemma clock_bound (t : time) :
  0 <= mk_time (hour t) (minute t) 0 < us_per_day.
Proof.
  unfold mk_time, hour, minute, us_per_second, us_per_day.
  pose proof (Z.mod_pos_bound (t / (3600 * 1000000)) 24 ltac:(reflexivity)).
  pose proof (Z.mod_pos_bound (t / (60 * 1000000)) 60 ltac:(reflexivity)).
  lia.
Qed.

(** ** The recurrence rule *)

(** The scan returns the first day, counted from [o], whose occurrence
    passes the filter and falls after [dt]. *)
Lemma scan_first (r : Rrule.rule) (dt : datetime) (n : nat) :
  forall (o : Z) (k : nat),
    (k < n)%nat ->
    o + Z.of_nat k <= max_ordinal ->
    Rrule.day_ok r (o + Z.of_nat k)
      && (dt <? Rrule.occurrence r (o + Z.of_nat k)) = true ->
    (forall j, (j < k)%nat ->
       Rrule.day_ok r (o + Z.of_nat j)
         && (dt <? Rrule.occurrence r (o + Z.of_nat j)) = false) ->
    Rrule.scan r dt o n = Some (Rrule.occurrence r (o + Z.of_nat k)).
Proof.
  induction n as [|n IH]; intros o k Hk Hmax Hgood Hfirst; [lia|].
  simpl.
  replace (max_ordinal <? o) with false by (symmetry; apply Z.ltb_ge; lia).
  destruct k as [|k].
  - rewrite Z.add_0_r in *. rewrite Hgood. reflexivity.
  - pose proof (Hfirst 0%nat ltac:(lia)) as H0.
    rewrite Z.add_0_r in H0. rewrite H0.
    replace (o + Z.of_nat (S k)) with (o + 1 + Z.of_nat k) in * by lia.
    apply IH; [lia|lia|exact Hgood|].
    intros j Hj. specialize (Hfirst (S j) ltac:(lia)).
    replace (o + Z.of_nat (S j)) with (o + 1 + Z.of_nat j) in Hfirst by lia.
    exact Hfirst.
Qed.

Lemma first_true (P : nat -> bool) (k : nat) :
  P k = true ->
  exists k', (k' <= k)%nat /\ P k' = true /\
             forall j, (j < k')%nat -> P j = false.
Proof.
  revert P. induction k as [|k IH]; intros P Hk.
  - exists 0%nat. split; [lia|]. split; [exact Hk|]. intros j Hj. lia.
  - destruct (P 0%nat) eqn:E0.
    + exists 0%nat. split; [lia|]. split; [exact E0|]. intros j Hj. lia.
    + destruct (IH (fun j => P (S j)) Hk) as (k' & Hle & Hp & Hmin).
      exists (S k'). split; [lia|]. split; [exact Hp|].
      intros [|j] Hj; [exact E0|]. apply Hmin. lia.
Qed.

Lemma existsb_eqb_In (x : Z) (l : list Z) :
  existsb (Z.eqb x) l = true <-> In x l.
Proof.
  rewrite existsb_exists. split.
  - intros (y & Hy & E). apply Z.eqb_eq in E. subst. exact Hy.
  - intros H. exists x. split; [exact H|apply Z.eqb_refl].
Qed.

(** Every weekday comes round within the next seven days. *)
Lemma weekday_within_week (o w : Z) :
  0 <= w < 7 ->
  exists k, (1 <= k <= 7)%nat /\ Rrule.ord_weekday (o + Z.of_nat k) = w.
Proof.
  intros Hw. unfold Rrule.ord_weekday.
  exists (Z.to_nat (if (w - o - 6) mod 7 =? 0 then 7 else (w - o - 6) mod 7)).
  pose proof (Z.mod_pos_bound (w - o - 6) 7 ltac:(reflexivity)) as Hb.
  destruct ((w - o - 6) mod 7 =? 0) eqn:E.
  - apply Z.eqb_eq in E. split; [simpl; lia|].
    change (Z.of_nat (Z.to_nat 7)) with 7.
    pose proof (Z.div_mod (w - o - 6) 7 ltac:(discriminate)) as Hd.
    symmetry. apply (Z.mod_unique _ _ (1 - (w - o - 6) / 7)); lia.
  - apply Z.eqb_neq in E. split; [lia|].
    rewrite Z2Nat.id by lia.
    pose proof (Z.div_mod (w - o - 6) 7 ltac:(discriminate)) as Hd.
    symmetry. apply (Z.mod_unique _ _ (- ((w - o - 6) / 7))); lia.
Qed.

Lemma parsed_days_range (days_list : list string) :
  Forall (fun w => 0 <= w < 7) (parsed_days days_list).
Proof.
  induction days_list as [|d rest IH]; simpl; [constructor|].
  unfold WEEKDAY_MAP.
  repeat match goal with
  | |- context [String.eqb d ?s] => destruct (String.eqb d s)
  end; try (constructor; [lia|exact IH]); exact IH.
Qed.

Lemma occurrence_after (r : Rrule.rule) (sp : datetime) (k : nat) :
  (1 <= k)%nat ->
  (sp <? Rrule.occurrence r (toordinal sp + Z.of_nat k)) = true.
Proof.
  intros Hk. apply Z.ltb_lt, toordinal_lt.
  unfold Rrule.occurrence.
  rewrite toordinal_combine by apply timeofday_bound. lia.
Qed.

(** A weekly rule started at [sp] next recurs, after [sp], on the first of
    the seven following days whose weekday is in the set, at the clock time
    of [sp] without its microseconds. *)
Lemma after_weekly (W : list Z) (sp : datetime) :
  W <> [] ->
  Forall (fun w => 0 <= w < 7) W ->
  toordinal sp + 7 <= max_ordinal ->
  exists k : nat,
    (1 <= k <= 7)%nat /\
    In (Rrule.ord_weekday (toordinal sp + Z.of_nat k)) W /\
    (forall j, (1 <= j < k)%nat ->
       ~ In (Rrule.ord_weekday (toordinal sp + Z.of_nat j)) W) /\
    Rrule.after (Rrule.rrule Rrule.WEEKLY (Some W) sp) sp =
      Some (combine (toordinal sp + Z.of_nat k)
                    (timeofday (replace_microsecond0 sp))).
Proof.
  intros Hne Hrange Hmax.
  destruct W as [|w0 W']; [congruence|].
  set (W := w0 :: W') in *.
  set (r := Rrule.rrule Rrule.WEEKLY (Some W) sp).
  assert (Hby : Rrule._byweekday r = Some W) by reflexivity.
  assert (Hst : Rrule._dtstart r = replace_microsecond0 sp) by reflexivity.
  assert (Hok : forall o, Rrule.day_ok r o = true <-> In (Rrule.ord_weekday o) W).
  { intros o. unfold Rrule.day_ok. rewrite Hby. apply existsb_eqb_In. }
  set (o := toordinal sp).
  set (P := fun j : nat =>
              Rrule.day_ok r (o + Z.of_nat j)
                && (sp <? Rrule.occurrence r (o + Z.of_nat j))).
  assert (H0 : P 0%nat = false).
  { unfold P. apply andb_false_intro2. apply Z.ltb_ge.
    unfold Rrule.occurrence. rewrite Hst, Z.add_0_r. unfold o.
    rewrite <- (toordinal_replace_microsecond0 sp), combine_split.
    apply replace_microsecond0_le. }
  inversion Hrange as [|? ? Hw0 _]; subst.
  destruct (weekday_within_week o w0 Hw0) as (k0 & Hk0 & Hwd).
  assert (Pk0 : P k0 = true).
  { unfold P. apply andb_true_intro. split.
    - apply Hok. rewrite Hwd. left. reflexivity.
    - apply occurrence_after. lia. }
  destruct (first_true P k0 Pk0) as (k & Hle & Pk & Hmin).
  assert (Hk : (1 <= k)%nat).
  { destruct k; [rewrite H0 in Pk; discriminate|lia]. }
  exists k. split; [lia|]. split; [|split].
  - apply Hok. unfold P in Pk. apply andb_prop in Pk. apply Pk.
  - intros j Hj Hin. specialize (Hmin j ltac:(lia)). unfold P in Hmin.
    apply Hok in Hin. rewrite Hin in Hmin.
    unfold o in Hmin. rewrite occurrence_after in Hmin by lia. discriminate.
  - unfold Rrule.after. rewrite Hst, toordinal_replace_microsecond0, Z.max_id.
    fold o. rewrite (scan_first r sp 8 o k); try assumption; try lia.
    unfold Rrule.occurrence. rewrite Hst. reflexivity.
Qed.

Lemma scan_sound (r : Rrule.rule) (dt : datetime) (n : nat) :
  forall (o : Z) (c : datetime),
    Rrule.scan r dt o n = Some c ->
    exists k : nat,
      (k < n)%nat /\ o + Z.of_nat k <= max_ordinal /\
      c = Rrule.occurrence r (o + Z.of_nat k) /\
      Rrule.day_ok r (o + Z.of_nat k) && (dt <? c) = true /\
      forall j, (j < k)%nat ->
        Rrule.day_ok r (o + Z.of_nat j)
          && (dt <? Rrule.occurrence r (o + Z.of_nat j)) = false.
Proof.
  induction n as [|n IH]; intros o c H; [discriminate|].
  simpl in H.
  destruct (max_ordinal <? o) eqn:Emax; [discriminate|].
  apply Z.ltb_ge in Emax.
  destruct (Rrule.day_ok r o && (dt <? Rrule.occurrence r o)) eqn:Egood.
  - injection H as <-. exists 0%nat. rewrite Z.add_0_r.
    repeat split; try lia; try assumption.
  - destruct (IH (o + 1) c H) as (k & Hk & Hmax & Hc & Hg & Hfirst).
    exists (S k).
    replace (o + Z.of_nat (S k)) with (o + 1 + Z.of_nat k) by lia.
    repeat split; try lia; try assumption.
    intros [|j] Hj.
    + rewrite Z.add_0_r. exact Egood.
    + replace (o + Z.of_nat (S j)) with (o + 1 + Z.of_nat j) by lia.
      apply Hfirst. lia.
Qed.

Lemma scan_none (r : Rrule.rule) (dt : datetime) (n : nat) :
  forall o : Z,
    Rrule.scan r dt o n = None ->
    forall k, (k < n)%nat -> o + Z.of_nat k <= max_ordinal ->
      Rrule.day_ok r (o + Z.of_nat k)
        && (dt <? Rrule.occurrence r (o + Z.of_nat k)) = false.
Proof.
  induction n as [|n IH]; intros o H k Hk Hmax; [lia|].
  simpl in H.
  destruct (max_ordinal <? o) eqn:Emax; [apply Z.ltb_lt in Emax; lia|].
  destruct (Rrule.day_ok r o && (dt <? Rrule.occurrence r o)) eqn:Egood;
    [discriminate|].
  destruct k as [|k]; [rewrite Z.add_0_r; exact Egood|].
  replace (o + Z.of_nat (S k)) with (o + 1 + Z.of_nat k) in * by lia.
  apply IH; [exact H|lia|exact Hmax].
Qed.

Lemma day_ok_weeks (r : Rrule.rule) (o : Z) (m : Z) :
  Rrule.day_ok r (o + 7 * m) = Rrule.day_ok r o.
Proof.
  unfold Rrule.day_ok, Rrule.ord_weekday.
  replace (o + 7 * m + 6) with (o + 6 + m * 7) by lia.
  rewrite Z.mod_add by discriminate. reflexivity.
Qed.

(** [after] is the first recurrence after [dt]: the eight days of the scan
    stand for all the days up to the last representable date. *)
Lemma after_is_first (r : Rrule.rule) (dt : datetime) :
  match Rrule.after r dt with
  | Some c =>
      exists o,
        Z.max (toordinal (Rrule._dtstart r)) (toordinal dt) <= o <= max_ordinal /\
        c = Rrule.occurrence r o /\
        Rrule.day_ok r o = true /\ dt < c /\
        forall o',
          Z.max (toordinal (Rrule._dtstart r)) (toordinal dt) <= o' < o ->
          Rrule.day_ok r o' && (dt <? Rrule.occurrence r o') = false
  | None =>
      forall o,
        Z.max (toordinal (Rrule._dtstart r)) (toordinal dt) <= o <= max_ordinal ->
        Rrule.day_ok r o && (dt <? Rrule.occurrence r o) = false
  end.
Proof.
  unfold Rrule.after.
  set (o0 := Z.max (toordinal (Rrule._dtstart r)) (toordinal dt)).
  destruct (Rrule.scan r dt o0 8) as [c|] eqn:E.
  - destruct (scan_sound r dt 8 o0 c E) as (k & Hk & Hmax & Hc & Hg & Hfirst).
    exists (o0 + Z.of_nat k).
    apply andb_prop in Hg. destruct Hg as [Hd Hlt]. apply Z.ltb_lt in Hlt.
    repeat split; try lia; try assumption.
    intros o' Ho'.
    replace o' with (o0 + Z.of_nat (Z.to_nat (o' - o0))) by lia.
    apply Hfirst. lia.
  - intros o Ho.
    destruct (Z_lt_le_dec o (o0 + 8)) as [Hnear|Hfar].
    + replace o with (o0 + Z.of_nat (Z.to_nat (o - o0))) by lia.
      apply (scan_none r dt 8 o0 E); lia.
    + set (m := (o - o0 - 1) / 7).
      pose proof (Z.div_mod (o - o0 - 1) 7 ltac:(discriminate)) as Hdm.
      pose proof (Z.mod_pos_bound (o - o0 - 1) 7 ltac:(reflexivity)) as Hb.
      fold m in Hdm.
      assert (Hnear : Rrule.day_ok r (o - 7 * m)
                        && (dt <? Rrule.occurrence r (o - 7 * m)) = false).
      { replace (o - 7 * m) with (o0 + Z.of_nat (Z.to_nat (o - 7 * m - o0)))
          by lia.
        apply (scan_none r dt 8 o0 E); lia. }
      assert (Hlater : (dt <? Rrule.occurrence r (o - 7 * m)) = true).
      { apply Z.ltb_lt, toordinal_lt. unfold Rrule.occurrence.
        rewrite toordinal_combine by apply timeofday_bound. lia. }
      rewrite Hlater, andb_true_r in Hnear.
      replace o with (o - 7 * m + 7 * m) at 1 by lia.
      rewrite day_ok_weeks, Hnear. reflexivity.
Qed.

(** ** Fixed tasks *)

Lemma type_fixed_dispatch :
  String.eqb TYPE_FIXED TYPE_PREDICTIVE = false /\
  String.eqb TYPE_FIXED TYPE_SLIDING = false /\
  String.eqb TYPE_FIXED TYPE_FIXED = true.
Proof. repeat split. Qed.

Lemma replace_hm_later (sp : datetime) (o : Z) (t : time) (h m : Z) :
  0 <= t < us_per_day ->
  0 <= mk_time h m 0 < us_per_day ->
  toordinal sp < o ->
  replace_hm (combine o t) h m = combine o (mk_time h m 0) /\
  (combine o (mk_time h m 0) <=? sp) = false.
Proof.
  intros Ht Hc Ho. unfold replace_hm. rewrite toordinal_combine by exact Ht.
  split; [reflexivity|].
  apply Z.leb_gt, toordinal_lt. rewrite toordinal_combine by exact Hc. exact Ho.
Qed.

(** The due date of a Fixed task with a weekday set: the configured clock
    time on the first of the seven days after the anchor's date whose
    weekday is in the set. *)
Lemma calculated_next_fixed_weekly (self : TaskSensor) (now : datetime)
    (schedule : Schedule) (d : string) (ds : list string) :
  _calc_type self = TYPE_FIXED ->
  _schedule self = Some schedule ->
  CONF_DAYS schedule = Some (d :: ds) ->
  parsed_days (d :: ds) <> [] ->
  toordinal (start_point self now) + 7 <= max_ordinal ->
  exists k : nat,
    (1 <= k <= 7)%nat /\
    In (Rrule.ord_weekday (toordinal (start_point self now) + Z.of_nat k))
       (parsed_days (d :: ds)) /\
    (forall j, (1 <= j < k)%nat ->
       ~ In (Rrule.ord_weekday (toordinal (start_point self now) + Z.of_nat j))
            (parsed_days (d :: ds))) /\
    calculated_next self now =
      Ok (Some
        (combine (toordinal (start_point self now) + Z.of_nat k)
           (mk_time (hour (target_time schedule))
                    (minute (target_time schedule)) 0))).
Proof.
  intros Ht Hs Hd Hne Hmax.
  set (anchor := start_point self now) in *.
  destruct (after_weekly (parsed_days (d :: ds)) anchor Hne
              (parsed_days_range (d :: ds)) Hmax)
    as (k & Hk & Hin & Hmin & Hafter).
  exists k. split; [exact Hk|]. split; [exact Hin|]. split; [exact Hmin|].
  unfold calculated_next. rewrite Ht.
  destruct type_fixed_dispatch as (-> & -> & ->).
  rewrite Hs.
  assert (Htd : truthy_dict (Some schedule) = Some schedule).
  { destruct schedule as [ct cd]. cbn [CONF_DAYS] in Hd. subst cd.
    destruct ct; reflexivity. }
  rewrite Htd, Hd. cbv zeta. cbv iota.
  fold anchor. rewrite Hafter.
  destruct (replace_hm_later anchor (toordinal anchor + Z.of_nat k)
              (timeofday (replace_microsecond0 anchor))
              (hour (target_time schedule)) (minute (target_time schedule))
              (timeofday_bound _) (clock_bound (target_time schedule))
              ltac:(lia))
    as [-> ->].
  reflexivity.
Qed.

Lemma classify_config (self : TaskSensor) (now : datetime)
    (c : option datetime) :
  _calc_type (classify self now c) = _calc_type self /\
  _schedule (classify self now c) = _schedule self /\
  _interval_days (classify self now c) = _interval_days self.
Proof.
  unfold classify.
  destruct c as [next_due|]; [|repeat split].
  destruct (next_due <? now); [repeat split|].
  destruct (toordinal next_due =? toordinal now); repeat split.
Qed.

Lemma update_state_config (self : TaskSensor) (now : datetime) :
  _calc_type (_update_state self now) = _calc_type self /\
  _schedule (_update_state self now) = _schedule self /\
  _interval_days (_update_state self now) = _interval_days self.
Proof.
  unfold _update_state.
  destruct (calculated_next self now); [apply classify_config|repeat split].
Qed.

(** On Wednesdays at 09:00: seen from an anchor whose weekday lies [k] days
    before Wednesday, the due date is [k] days after the anchor's date. *)
Lemma next_wednesday (self : TaskSensor) (now : datetime) (k : Z) :
  _calc_type self = TYPE_FIXED ->
  _schedule self =
    Some {| CONF_TIME := Some (mk_time 9 0 0);
            CONF_DAYS := Some ["wed"%string] |} ->
  1 <= k <= 7 ->
  weekday (start_point self now) = (2 - k) mod 7 ->
  toordinal (start_point self now) + 7 <= max_ordinal ->
  calculated_next self now =
    Ok (Some (combine (toordinal (start_point self now) + k) (mk_time 9 0 0))).
Proof.
  intros Ht Hs Hk Hwd Hmax.
  destruct (calculated_next_fixed_weekly self now _ "wed"%string [] Ht Hs
              eq_refl ltac:(discriminate) Hmax)
    as (j & Hj & Hin & _ & ->).
  set (anchor := start_point self now) in *.
  change (parsed_days ["wed"%string]) with [2] in Hin.
  destruct Hin as [Hin|[]].
  unfold weekday in Hwd. unfold Rrule.ord_weekday in Hin.
  assert (Hjk : Z.of_nat j = k).
  { pose proof (Z.div_mod (toordinal anchor + 6) 7 ltac:(discriminate)).
    pose proof (Z.div_mod (toordinal anchor + Z.of_nat j + 6) 7 ltac:(discriminate)).
    pose proof (Z.div_mod (2 - k) 7 ltac:(discriminate)).
    pose proof (Z.mod_pos_bound (2 - k) 7 ltac:(reflexivity)).
    lia. }
  rewrite Hjk. reflexivity.
Qed.

(** C2, as amended. For a Fixed task with a non-empty weekday set,
    [next_due] is the configured clock time, seconds and microseconds zero,
    on the first calendar date strictly after the anchor's date (the last
    completion if present, else now) whose weekday is in the set; it is
    always strictly after the anchor. In particular, on Wednesdays at 09:00
    and seen from any Monday, [next_due] is the following Wednesday 09:00,
    and it stays there after a completion on the Tuesday in between. *)
Theorem C2_fixed_weekday_schedule :
  (forall (self : TaskSensor) (now : datetime) (schedule : Schedule)
          (d : string) (ds : list string),
     _calc_type self = TYPE_FIXED ->
     _schedule self = Some schedule ->
     CONF_DAYS schedule = Some (d :: ds) ->
     parsed_days (d :: ds) <> [] ->
     toordinal (start_point self now) + 7 <= max_ordinal ->
     exists next_due,
       _next_due (_update_state self now) = Some next_due /\
       start_point self now < next_due /\
       toordinal (start_point self now) < toordinal next_due
         <= toordinal (start_point self now) + 7 /\
       In (weekday next_due) (parsed_days (d :: ds)) /\
       (forall o,
          toordinal (start_point self now) < o < toordinal next_due ->
          ~ In (Rrule.ord_weekday o) (parsed_days (d :: ds))) /\
       timeofday next_due =
         mk_time (hour (target_time schedule)) (minute (target_time schedule)) 0) /\
  (forall (self : TaskSensor) (now : datetime),
     _calc_type self = TYPE_FIXED ->
     _schedule self =
       Some {| CONF_TIME := Some (mk_time 9 0 0);
               CONF_DAYS := Some ["wed"%string] |} ->
     _history self = [] ->
     _last_done self = None ->
     weekday now = 0 ->
     toordinal now + 8 <= max_ordinal ->
     _next_due (_update_state self now) =
       Some (combine (toordinal now + 2) (mk_time 9 0 0)) /\
     (forall custom_date clock now',
        toordinal (match custom_date with Some t => t | None => clock end)
          = toordinal now + 1 ->
        _next_due (mark_as_done (_update_state self now) custom_date clock now')
          = Some (combine (toordinal now + 2) (mk_time 9 0 0)))).
Proof.
  split.
  - intros self now schedule d ds Ht Hs Hd Hne Hmax.
    destruct (calculated_next_fixed_weekly self now schedule d ds
                Ht Hs Hd Hne Hmax) as (k & Hk & Hin & Hmin & Hc).
    set (anchor := start_point self now) in *.
    set (clock := mk_time (hour (target_time schedule))
                          (minute (target_time schedule)) 0) in *.
    pose proof (clock_bound (target_time schedule)) as Hclock. fold clock in Hclock.
    exists (combine (toordinal anchor + Z.of_nat k) clock).
    rewrite (toordinal_combine _ clock Hclock).
    split; [apply update_state_next_due; exact Hc|].
    split; [apply toordinal_lt; rewrite toordinal_combine by exact Hclock; lia|].
    split; [lia|].
    split; [unfold weekday; rewrite toordinal_combine by exact Hclock; exact Hin|].
    split; [|apply timeofday_combine; exact Hclock].
    intros o Ho.
    replace o with (toordinal anchor + Z.of_nat (Z.to_nat (o - toordinal anchor)))
      by lia.
    apply Hmin. lia.
  - intros self now Ht Hs Hh Hl Hwd Hmax.
    assert (Hsp : start_point self now = now) by (unfold start_point; rewrite Hl; reflexivity).
    split.
    + apply update_state_next_due.
      rewrite <- Hsp at 2. apply next_wednesday; try assumption; try lia.
      * rewrite Hsp. exact Hwd.
      * rewrite Hsp. lia.
    + intros custom_date clock now' Hday.
      set (t := match custom_date with Some t => t | None => clock end) in *.
      destruct (update_state_completions self now) as [Hh1 _].
      destruct (update_state_config self now) as (Ht1 & Hs1 & _).
      unfold mark_as_done. cbv zeta. fold t. rewrite Hh1, Hh.
      change (last_n 10 (sorted ([] ++ [t]))) with [t].
      change (last_opt [t]) with (Some t).
      apply update_state_next_due.
      replace (toordinal now + 2) with (toordinal t + 1) by lia.
      set (s2 := set_completions (_update_state self now) [t] (Some t)).
      assert (Hsp2 : start_point s2 now' = t) by reflexivity.
      rewrite <- Hsp2.
      apply next_wednesday.
      * unfold s2. cbn [_calc_type set_completions]. rewrite Ht1. exact Ht.
      * unfold s2. cbn [_schedule set_completions]. rewrite Hs1. exact Hs.
      * lia.
      * rewrite Hsp2. unfold weekday in *. rewrite Hday.
        change ((2 - 1) mod 7) with 1.
        pose proof (Z.div_mod (toordinal now + 6) 7 ltac:(discriminate)).
        pose proof (Z.div_mod (toordinal now + 1 + 6) 7 ltac:(discriminate)).
        pose proof (Z.mod_pos_bound (toordinal now + 1 + 6) 7 ltac:(reflexivity)).
        lia.
      * rewrite Hsp2. lia.
Qed.

Lemma C2_fixed_weekday_schedule_witness :
  (exists next_due,
     _next_due (_update_state fixed_task wednesday_8am) = Some next_due /\
     start_point fixed_task wednesday_8am < next_due /\
     toordinal (start_point fixed_task wednesday_8am) < toordinal next_due
       <= toordinal (start_point fixed_task wednesday_8am) + 7 /\
     In (weekday next_due) (parsed_days ["wed"%string]) /\
     (forall o,
        toordinal (start_point fixed_task wednesday_8am) < o < toordinal next_due ->
        ~ In (Rrule.ord_weekday o) (parsed_days ["wed"%string])) /\
     timeofday next_due = mk_time 9 0 0) /\
  (_next_due (_update_state fixed_task mock_now) =
     Some (mk_datetime 2024 1 3 9 0 0 0) /\
   _next_due (mark_as_done (_update_state fixed_task mock_now) None tuesday tuesday)
     = Some (mk_datetime 2024 1 3 9 0 0 0)).
Proof.
  split.
  - apply (proj1 C2_fixed_weekday_schedule fixed_task wednesday_8am
             {| CONF_TIME := Some (mk_time 9 0 0);
                CONF_DAYS := Some ["wed"%string] |} "wed"%string []).
    + reflexivity.
    + reflexivity.
    + reflexivity.
    + discriminate.
    + vm_compute. discriminate.
  - destruct (proj2 C2_fixed_weekday_schedule fixed_task mock_now) as [H1 H2].
    + reflexivity.
    + reflexivity.
    + reflexivity.
    + reflexivity.
    + reflexivity.
    + vm_compute. discriminate.
    + split; [exact H1|].
      apply (H2 None tuesday tuesday). reflexivity.
Defined.

(** C2, as stated, fails when the anchor lies on a day of the set before the
    clock time: at 08:00 on a Wednesday a task due on Wednesdays at 09:00 is
    due a week later, though 09:00 of the same day is a Wednesday 09:00
    strictly after the anchor. *)
Lemma C2_same_day_is_skipped :
  start_point fixed_task wednesday_8am = wednesday_8am /\
  _next_due (_update_state fixed_task wednesday_8am) =
    Some (mk_datetime 2024 1 10 9 0 0 0) /\
  wednesday_8am < mk_datetime 2024 1 3 9 0 0 0 /\
  In (weekday (mk_datetime 2024 1 3 9 0 0 0)) (parsed_days ["wed"%string]) /\
  timeofday (mk_datetime 2024 1 3 9 0 0 0) = mk_time 9 0 0 /\
  mk_datetime 2024 1 3 9 0 0 0 < mk_datetime 2024 1 10 9 0 0 0.
Proof.
  vm_compute. repeat split; auto.
Qed.

(** ** The assertions of [tests/test_sensor.py]

    Evaluated on the model, with the test's timestamps read in the sensor's
    zone. *)

Example test_sliding_task_logic :
  _next_due (_update_state sliding_task mock_now) = Some (mock_now + 7 * us_per_day) /\
  _state (_update_state sliding_task mock_now) = "Due in 7 days"%string /\
  _last_done (mark_as_done (_update_state sliding_task mock_now) None mock_now mock_now)
    = Some mock_now /\
  _next_due (mark_as_done (_update_state sliding_task mock_now) None mock_now mock_now)
    = Some (mock_now + 7 * us_per_day).
Proof. vm_compute. repeat split. Qed.

Example test_fixed_schedule_logic :
  _next_due (_update_state fixed_task mock_now) = Some (mk_datetime 2024 1 3 9 0 0 0) /\
  _state (_update_state fixed_task mock_now) = "Due in 2 days"%string /\
  _next_due (mark_as_done (_update_state fixed_task mock_now) None tuesday tuesday)
    = Some (mk_datetime 2024 1 3 9 0 0 0) /\
  _state (mark_as_done (_update_state fixed_task mock_now) None tuesday tuesday)
    = "Due in 1 days"%string.
Proof. vm_compute. repeat split. Qed.

Example test_predictive_logic :
  _next_due (_update_state predictive_tested mock_now)
    = Some (mock_now - 10 * us_per_day + 10 * us_per_day) /\
  _state (_update_state predictive_tested mock_now) = "Due Today"%string.
Proof. vm_compute. repeat split. Qed.

(** * Further properties *)

(** ** Fixed tasks, whatever the schedule *)

Lemma truthy_dict_some (s : option Schedule) (schedule : Schedule) :
  truthy_dict s = Some schedule -> s = Some schedule.
Proof.
  destruct s as [[[t|] [l|]]|]; simpl; intros H; try exact H; discriminate.
Qed.

(** A rule without a weekday filter next recurs, after its start, on the
    day after the start's date. *)
Lemma after_unfiltered (r : Rrule.rule) (sp : datetime) :
  Rrule._byweekday r = None ->
  Rrule._dtstart r = replace_microsecond0 sp ->
  toordinal sp + 1 <= max_ordinal ->
  Rrule.after r sp =
    Some (combine (toordinal sp + 1) (timeofday (replace_microsecond0 sp))).
Proof.
  intros Hby Hst Hmax.
  assert (Hok : forall o, Rrule.day_ok r o = true)
    by (intros o; unfold Rrule.day_ok; rewrite Hby; reflexivity).
  unfold Rrule.after. rewrite Hst, toordinal_replace_microsecond0, Z.max_id.
  rewrite (scan_first r sp 8 (toordinal sp) 1).
  - unfold Rrule.occurrence. rewrite Hst. reflexivity.
  - lia.
  - change (Z.of_nat 1) with 1. lia.
  - rewrite Hok. apply occurrence_after. lia.
  - intros j Hj. assert (j = 0%nat) by lia. subst j.
    rewrite Hok, Z.add_0_r. apply Z.ltb_ge.
    unfold Rrule.occurrence. rewrite Hst.
    rewrite <- (toordinal_replace_microsecond0 sp), combine_split.
    apply replace_microsecond0_le.
Qed.

(** The due date of a Fixed task with a schedule: the configured clock time
    on the first day after the anchor's date that the weekday set allows;
    with no known weekday in the set, that is the very next day. *)
Lemma calculated_next_fixed (self : TaskSensor) (now : datetime)
    (schedule : Schedule) :
  _calc_type self = TYPE_FIXED ->
  truthy_dict (_schedule self) = Some schedule ->
  toordinal (start_point self now) + 7 <= max_ordinal ->
  exists k : nat,
    (1 <= k <= 7)%nat /\
    (parsed_days (match CONF_DAYS schedule with Some l => l | None => [] end) = [] \/
     In (Rrule.ord_weekday (toordinal (start_point self now) + Z.of_nat k))
        (parsed_days (match CONF_DAYS schedule with Some l => l | None => [] end))) /\
    (forall j, (1 <= j < k)%nat ->
       ~ In (Rrule.ord_weekday (toordinal (start_point self now) + Z.of_nat j))
            (parsed_days (match CONF_DAYS schedule with Some l => l | None => [] end)) /\
       parsed_days (match CONF_DAYS schedule with Some l => l | None => [] end) <> []) /\
    calculated_next self now =
      Ok (Some
        (combine (toordinal (start_point self now) + Z.of_nat k)
           (mk_time (hour (target_time schedule))
                    (minute (target_time schedule)) 0))).
Proof.
  intros Ht Htd Hmax.
  pose proof (truthy_dict_some _ _ Htd) as Hs.
  set (days_list := match CONF_DAYS schedule with Some l => l | None => [] end).
  destruct (parsed_days days_list) as [|w W] eqn:Ep.
  - exists 1%nat. split; [lia|]. split; [left; reflexivity|].
    split; [intros j Hj; lia|].
    unfold calculated_next. rewrite Ht.
    destruct type_fixed_dispatch as (-> & -> & ->).
    rewrite Htd. fold days_list. cbv zeta.
    set (anchor := start_point self now) in *.
    assert (Hafter :
      Rrule.after
        (let '(freq, byweekday) :=
           match days_list with
           | [] => (Rrule.DAILY, None)
           | _ :: _ => (Rrule.WEEKLY, Some (parsed_days days_list))
           end in Rrule.rrule freq byweekday anchor) anchor =
      Some (combine (toordinal anchor + 1)
                    (timeofday (replace_microsecond0 anchor)))).
    { apply after_unfiltered; try lia.
      - destruct days_list; [reflexivity|]. rewrite Ep. reflexivity.
      - destruct days_list; reflexivity. }
    destruct days_list as [|d ds].
    + cbv iota beta in Hafter |- *. rewrite Hafter.
      destruct (replace_hm_later anchor (toordinal anchor + 1)
                  (timeofday (replace_microsecond0 anchor))
                  (hour (target_time schedule)) (minute (target_time schedule))
                  (timeofday_bound _) (clock_bound (target_time schedule))
                  ltac:(lia)) as [-> ->].
      reflexivity.
    + cbv iota beta in Hafter |- *. rewrite Hafter.
      destruct (replace_hm_later anchor (toordinal anchor + 1)
                  (timeofday (replace_microsecond0 anchor))
                  (hour (target_time schedule)) (minute (target_time schedule))
                  (timeofday_bound _) (clock_bound (target_time schedule))
                  ltac:(lia)) as [-> ->].
      reflexivity.
  - destruct days_list as [|d ds] eqn:Ed; [discriminate|].
    assert (Hd : CONF_DAYS schedule = Some (d :: ds)).
    { unfold days_list in Ed. destruct (CONF_DAYS schedule); [|discriminate].
      rewrite Ed. reflexivity. }
    destruct (calculated_next_fixed_weekly self now schedule d ds Ht Hs Hd
                ltac:(rewrite Ep; discriminate) Hmax)
      as (k & Hk & Hin & Hmin & Hc).
    exists k. rewrite Ep in *. split; [exact Hk|]. split; [right; exact Hin|].
    split; [|exact Hc].
    intros j Hj. split; [apply Hmin; exact Hj|discriminate].
Qed.

(** X1. A Fixed task whose schedule names no known weekday (the list is
    empty, missing, or holds only unknown names) is due on the day after the
    anchor's date, at the configured clock time with seconds zero, whatever
    the clock time of the anchor. *)
Theorem X1_fixed_without_weekdays (self : TaskSensor) (now : datetime)
    (schedule : Schedule) :
  _calc_type self = TYPE_FIXED ->
  truthy_dict (_schedule self) = Some schedule ->
  parsed_days (match CONF_DAYS schedule with Some l => l | None => [] end) = [] ->
  toordinal (start_point self now) + 7 <= max_ordinal ->
  _next_due (_update_state self now) =
    Some (combine (toordinal (start_point self now) + 1)
            (mk_time (hour (target_time schedule))
                     (minute (target_time schedule)) 0)).
Proof.
  intros Ht Htd Hp Hmax.
  destruct (calculated_next_fixed self now schedule Ht Htd Hmax)
    as (k & Hk & _ & Hmin & Hc).
  assert (k = 1%nat).
  { destruct (Nat.eq_dec k 1) as [E|E]; [exact E|].
    destruct (Hmin 1%nat ltac:(lia)) as [_ Hne]. contradiction. }
  subst k. apply update_state_next_due. exact Hc.
Qed.

Lemma X1_fixed_without_weekdays_witness :
  _next_due (_update_state fixed_daily wednesday_6pm) =
    Some (combine (toordinal (start_point fixed_daily wednesday_6pm) + 1)
            (mk_time (hour (target_time
                        {| CONF_TIME := Some (mk_time 7 30 0);
                           CONF_DAYS := Some [] |}))
                     (minute (target_time
                        {| CONF_TIME := Some (mk_time 7 30 0);
                           CONF_DAYS := Some [] |})) 0)).
Proof.
  apply (X1_fixed_without_weekdays fixed_daily wednesday_6pm
           {| CONF_TIME := Some (mk_time 7 30 0); CONF_DAYS := Some [] |}).
  - reflexivity.
  - reflexivity.
  - reflexivity.
  - vm_compute. discriminate.
Defined.

(** X2. A Fixed task with a schedule that was never completed is never
    "Overdue" nor "Due Today": its due date always falls on a later date
    than [now], so the status is "Due in n days" with the default icon. *)
Theorem X2_fixed_never_completed_never_overdue (self : TaskSensor)
    (now : datetime) (schedule : Schedule) :
  _calc_type self = TYPE_FIXED ->
  truthy_dict (_schedule self) = Some schedule ->
  _last_done self = None ->
  toordinal now + 7 <= max_ordinal ->
  exists next_due n,
    _next_due (_update_state self now) = Some next_due /\
    toordinal now < toordinal next_due <= toordinal now + 7 /\
    _days_remaining (_update_state self now) = Some n /\
    _state (_update_state self now) = ("Due in " ++ str n ++ " days")%string /\
    _state (_update_state self now) <> "Overdue"%string /\
    _state (_update_state self now) <> "Due Today"%string /\
    _icon (_update_state self now) = _icon_default self.
Proof.
  intros Ht Htd Hl Hmax.
  assert (Hsp : start_point self now = now)
    by (unfold start_point; rewrite Hl; reflexivity).
  destruct (calculated_next_fixed self now schedule Ht Htd
              ltac:(rewrite Hsp; exact Hmax)) as (k & Hk & _ & _ & Hc).
  rewrite Hsp in Hc.
  set (clock := mk_time (hour (target_time schedule))
                        (minute (target_time schedule)) 0) in *.
  pose proof (clock_bound (target_time schedule)) as Hclock. fold clock in Hclock.
  set (next_due := combine (toordinal now + Z.of_nat k) clock) in *.
  assert (Hord : toordinal next_due = toordinal now + Z.of_nat k)
    by (apply toordinal_combine; exact Hclock).
  assert (Hlt : now < next_due) by (apply toordinal_lt; lia).
  exists next_due.
  exists (days (sub next_due now)
          + (if 0 <? seconds (sub next_due now) then 1 else 0)).
  rewrite (update_state_ok self now _ Hc). unfold classify.
  replace (next_due <? now) with false by (symmetry; apply Z.ltb_ge; lia).
  replace (toordinal next_due =? toordinal now) with false
    by (symmetry; apply Z.eqb_neq; lia).
  cbn [_next_due _days_remaining _state _icon set_derived].
  repeat split; try lia; discriminate.
Qed.

Lemma X2_fixed_never_completed_never_overdue_witness :
  exists next_due n,
    _next_due (_update_state fixed_task wednesday_8am) = Some next_due /\
    toordinal wednesday_8am < toordinal next_due <= toordinal wednesday_8am + 7 /\
    _days_remaining (_update_state fixed_task wednesday_8am) = Some n /\
    _state (_update_state fixed_task wednesday_8am)
      = ("Due in " ++ str n ++ " days")%string /\
    _state (_update_state fixed_task wednesday_8am) <> "Overdue"%string /\
    _state (_update_state fixed_task wednesday_8am) <> "Due Today"%string /\
    _icon (_update_state fixed_task wednesday_8am) = _icon_default fixed_task.
Proof.
  apply (X2_fixed_never_completed_never_overdue fixed_task wednesday_8am
           {| CONF_TIME := Some (mk_time 9 0 0);
              CONF_DAYS := Some ["wed"%string] |}).
  - reflexivity.
  - reflexivity.
  - reflexivity.
  - vm_compute. discriminate.
Defined.

(** X3. The due date of a Fixed task with a schedule depends on the anchor
    only through its calendar date: two sensors with the same schedule whose
    anchors fall on the same date have the same due date, whatever the
    clock times of the anchors. *)
Theorem X3_fixed_due_date_ignores_anchor_time (self1 self2 : TaskSensor)
    (now1 now2 : datetime) (schedule : Schedule) :
  _calc_type self1 = TYPE_FIXED ->
  _calc_type self2 = TYPE_FIXED ->
  truthy_dict (_schedule self1) = Some schedule ->
  truthy_dict (_schedule self2) = Some schedule ->
  toordinal (start_point self1 now1) = toordinal (start_point self2 now2) ->
  toordinal (start_point self1 now1) + 7 <= max_ordinal ->
  _next_due (_update_state self1 now1) = _next_due (_update_state self2 now2).
Proof.
  intros Ht1 Ht2 Hs1 Hs2 Hday Hmax.
  destruct (calculated_next_fixed self1 now1 schedule Ht1 Hs1 Hmax)
    as (k1 & Hk1 & Hin1 & Hmin1 & Hc1).
  destruct (calculated_next_fixed self2 now2 schedule Ht2 Hs2
              ltac:(rewrite <- Hday; exact Hmax))
    as (k2 & Hk2 & Hin2 & Hmin2 & Hc2).
  rewrite <- Hday in Hin2, Hmin2, Hc2.
  assert (k1 = k2).
  { destruct (Nat.lt_trichotomy k1 k2) as [Hlt|[Heq|Hgt]]; [|exact Heq|].
    - destruct (Hmin2 k1 ltac:(lia)) as [Hn Hne].
      destruct Hin1 as [He|Hi]; contradiction.
    - destruct (Hmin1 k2 ltac:(lia)) as [Hn Hne].
      destruct Hin2 as [He|Hi]; contradiction. }
  subst k2.
  rewrite (update_state_next_due self1 now1 _ Hc1).
  rewrite (update_state_next_due self2 now2 _ Hc2).
  reflexivity.
Qed.

Lemma X3_fixed_due_date_ignores_anchor_time_witness :
  _next_due (_update_state fixed_done_8am mock_now) =
  _next_due (_update_state fixed_done_6pm tuesday).
Proof.
  apply (X3_fixed_due_date_ignores_anchor_time fixed_done_8am fixed_done_6pm
           mock_now tuesday
           {| CONF_TIME := Some (mk_time 9 0 0);
              CONF_DAYS := Some ["wed"%string] |}).
  - reflexivity.
  - reflexivity.
  - reflexivity.
  - reflexivity.
  - reflexivity.
  - vm_compute. discriminate.
Defined.

(** ** Tasks configured without what their type needs *)

(** X4. A Sliding task whose interval is missing or 0 is due one day after
    [now] at every recompute, also when a completion is on record: its
    status is always "Due in 1 days". *)
Theorem X4_sliding_without_interval (self : TaskSensor) (now : datetime) :
  _calc_type self = TYPE_SLIDING ->
  truthy_int (_interval_days self) = None ->
  in_range (now + us_per_day) = true ->
  _next_due (_update_state self now) = Some (now + us_per_day) /\
  _days_remaining (_update_state self now) = Some 1 /\
  _state (_update_state self now) = "Due in 1 days"%string.
Proof.
  intros Ht Hi Hr.
  assert (Hc : calculated_next self now = Ok (Some (now + us_per_day))).
  { unfold calculated_next. rewrite Ht.
    destruct type_sliding_dispatch as [-> ->]. rewrite Hi.
    replace (now + us_per_day) with (now + 1 * us_per_day) in * by lia.
    destruct (_last_done self);
      apply plus_days_ok; try exact Hr; unfold max_delta_days; lia. }
  rewrite (update_state_ok self now _ Hc). unfold classify, sub.
  replace (now + us_per_day - now) with us_per_day by lia.
  replace (now + us_per_day <? now) with false
    by (symmetry; apply Z.ltb_ge; unfold us_per_day; lia).
  replace (toordinal (now + us_per_day) =? toordinal now) with false.
  - repeat split.
  - symmetry. apply Z.eqb_neq. unfold toordinal.
    replace (now + us_per_day) with (now + 1 * us_per_day) by lia.
    rewrite Z.div_add by discriminate. lia.
Qed.

Lemma X4_sliding_without_interval_witness :
  _next_due (_update_state sliding_no_interval tuesday) =
    Some (tuesday + us_per_day) /\
  _days_remaining (_update_state sliding_no_interval tuesday) = Some 1 /\
  _state (_update_state sliding_no_interval tuesday) = "Due in 1 days"%string.
Proof.
  apply (X4_sliding_without_interval sliding_no_interval tuesday).
  - reflexivity.
  - reflexivity.
  - reflexivity.
Defined.

Lemma calculated_next_fixed_unscheduled (self : TaskSensor) (now : datetime) :
  _calc_type self = TYPE_FIXED ->
  truthy_dict (_schedule self) = None ->
  calculated_next self now =
  match truthy_int (_interval_days self) with
  | Some n => plus_days (start_point self now) n
  | None => Ok None
  end.
Proof.
  intros Ht Hs. unfold calculated_next. rewrite Ht.
  destruct type_fixed_dispatch as (-> & -> & ->).
  rewrite Hs. destruct (truthy_int (_interval_days self)); [|reflexivity].
  unfold start_point. destruct (_last_done self); reflexivity.
Qed.

(** X5. A Fixed task without a schedule (none, or an empty dictionary)
    falls back on its interval: with [interval_days >= 1] it is due that
    many days after the last completion, or after [now] when there is none;
    with no interval it has no due date and no days remaining, and its
    status is "Unknown" with the help icon. *)
Theorem X5_fixed_without_schedule (self : TaskSensor) (now : datetime) :
  _calc_type self = TYPE_FIXED ->
  truthy_dict (_schedule self) = None ->
  (forall n,
     _interval_days self = Some n ->
     1 <= n <= max_delta_days ->
     in_range (start_point self now + n * us_per_day) = true ->
     _next_due (_update_state self now) =
       Some (start_point self now + n * us_per_day)) /\
  (truthy_int (_interval_days self) = None ->
   _next_due (_update_state self now) = None /\
   _days_remaining (_update_state self now) = None /\
   _state (_update_state self now) = "Unknown"%string /\
   _icon (_update_state self now) = "mdi:help-circle-outline"%string).
Proof.
  intros Ht Hs.
  pose proof (calculated_next_fixed_unscheduled self now Ht Hs) as Hc.
  split.
  - intros n Hi Hn Hr. apply update_state_next_due.
    rewrite Hc, Hi, truthy_int_pos by lia.
    apply plus_days_ok; [unfold max_delta_days in *; lia|exact Hr].
  - intros Hi. rewrite Hi in Hc.
    rewrite (update_state_ok self now _ Hc). unfold classify.
    rewrite Ht. destruct type_fixed_dispatch as (-> & _).
    repeat split.
Qed.

Lemma X5_fixed_without_schedule_witness :
  _next_due (_update_state fixed_interval_only mock_now) =
    Some (start_point fixed_interval_only mock_now + 3 * us_per_day) /\
  (_next_due (_update_state fixed_unscheduled mock_now) = None /\
   _days_remaining (_update_state fixed_unscheduled mock_now) = None /\
   _state (_update_state fixed_unscheduled mock_now) = "Unknown"%string /\
   _icon (_update_state fixed_unscheduled mock_now)
     = "mdi:help-circle-outline"%string).
Proof.
  split.
  - apply (proj1 (X5_fixed_without_schedule fixed_interval_only mock_now
                    eq_refl eq_refl) 3).
    + reflexivity.
    + unfold max_delta_days. lia.
    + reflexivity.
  - apply (proj2 (X5_fixed_without_schedule fixed_unscheduled mock_now
                    eq_refl eq_refl)).
    reflexivity.
Defined.

(** ** Reset, and the passing of time *)

(** The due date reads the type, the interval, the schedule and the two
    completion fields of the sensor, and nothing else. *)
Lemma calculated_next_ext (self1 self2 : TaskSensor) (now : datetime) :
  _calc_type self1 = _calc_type self2 ->
  _interval_days self1 = _interval_days self2 ->
  _schedule self1 = _schedule self2 ->
  _history self1 = _history self2 ->
  _last_done self1 = _last_done self2 ->
  calculated_next self1 now = calculated_next self2 now.
Proof.
  intros Ht Hi Hs Hh Hl. unfold calculated_next, start_point.
  rewrite Ht, Hi, Hs, Hh, Hl. reflexivity.
Qed.

(** X6. [reset_history] empties the history and clears the last
    completion, and leaves the sensor with the status and icon of a newly
    created sensor of the same configuration recomputed at the same time;
    unless that recompute fails, the whole state is that of the new
    sensor. *)
Theorem X6_reset_is_a_fresh_start (self : TaskSensor) (now : datetime) :
  _history (reset_history self now) = [] /\
  _last_done (reset_history self now) = None /\
  _state (reset_history self now) =
    _state (_update_state
              (init (_name self) (_calc_type self) (_icon_default self)
                    (_interval_days self) (_schedule self)) now) /\
  _icon (reset_history self now) =
    _icon (_update_state
             (init (_name self) (_calc_type self) (_icon_default self)
                   (_interval_days self) (_schedule self)) now) /\
  (_state (reset_history self now) <> "Error"%string ->
   reset_history self now =
     _update_state
       (init (_name self) (_calc_type self) (_icon_default self)
             (_interval_days self) (_schedule self)) now).
Proof.
  set (fresh := init (_name self) (_calc_type self) (_icon_default self)
                     (_interval_days self) (_schedule self)).
  unfold reset_history.
  destruct (update_state_completions (set_completions self [] None) now)
    as [Hh Hl].
  split; [exact Hh|]. split; [exact Hl|].
  assert (Hc : calculated_next (set_completions self [] None) now =
               calculated_next fresh now)
    by (apply calculated_next_ext; reflexivity).
  unfold _update_state. rewrite Hc.
  destruct (calculated_next fresh now) as [c|e].
  - assert (Heq : classify (set_completions self [] None) now c
                  = classify fresh now c).
    { unfold classify. destruct c as [next_due|]; [|reflexivity].
      destruct (next_due <? now); [reflexivity|].
      destruct (toordinal next_due =? toordinal now); reflexivity. }
    rewrite Heq. repeat split.
  - repeat split. intros H. exfalso. apply H. reflexivity.
Qed.

Lemma X6_reset_is_a_fresh_start_witness :
  reset_history sliding_done_jan10 tuesday =
    _update_state
      (init (_name sliding_done_jan10) (_calc_type sliding_done_jan10)
            (_icon_default sliding_done_jan10)
            (_interval_days sliding_done_jan10)
            (_schedule sliding_done_jan10)) tuesday.
Proof.
  apply (X6_reset_is_a_fresh_start sliding_done_jan10 tuesday).
  discriminate.
Defined.

Lemma state_overdue (self : TaskSensor) (now : datetime) :
  _state (_update_state self now) = "Overdue"%string <->
  exists next_due,
    calculated_next self now = Ok (Some next_due) /\ next_due < now.
Proof.
  unfold _update_state.
  destruct (calculated_next self now) as [[next_due|]|e].
  - split.
    + intros H. exists next_due. split; [reflexivity|].
      unfold classify in H. destruct (next_due <? now) eqn:E.
      * apply Z.ltb_lt. exact E.
      * destruct (toordinal next_due =? toordinal now); discriminate.
    + intros (nd & Hnd & Hlt). injection Hnd as <-.
      unfold classify. apply Z.ltb_lt in Hlt. rewrite Hlt. reflexivity.
  - split.
    + unfold classify.
      destruct (String.eqb (_calc_type self) TYPE_PREDICTIVE); discriminate.
    + intros (nd & Hnd & _). discriminate.
  - split; [discriminate|]. intros (nd & Hnd & _). discriminate.
Qed.

Lemma calculated_next_with_completion (self : TaskSensor)
    (now1 now2 l : datetime) :
  _last_done self = Some l ->
  (_calc_type self = TYPE_SLIDING -> truthy_int (_interval_days self) <> None) ->
  calculated_next self now1 = calculated_next self now2.
Proof.
  intros Hl Hi. unfold calculated_next, start_point. rewrite Hl.
  destruct (String.eqb (_calc_type self) TYPE_PREDICTIVE).
  - destruct (2 <=? List.length (_history self))%nat; [|cbn [bind]].
    + destruct (deltas (sorted (_history self))) as [|g gs]; [cbn [bind]|].
      * destruct (truthy_int (_interval_days self)); reflexivity.
      * destruct (avg_interval (g :: gs)) as [avg|e]; [|reflexivity].
        cbn [bind]. destruct (add l avg); reflexivity.
    + destruct (truthy_int (_interval_days self)); reflexivity.
  - destruct (String.eqb (_calc_type self) TYPE_SLIDING) eqn:E.
    + apply String.eqb_eq in E.
      destruct (truthy_int (_interval_days self)); [reflexivity|].
      exfalso. apply (Hi E). reflexivity.
    + reflexivity.
Qed.

(** X7. Once a completion is on record the due date does not move with the
    clock (for a Sliding task, provided its interval is usable): every
    recompute yields the same [next_due], and a task that is "Overdue"
    stays "Overdue" at every later time until it is completed or reset. *)
Theorem X7_due_date_does_not_drift (self : TaskSensor) (now1 now2 l : datetime) :
  _last_done self = Some l ->
  (_calc_type self = TYPE_SLIDING -> truthy_int (_interval_days self) <> None) ->
  _next_due (_update_state self now1) = _next_due (_update_state self now2) /\
  (now1 <= now2 ->
   _state (_update_state self now1) = "Overdue"%string ->
   _state (_update_state self now2) = "Overdue"%string).
Proof.
  intros Hl Hi.
  pose proof (calculated_next_with_completion self now1 now2 l Hl Hi) as Hc.
  split.
  - unfold _update_state. rewrite Hc.
    destruct (calculated_next self now2); [|reflexivity].
    rewrite !classify_next_due. reflexivity.
  - intros Hle H. apply state_overdue in H. destruct H as (nd & Hnd & Hlt).
    apply state_overdue. exists nd. rewrite <- Hc. split; [exact Hnd|lia].
Qed.

Lemma X7_due_date_does_not_drift_witness :
  _next_due (_update_state sliding_done_jan10 three_weeks_later) =
    _next_due (_update_state sliding_done_jan10 (three_weeks_later + us_per_day)) /\
  _state (_update_state sliding_done_jan10 (three_weeks_later + us_per_day))
    = "Overdue"%string.
Proof.
  destruct (X7_due_date_does_not_drift sliding_done_jan10 three_weeks_later
              (three_weeks_later + us_per_day)
              (mk_datetime 2024 1 10 12 0 0 0) eq_refl
              ltac:(intros _; discriminate)) as [H1 H2].
  split; [exact H1|].
  apply H2; [vm_compute; discriminate|reflexivity].
Defined.

(** ** The history as the ten latest completions *)

Lemma strongly_sorted_unique (l1 l2 : list Z) :
  StronglySorted Z.le l1 -> StronglySorted Z.le l2 ->
  Permutation l1 l2 -> l1 = l2.
Proof.
  revert l2. induction l1 as [|a l1 IH]; intros l2 H1 H2 Hp.
  - apply Permutation_nil in Hp. subst. reflexivity.
  - destruct l2 as [|b l2].
    + apply Permutation_sym, Permutation_nil in Hp. discriminate.
    + inversion H1 as [|? ? Hs1 Ha]; subst.
      inversion H2 as [|? ? Hs2 Hb]; subst.
      assert (Hab : a = b).
      { assert (Hin1 : In a (b :: l2))
          by (eapply Permutation_in; [exact Hp|left; reflexivity]).
        assert (Hin2 : In b (a :: l1))
          by (eapply Permutation_in;
              [apply Permutation_sym; exact Hp|left; reflexivity]).
        rewrite Forall_forall in Ha, Hb.
        destruct Hin1 as [E|Hin1]; [congruence|].
        destruct Hin2 as [E|Hin2]; [congruence|].
        specialize (Ha _ Hin2). specialize (Hb _ Hin1). lia. }
      subst b. f_equal. apply IH; try assumption.
      eapply Permutation_cons_inv. exact Hp.
Qed.

(** The sort depends on the entries only, not on their order. *)
Lemma sorted_perm_eq (l1 l2 : list Z) :
  Permutation l1 l2 -> sorted l1 = sorted l2.
Proof.
  intros Hp. apply strongly_sorted_unique; try apply sorted_sorted.
  rewrite <- (sorted_perm l1), <- (sorted_perm l2). exact Hp.
Qed.

Lemma insert_length (x : Z) (l : list Z) :
  List.length (insert x l) = S (List.length l).
Proof.
  rewrite <- (Permutation_length (insert_perm x l)). reflexivity.
Qed.

(** Inserting an entry that at least [k] entries are not below leaves the
    last [k] entries as they are. *)
Lemma last_n_insert_small (k : nat) (x : Z) (l : list Z) :
  StronglySorted Z.le l ->
  (k <= List.length (filter (Z.leb x) l))%nat ->
  last_n k (insert x l) = last_n k l.
Proof.
  induction 1 as [|y l Hs IH Hy]; intros Hk.
  - simpl in Hk. assert (k = 0%nat) by lia. subst k. reflexivity.
  - simpl insert. simpl filter in Hk. destruct (x <=? y) eqn:E.
    + pose proof (filter_length_le (Z.leb x) l) as Hle.
      simpl in Hk. unfold last_n. simpl List.length.
      replace (S (S (List.length l)) - k)%nat
        with (S (S (List.length l) - k)) by lia.
      reflexivity.
    + pose proof (filter_length_le (Z.leb x) l) as Hle.
      specialize (IH Hk). unfold last_n in *.
      simpl List.length. rewrite insert_length in *.
      assert (E1 : (S (S (List.length l)) - k = S (S (List.length l) - k))%nat)
        by lia.
      assert (E2 : (S (List.length l) - k = S (List.length l - k))%nat) by lia.
      rewrite E1. cbn [skipn]. rewrite IH, E2. reflexivity.
Qed.

Lemma filter_length_perm (f : Z -> bool) (l1 l2 : list Z) :
  Permutation l1 l2 ->
  List.length (filter f l1) = List.length (filter f l2).
Proof.
  induction 1 as [|x l1 l2 Hp IH|x y l|l1 l2 l3 H12 IH12 H23 IH23]; simpl.
  - reflexivity.
  - destruct (f x); simpl; rewrite IH; reflexivity.
  - destruct (f x), (f y); reflexivity.
  - rewrite IH12. exact IH23.
Qed.

(** Entries that at least [k] of the others are not below do not reach the
    last [k] places of the sort. *)
Lemma last_n_sorted_drop (k : nat) (d l : list Z) :
  Forall (fun x => (k <= List.length (filter (Z.leb x) l))%nat) d ->
  last_n k (sorted (d ++ l)) = last_n k (sorted l).
Proof.
  induction 1 as [|x d Hx Hd IH]; [reflexivity|].
  simpl. rewrite last_n_insert_small; [exact IH|apply sorted_sorted|].
  rewrite <- (filter_length_perm (Z.leb x) _ _ (sorted_perm (d ++ l))).
  rewrite filter_app, length_app. lia.
Qed.

Lemma strongly_sorted_app (l1 l2 : list Z) :
  StronglySorted Z.le (l1 ++ l2) ->
  forall x y, In x l1 -> In y l2 -> x <= y.
Proof.
  induction l1 as [|a l1 IH]; intros Hs x y Hx Hy; [contradiction|].
  simpl in Hs. inversion Hs as [|? ? Hs' Ha]; subst.
  destruct Hx as [->|Hx].
  - rewrite Forall_forall in Ha. apply Ha. apply in_or_app. right. exact Hy.
  - apply IH; assumption.
Qed.

(** Keeping the last [k] of a sort before more entries arrive loses nothing
    of the last [k] of the whole. *)
Lemma last_n_sorted_compose (k : nat) (a b : list Z) :
  last_n k (sorted (last_n k (sorted a) ++ b)) = last_n k (sorted (a ++ b)).
Proof.
  set (sa := sorted a). unfold last_n at 2.
  set (m := (List.length sa - k)%nat).
  rewrite (sorted_perm_eq (a ++ b) (firstn m sa ++ (skipn m sa ++ b))).
  - symmetry. apply last_n_sorted_drop.
    apply Forall_forall. intros x Hx.
    assert (Hm : (0 < m)%nat).
    { destruct m; [simpl in Hx; contradiction|lia]. }
    assert (Hlen : List.length (skipn m sa) = k)
      by (rewrite length_skipn; unfold m in *; lia).
    rewrite filter_app, length_app.
    assert (Hall : filter (Z.leb x) (skipn m sa) = skipn m sa).
    { apply forallb_filter_id. apply forallb_forall. intros y Hy.
      apply Z.leb_le.
      apply (strongly_sorted_app (firstn m sa) (skipn m sa)); try assumption.
      rewrite firstn_skipn. apply sorted_sorted. }
    rewrite Hall, Hlen. lia.
  - rewrite app_assoc, firstn_skipn. apply Permutation_app_tail.
    apply sorted_perm.
Qed.

Lemma mark_all_history (calls : list completion) :
  forall (self : TaskSensor) (c : completion),
    _history (mark_all self (c :: calls)) =
    last_n 10 (sorted (_history self ++ map done_time (c :: calls))).
Proof.
  induction calls as [|c' calls IH]; intros self c.
  - apply mark_as_done_history.
  - change (mark_all self (c :: c' :: calls))
      with (mark_all (mark_as_done self (fst (fst c)) (snd (fst c)) (snd c))
              (c' :: calls)).
    rewrite IH, mark_as_done_history.
    fold (done_time c).
    rewrite last_n_sorted_compose, <- app_assoc. reflexivity.
Qed.

(** X8. After any non-empty series of completions the history holds the ten
    latest among the entries it had and the completions recorded, in
    ascending order; the order in which the completions were recorded and
    the clock readings do not matter. *)
Theorem X8_history_is_the_ten_latest (self : TaskSensor) (c : completion)
    (calls : list completion) :
  _history (mark_all self (c :: calls)) =
    last_n 10 (sorted (_history self ++ map done_time (c :: calls))) /\
  (forall calls',
     Permutation (map done_time (c :: calls)) (map done_time calls') ->
     _history (mark_all self calls') = _history (mark_all self (c :: calls))).
Proof.
  split; [apply mark_all_history|].
  intros calls' Hp.
  destruct calls' as [|c' calls'].
  - apply Permutation_sym, Permutation_nil in Hp. discriminate.
  - rewrite !mark_all_history. f_equal. apply sorted_perm_eq.
    apply Permutation_app_head, Permutation_sym, Hp.
Qed.

Lemma X8_history_is_the_ten_latest_witness :
  _history (mark_all sliding_full late_entries_swapped) =
  _history (mark_all sliding_full late_entries).
Proof.
  apply (proj2 (X8_history_is_the_ten_latest sliding_full
                  (Some jan11, mock_now, mock_now)
                  [(Some jan5, tuesday, tuesday)]) late_entries_swapped).
  apply perm_swap.
Defined.

Lemma last_opt_in {A : Type} (l : list A) (m : A) :
  last_opt l = Some m -> In m l.
Proof.
  destruct l as [|x l]; [discriminate|].
  simpl. intros H. injection H as <-. apply last_in.
Qed.

Lemma last_cons {A : Type} (l : list A) (x y : A) :
  last (y :: l) x = last l y.
Proof.
  revert x y. induction l as [|z l IH]; intros x y; [reflexivity|].
  change (last (y :: z :: l) x) with (last (z :: l) x).
  rewrite (IH x z), (IH y z). reflexivity.
Qed.

Lemma last_opt_skipn {A : Type} (n : nat) (l : list A) :
  (n < List.length l)%nat -> last_opt (skipn n l) = last_opt l.
Proof.
  revert l. induction n as [|n IH]; intros l Hn; [reflexivity|].
  destruct l as [|x l]; [simpl in Hn; lia|].
  simpl in Hn. simpl skipn. rewrite IH by lia.
  destruct l as [|y l]; [simpl in Hn; lia|].
  simpl. f_equal. symmetry. apply last_cons.
Qed.

Lemma last_opt_sorted_max (l : list Z) (m : Z) :
  StronglySorted Z.le l -> last_opt l = Some m -> Forall (fun x => x <= m) l.
Proof.
  induction 1 as [|y l Hs IH Hy]; intros Hm; [constructor|].
  destruct l as [|z l].
  - injection Hm as <-. repeat constructor. lia.
  - assert (Hm' : last_opt (z :: l) = Some m).
    { rewrite <- Hm. simpl. f_equal. symmetry. apply last_cons. }
    constructor; [|apply IH; exact Hm'].
    rewrite Forall_forall in Hy. apply Hy. apply last_opt_in. exact Hm'.
Qed.

(** X9. After [mark_as_done], from any state, a last completion is on
    record and it is the latest of the entries the history had and the
    completion just made; in particular it is never earlier than that
    completion. *)
Theorem X9_last_done_is_the_latest (self : TaskSensor)
    (custom_date : option datetime) (clock now : datetime) :
  exists latest,
    _last_done (mark_as_done self custom_date clock now) = Some latest /\
    In latest (_history self ++ [done_time (custom_date, clock, now)]) /\
    Forall (fun x => x <= latest)
           (_history self ++ [done_time (custom_date, clock, now)]) /\
    done_time (custom_date, clock, now) <= latest.
Proof.
  change (done_time (custom_date, clock, now))
    with (match custom_date with Some d => d | None => clock end).
  set (t := match custom_date with Some d => d | None => clock end).
  set (l := sorted (_history self ++ [t])).
  assert (Hlen : (0 < List.length l)%nat)
    by (unfold l; rewrite sorted_length, length_app; simpl; lia).
  assert (Hlast : _last_done (mark_as_done self custom_date clock now)
                  = last_opt l).
  { rewrite mark_as_done_last_done, mark_as_done_history. fold t. fold l.
    unfold last_n. apply last_opt_skipn. unfold datetime in *. lia. }
  destruct (last_opt l) as [latest|] eqn:E.
  - exists latest. split; [exact Hlast|].
    pose proof (last_opt_in l latest E) as Hin.
    pose proof (last_opt_sorted_max l latest (sorted_sorted _) E) as Hmax.
    assert (Hp : Permutation l (_history self ++ [t]))
      by (apply Permutation_sym, sorted_perm).
    assert (Hall : Forall (fun x => x <= latest) (_history self ++ [t]))
      by (eapply Permutation_Forall; [exact Hp|exact Hmax]).
    split; [eapply Permutation_in; [exact Hp|exact Hin]|].
    split; [exact Hall|].
    rewrite Forall_forall in Hall. apply Hall.
    apply in_or_app. right. left. reflexivity.
  - destruct l; [simpl in Hlen; lia|discriminate].
Qed.

(** X10. On a full, ascending history a completion dated no later than
    every entry is not recorded at all: the history stays as it was, and so
    does the last completion of a coherent sensor. *)
Theorem X10_old_completion_is_dropped (self : TaskSensor) (t clock now : datetime) :
  StronglySorted Z.le (_history self) ->
  List.length (_history self) = 10%nat ->
  Forall (fun x => t <= x) (_history self) ->
  _history (mark_as_done self (Some t) clock now) = _history self /\
  (coherent self ->
   _last_done (mark_as_done self (Some t) clock now) = _last_done self).
Proof.
  intros Hs Hlen Hall.
  assert (Hh : _history (mark_as_done self (Some t) clock now) = _history self).
  { rewrite mark_as_done_history.
    rewrite (sorted_perm_eq (_history self ++ [t]) (t :: _history self))
      by (apply Permutation_sym, Permutation_cons_append).
    rewrite sorted_id by (constructor; assumption).
    unfold last_n, datetime in *. simpl List.length. rewrite Hlen.
    reflexivity. }
  split; [exact Hh|].
  intros Hc. rewrite mark_as_done_last_done, Hh. symmetry. exact Hc.
Qed.

Lemma X10_old_completion_is_dropped_witness :
  _history (mark_as_done sliding_full (Some new_year_eve) mock_now mock_now)
    = _history sliding_full /\
  _last_done (mark_as_done sliding_full (Some new_year_eve) mock_now mock_now)
    = _last_done sliding_full.
Proof.
  destruct (X10_old_completion_is_dropped sliding_full new_year_eve
              mock_now mock_now) as [H1 H2].
  - vm_compute. repeat constructor; discriminate.
  - reflexivity.
  - vm_compute. repeat constructor; discriminate.
  - split; [exact H1|]. apply H2. reflexivity.
Defined.

(** ** What the entry points keep *)

Lemma update_state_identity (self : TaskSensor) (now : datetime) :
  _name (_update_state self now) = _name self /\
  _icon_default (_update_state self now) = _icon_default self.
Proof.
  unfold _update_state.
  destruct (calculated_next self now) as [c|e]; [|split; reflexivity].
  unfold classify. destruct c as [next_due|]; [|split; reflexivity].
  destruct (next_due <? now); [split; reflexivity|].
  destruct (toordinal next_due =? toordinal now); split; reflexivity.
Qed.

Lemma update_state_configuration (self : TaskSensor) (now : datetime) :
  _name (_update_state self now) = _name self /\
  _calc_type (_update_state self now) = _calc_type self /\
  _icon_default (_update_state self now) = _icon_default self /\
  _interval_days (_update_state self now) = _interval_days self /\
  _schedule (_update_state self now) = _schedule self.
Proof.
  destruct (update_state_identity self now) as [H1 H2].
  destruct (update_state_config self now) as (H3 & H4 & H5).
  repeat split; assumption.
Qed.

(** X11. No entry point of the sensor changes its configuration: the name,
    the type, the default icon, the interval and the schedule are the same
    after a recompute, a completion, a reset or a restore, also when the
    recompute fails. *)
Theorem X11_configuration_is_immutable
    (parse_datetime : string -> result (option datetime))
    (c : call) (self : TaskSensor) :
  _name (run parse_datetime c self) = _name self /\
  _calc_type (run parse_datetime c self) = _calc_type self /\
  _icon_default (run parse_datetime c self) = _icon_default self /\
  _interval_days (run parse_datetime c self) = _interval_days self /\
  _schedule (run parse_datetime c self) = _schedule self.
Proof.
  destruct c as [now|custom_date clock now|now|last_state now];
    cbn [run].
  - apply update_state_configuration.
  - unfold mark_as_done. cbv zeta.
    match goal with
    | |- context [_update_state ?s now] =>
        pose proof (update_state_configuration s now) as H
    end.
    exact H.
  - unfold reset_history.
    exact (update_state_configuration (set_completions self [] None) now).
  - unfold async_added_to_hass.
    match goal with
    | |- context [_update_state ?s now] =>
        pose proof (update_state_configuration s now) as H;
        assert (Hs : _name s = _name self /\
                     _calc_type s = _calc_type self /\
                     _icon_default s = _icon_default self /\
                     _interval_days s = _interval_days self /\
                     _schedule s = _schedule self)
    end.
    { destruct last_state as [[ld hist]|]; [|repeat split].
      cbn [attr_last_done attr_history].
      destruct ld as [[|a s]|]; destruct hist as [[|d rest]|];
        try destruct (parse_datetime (String a s));
        try destruct (parse_history parse_datetime (d :: rest));
        repeat split. }
    destruct H as (H1 & H2 & H3 & H4 & H5).
    destruct Hs as (G1 & G2 & G3 & G4 & G5).
    rewrite H1, H2, H3, H4, H5. repeat split; assumption.
Qed.

(** X12. Through any series of recomputes, completions and resets, started
    from a sensor for which it holds (a newly created sensor is one), the
    last completion on record is the last entry of the history, absent
    exactly when the history is empty, and the history is ascending with at
    most 10 entries. *)
Theorem X12_completions_stay_coherent
    (parse_datetime : string -> result (option datetime))
    (calls : list call) :
  forall self : TaskSensor,
    Forall (fun c => is_restore_call c = false) calls ->
    coherent self ->
    StronglySorted Z.le (_history self) ->
    (List.length (_history self) <= 10)%nat ->
    coherent (fold_left (fun s c => run parse_datetime c s) calls self) /\
    StronglySorted Z.le
      (_history (fold_left (fun s c => run parse_datetime c s) calls self)) /\
    (List.length
       (_history (fold_left (fun s c => run parse_datetime c s) calls self))
     <= 10)%nat.
Proof.
  induction calls as [|c calls IH]; intros self Hcalls Hc Hs Hl.
  - repeat split; assumption.
  - inversion Hcalls as [|? ? Hnr Hrest]; subst.
    cbn [fold_left]. apply IH; [exact Hrest| | |].
    + destruct c as [now|custom_date clock now|now|last_state now];
        cbn [run]; [|apply mark_as_done_coherent|apply reset_history_coherent|
                    discriminate].
      apply update_state_coherent. exact Hc.
    + destruct c as [now|custom_date clock now|now|last_state now];
        cbn [run]; [| | |discriminate].
      * destruct (update_state_completions self now) as [-> _]. exact Hs.
      * rewrite mark_as_done_history. apply skipn_sorted, sorted_sorted.
      * unfold reset_history.
        destruct (update_state_completions (set_completions self [] None) now)
          as [-> _].
        constructor.
    + destruct c as [now|custom_date clock now|now|last_state now];
        cbn [run]; [| | |discriminate].
      * destruct (update_state_completions self now) as [-> _]. exact Hl.
      * rewrite mark_as_done_history, last_n_length. lia.
      * unfold reset_history.
        destruct (update_state_completions (set_completions self [] None) now)
          as [-> _].
        simpl. lia.
Qed.

Lemma X12_completions_stay_coherent_witness :
  coherent (fold_left (fun s c => run parse_one c s) busy_day sliding_task) /\
  StronglySorted Z.le
    (_history (fold_left (fun s c => run parse_one c s) busy_day sliding_task)) /\
  (List.length
     (_history (fold_left (fun s c => run parse_one c s) busy_day sliding_task))
   <= 10)%nat.
Proof.
  apply (X12_completions_stay_coherent parse_one busy_day sliding_task).
  - repeat constructor.
  - reflexivity.
  - constructor.
  - simpl. lia.
Defined.

(** ** The range of [days_remaining] *)





(** ** Restore *)






Lemma parse_history_well_formed
    (parse_datetime : string -> result (option datetime))
    (raw_history : list string) :
  Forall (fun d => exists v, parse_datetime d = Ok v) raw_history ->
  parse_history parse_datetime raw_history
    = Ok (well_formed parse_datetime raw_history).
Proof.
  induction 1 as [|d rest [v Hd] Hrest IH]; [reflexivity|].
  simpl. unfold well_formed in *. rewrite Hd. cbn [bind].
  destruct v as [t|]; rewrite IH; reflexivity.
Qed.

Lemma parse_history_raises
    (parse_datetime : string -> result (option datetime))
    (raw_history : list string) :
  Exists (fun d => exists e, parse_datetime d = Raise e) raw_history ->
  exists e, parse_history parse_datetime raw_history = Raise e.
Proof.
  induction raw_history as [|d rest IH]; intros H; [inversion H|].
  simpl. destruct (parse_datetime d) as [[t|]|e] eqn:Ed.
  - cbn [bind]. inversion H as [? ? [e He]|? ? Hr]; subst; [congruence|].
    destruct (IH Hr) as [e He]. exists e. rewrite He. reflexivity.
  - cbn [bind]. inversion H as [? ? [e He]|? ? Hr]; subst; [congruence|].
    exact (IH Hr).
  - exists e. reflexivity.
Qed.

(** X15. The restore keeps of a stored history the entries that parse, in
    their stored order, and skips the others without failing; but when the
    parser raises on one entry, none is restored and the history stays as
    it was. In both cases the restore completes with a recompute. *)
Theorem X15_restore_skips_malformed_entries
    (parse_datetime : string -> result (option datetime))
    (self : TaskSensor) (last_state : StoredState) (d : string)
    (rest : list string) (now : datetime) :
  attr_history last_state = Some (d :: rest) ->
  (Forall (fun d => exists v, parse_datetime d = Ok v) (d :: rest) ->
   _history (async_added_to_hass parse_datetime self (Some last_state) now)
     = well_formed parse_datetime (d :: rest)) /\
  (Exists (fun d => exists e, parse_datetime d = Raise e) (d :: rest) ->
   _history (async_added_to_hass parse_datetime self (Some last_state) now)
     = _history self).
Proof.
  intros Hst. unfold async_added_to_hass. rewrite Hst.
  match goal with
  | |- context [match parse_history parse_datetime (d :: rest) with
                | Ok parsed => set_completions ?s1 parsed (_last_done ?s1)
                | Raise _ => ?s1 end] =>
      set (self1 := s1);
      assert (H1 : _history self1 = _history self)
  end.
  { unfold self1. destruct (attr_last_done last_state) as [[|c s]|];
      try reflexivity.
    destruct (parse_datetime (String c s)); reflexivity. }
  split; intros H.
  - rewrite (parse_history_well_formed parse_datetime (d :: rest) H).
    destruct (update_state_completions
                (set_completions self1
                   (well_formed parse_datetime (d :: rest))
                   (_last_done self1)) now) as [Hh _].
    exact Hh.
  - destruct (parse_history_raises parse_datetime (d :: rest) H) as [e He].
    rewrite He.
    destruct (update_state_completions self1 now) as [Hh _].
    rewrite Hh. exact H1.
Qed.

Lemma X15_restore_skips_malformed_entries_witness :
  _history (async_added_to_hass parse_one sliding_task
              (Some stored_with_rubbish) tuesday)
    = [mock_now; mock_now].
Proof.
  apply (proj1 (X15_restore_skips_malformed_entries parse_one sliding_task
                  stored_with_rubbish "2024-01-01T12:00:00"
                  ["yesterday"%string; "2024-01-01T12:00:00"%string]
                  tuesday eq_refl)).
  repeat constructor; eexists; reflexivity.
Defined.

(** ** Setup *)

Lemma digit_char (d : Z) :
  0 <= d <= 9 ->
  digit (ascii_of_nat (Z.to_nat (48 + d))) = Some d /\
  Ascii.eqb (ascii_of_nat (Z.to_nat (48 + d))) ":" = false.
Proof.
  intros Hd.
  assert (H : d = 0 \/ d = 1 \/ d = 2 \/ d = 3 \/ d = 4 \/ d = 5 \/ d = 6 \/
              d = 7 \/ d = 8 \/ d = 9) by lia.
  repeat (destruct H as [->|H]; [split; reflexivity|]).
  subst d. split; reflexivity.
Qed.

Lemma field_two_digits (limit n : Z) :
  0 <= n <= limit -> limit < 100 ->
  field limit (two_digits n) = Some n.
Proof.
  intros Hn Hl. unfold field, two_digits.
  pose proof (Z.div_mod n 10 ltac:(discriminate)) as Hdm.
  pose proof (Z.mod_pos_bound n 10 ltac:(reflexivity)) as Hb.
  assert (Hq : 0 <= n / 10 <= 9) by lia.
  destruct (digit_char (n / 10) Hq) as [-> _].
  destruct (digit_char (n mod 10) ltac:(lia)) as [-> _].
  replace (10 * (n / 10) + n mod 10) with n by lia.
  replace (n <=? limit) with true by (symmetry; apply Z.leb_le; lia).
  reflexivity.
Qed.

Lemma split_hms (h m s : Z) :
  0 <= h < 100 -> 0 <= m < 100 -> 0 <= s < 100 ->
  split ":" (hms h m s) = [two_digits h; two_digits m; two_digits s].
Proof.
  intros Hh Hm Hs. unfold hms, two_digits.
  assert (Hd : forall n, 0 <= n < 100 ->
            Ascii.eqb (ascii_of_nat (Z.to_nat (48 + n / 10))) ":" = false /\
            Ascii.eqb (ascii_of_nat (Z.to_nat (48 + n mod 10))) ":" = false).
  { intros n Hn.
    pose proof (Z.div_mod n 10 ltac:(discriminate)).
    pose proof (Z.mod_pos_bound n 10 ltac:(reflexivity)).
    split; apply digit_char; lia. }
  destruct (Hd h Hh) as [H1 H2]. destruct (Hd m Hm) as [M1 M2].
  destruct (Hd s Hs) as [S1 S2].
  cbn [append split]. rewrite H1, H2, M1, M2, S1, S2.
  cbn [Ascii.eqb Bool.eqb]. reflexivity.
Qed.

Lemma strptime_time_hms (h m s : Z) :
  0 <= h < 24 -> 0 <= m < 60 -> 0 <= s < 60 ->
  strptime_time (hms h m s) = Ok (mk_time h m s).
Proof.
  intros Hh Hm Hs. unfold strptime_time.
  rewrite split_hms by lia.
  rewrite !field_two_digits by lia. reflexivity.
Qed.

Lemma hour_minute_mk_time (h m s : Z) :
  0 <= h < 24 -> 0 <= m < 60 -> 0 <= s < 60 ->
  hour (mk_time h m s) = h /\ minute (mk_time h m s) = m.
Proof.
  intros Hh Hm Hs. unfold hour, minute, mk_time, us_per_second. split.
  - replace (((h * 60 + m) * 60 + s) * 1000000)
      with ((m * 60 + s) * 1000000 + h * (3600 * 1000000)) by lia.
    rewrite Z.div_add by discriminate.
    rewrite Z.div_small by lia. apply Z.mod_small. lia.
  - replace (((h * 60 + m) * 60 + s) * 1000000)
      with (s * 1000000 + (h * 60 + m) * (60 * 1000000)) by lia.
    rewrite Z.div_add by discriminate.
    rewrite Z.div_small by lia.
    replace (0 + (h * 60 + m)) with (m + h * 60) by lia.
    rewrite Z.mod_add by discriminate. apply Z.mod_small. lia.
Qed.

Lemma hms_not_empty (h m s : Z) : exists c rest, hms h m s = String c rest.
Proof. unfold hms, two_digits. eexists. eexists. reflexivity. Qed.

Lemma digit_range (c : Ascii.ascii) (d : Z) : digit c = Some d -> 0 <= d <= 9.
Proof.
  unfold digit.
  destruct ((48 <=? Z.of_nat (nat_of_ascii c))
            && (Z.of_nat (nat_of_ascii c) <=? 57)) eqn:E; [|discriminate].
  intros H. injection H as <-.
  apply andb_prop in E. destruct E as [E1 E2].
  apply Z.leb_le in E1, E2. lia.
Qed.

Lemma field_range (limit : Z) (s : string) (v : Z) :
  9 <= limit -> field limit s = Some v -> 0 <= v <= limit.
Proof.
  intros Hl. unfold field.
  destruct s as [|a [|b [|c s]]]; try discriminate.
  - intros H. apply digit_range in H. lia.
  - destruct (digit a) as [x|] eqn:Ea; [|discriminate].
    destruct (digit b) as [y|] eqn:Eb; [|discriminate].
    destruct (10 * x + y <=? limit) eqn:E; [|discriminate].
    intros H. assert (Hv : v = 10 * x + y) by congruence.
    apply digit_range in Ea. apply digit_range in Eb.
    apply Z.leb_le in E. lia.
Qed.

Lemma strptime_time_range (s : string) (t : time) :
  strptime_time s = Ok t -> 0 <= t < us_per_day.
Proof.
  unfold strptime_time.
  destruct (split ":" s) as [|h [|m [|sec [|x l]]]]; try discriminate.
  destruct (field 23 h) as [vh|] eqn:Eh; [|discriminate].
  destruct (field 59 m) as [vm|] eqn:Em; [|discriminate].
  destruct (field 59 sec) as [vs|] eqn:Es; [|discriminate].
  intros H. injection H as <-.
  apply field_range in Eh; [|lia].
  apply field_range in Em; [|lia].
  apply field_range in Es; [|lia].
  unfold mk_time, us_per_second, us_per_day. lia.
Qed.

(** The schedule of a sensor that [async_setup_entry] creates. *)
Lemma setup_schedule (config : Config) (entry_id : string) :
  exists t days,
    _schedule (fst (async_setup_entry config entry_id))
      = Some {| CONF_TIME := Some t; CONF_DAYS := Some days |} /\
    0 <= t < us_per_day /\
    (forall s, config_time config = Some s -> strptime_time s = Ok t \/
       (t = 0 /\ (s = EmptyString \/ exists e, strptime_time s = Raise e))) /\
    (config_time config = None -> t = 0).
Proof.
  unfold async_setup_entry. cbn [fst init _schedule].
  destruct (config_time config) as [[|c s]|] eqn:Et.
  - eexists. eexists. split; [reflexivity|].
    split; [vm_compute; split; [discriminate|reflexivity]|]. split.
    + intros s H. injection H as <-. right. split; [reflexivity|left; reflexivity].
    + discriminate.
  - destruct (strptime_time (String c s)) as [t|e] eqn:Ep.
    + eexists. eexists. split; [reflexivity|].
      split; [exact (strptime_time_range _ _ Ep)|]. split.
      * intros s' H. injection H as <-. left. exact Ep.
      * discriminate.
    + eexists. eexists. split; [reflexivity|].
      split; [vm_compute; split; [discriminate|reflexivity]|]. split.
      * intros s' H. injection H as <-. right. split; [reflexivity|].
        right. exists e. exact Ep.
      * discriminate.
  - eexists. eexists. split; [reflexivity|].
    split; [vm_compute; split; [discriminate|reflexivity]|]. split.
    + discriminate.
    + reflexivity.
Qed.

Lemma setup_fresh (config : Config) (entry_id : string) :
  _calc_type (fst (async_setup_entry config entry_id)) = config_type config /\
  _last_done (fst (async_setup_entry config entry_id)) = None /\
  _history (fst (async_setup_entry config entry_id)) = [] /\
  _interval_days (fst (async_setup_entry config entry_id))
    = config_interval config /\
  _icon_default (fst (async_setup_entry config entry_id)) = config_icon config.
Proof. repeat split. Qed.

(** The first recompute of a Fixed sensor with a schedule of clock time [t]:
    due on a later date, at the hour and minute of [t]. *)
Lemma first_due_fixed (self : TaskSensor) (now : datetime) (t : time)
    (days : list string) :
  _calc_type self = TYPE_FIXED ->
  _schedule self = Some {| CONF_TIME := Some t; CONF_DAYS := Some days |} ->
  _last_done self = None ->
  toordinal now + 7 <= max_ordinal ->
  exists next_due,
    _next_due (_update_state self now) = Some next_due /\
    _state (_update_state self now) <> "Unknown"%string /\
    _state (_update_state self now) <> "Error"%string /\
    toordinal now < toordinal next_due <= toordinal now + 7 /\
    timeofday next_due = mk_time (hour t) (minute t) 0.
Proof.
  intros Ht Hs Hl Hmax.
  assert (Hsp : start_point self now = now)
    by (unfold start_point; rewrite Hl; reflexivity).
  assert (Htd : truthy_dict (_schedule self)
                = Some {| CONF_TIME := Some t; CONF_DAYS := Some days |})
    by (rewrite Hs; reflexivity).
  destruct (calculated_next_fixed self now _ Ht Htd
              ltac:(rewrite Hsp; exact Hmax)) as (k & Hk & _ & _ & Hc).
  rewrite Hsp in Hc. cbn [target_time CONF_TIME] in Hc.
  pose proof (clock_bound t) as Hclock.
  set (clock := mk_time (hour t) (minute t) 0) in *.
  set (next_due := combine (toordinal now + Z.of_nat k) clock) in *.
  assert (Hord : toordinal next_due = toordinal now + Z.of_nat k)
    by (apply toordinal_combine; exact Hclock).
  assert (Hlt : now < next_due) by (apply toordinal_lt; lia).
  exists next_due.
  rewrite (update_state_ok self now _ Hc). unfold classify.
  replace (next_due <? now) with false by (symmetry; apply Z.ltb_ge; lia).
  replace (toordinal next_due =? toordinal now) with false
    by (symmetry; apply Z.eqb_neq; lia).
  cbn [_next_due _state set_derived].
  split; [reflexivity|]. split; [discriminate|]. split; [discriminate|].
  split; [lia|]. apply timeofday_combine. exact Hclock.
Qed.

(** X16. A time of day written [HH:MM:SS] in the configuration comes out
    of the setup as that time of day, and a Fixed task set up with it is
    due at [HH:MM:00]: the seconds are read and then dropped. *)
Theorem X16_configured_time_round_trip (config : Config) (entry_id : string)
    (h m s : Z) (now : datetime) :
  0 <= h < 24 -> 0 <= m < 60 -> 0 <= s < 60 ->
  config_time config = Some (hms h m s) ->
  (exists days,
     _schedule (fst (async_setup_entry config entry_id))
       = Some {| CONF_TIME := Some (mk_time h m s); CONF_DAYS := Some days |}) /\
  (config_type config = TYPE_FIXED ->
   toordinal now + 7 <= max_ordinal ->
   exists next_due,
     _next_due (_update_state (fst (async_setup_entry config entry_id)) now)
       = Some next_due /\
     timeofday next_due = mk_time h m 0).
Proof.
  intros Hh Hm Hs Ht.
  destruct (setup_schedule config entry_id) as (t & days & Hsch & _ & Hstr & _).
  destruct (Hstr _ Ht) as [Hp|[_ [He|[e He]]]].
  - rewrite strptime_time_hms in Hp by assumption. injection Hp as <-.
    split; [exists days; exact Hsch|].
    intros Hty Hmax.
    destruct (first_due_fixed (fst (async_setup_entry config entry_id)) now
                _ _ Hty Hsch eq_refl Hmax)
      as (nd & Hnd & _ & _ & _ & Htime).
    exists nd. split; [exact Hnd|].
    destruct (hour_minute_mk_time h m s Hh Hm Hs) as [Eh Em].
    rewrite Eh, Em in Htime. exact Htime.
  - destruct (hms_not_empty h m s) as (c & rest & E). congruence.
  - rewrite strptime_time_hms in He by assumption. discriminate.
Qed.

Lemma X16_configured_time_round_trip_witness :
  (exists days,
     _schedule (fst (async_setup_entry bins_config "entry1"))
       = Some {| CONF_TIME := Some (mk_time 6 45 30); CONF_DAYS := Some days |}) /\
  (config_type bins_config = TYPE_FIXED ->
   toordinal wednesday_8am + 7 <= max_ordinal ->
   exists next_due,
     _next_due (_update_state (fst (async_setup_entry bins_config "entry1"))
                  wednesday_8am)
       = Some next_due /\
     timeofday next_due = mk_time 6 45 0).
Proof.
  apply (X16_configured_time_round_trip bins_config "entry1" 6 45 30
           wednesday_8am); try lia.
  reflexivity.
Defined.





(** *** Tags and assignees *)

Lemma lstrip_head (s : string) :
  lstrip s = EmptyString \/
  exists c r, lstrip s = String c r /\ is_space c = false.
Proof.
  induction s as [|c s IH]; [left; reflexivity|].
  cbn [lstrip]. destruct (is_space c) eqn:E; [exact IH|].
  right. exists c, s. split; [reflexivity|exact E].
Qed.

Lemma rstrip_idempotent (s : string) : rstrip (rstrip s) = rstrip s.
Proof.
  induction s as [|c s IH]; [reflexivity|].
  cbn [rstrip]. destruct (rstrip s) as [|c' r] eqn:E.
  - destruct (is_space c) eqn:Ec; [reflexivity|].
    cbn [rstrip]. rewrite Ec. reflexivity.
  - cbn [rstrip] in IH |- *. cbn [rstrip]. rewrite IH. reflexivity.
Qed.

Lemma rstrip_head (c : Ascii.ascii) (s : string) :
  is_space c = false -> exists r, rstrip (String c s) = String c r.
Proof.
  intros Hc. cbn [rstrip]. destruct (rstrip s) as [|c' r].
  - rewrite Hc. eexists. reflexivity.
  - eexists. reflexivity.
Qed.

(** Stripping a stripped string changes nothing. *)
Lemma strip_idempotent (s : string) : strip (strip s) = strip s.
Proof.
  unfold strip.
  destruct (lstrip_head s) as [E|(c & r & E & Hc)].
  - rewrite E. reflexivity.
  - rewrite E. destruct (rstrip_head c r Hc) as [r' Er]. rewrite Er.
    cbn [lstrip]. rewrite Hc. rewrite <- Er. apply rstrip_idempotent.
Qed.

Lemma lstrip_chars (x : Ascii.ascii) (s : string) :
  In x (list_ascii_of_string (lstrip s)) -> In x (list_ascii_of_string s).
Proof.
  induction s as [|c s IH]; [exact (fun H => H)|].
  cbn [lstrip]. destruct (is_space c).
  - intros H. right. exact (IH H).
  - exact (fun H => H).
Qed.

Lemma rstrip_chars (x : Ascii.ascii) (s : string) :
  In x (list_ascii_of_string (rstrip s)) -> In x (list_ascii_of_string s).
Proof.
  induction s as [|c s IH]; [exact (fun H => H)|].
  cbn [rstrip]. destruct (rstrip s) as [|c' r].
  - destruct (is_space c); [intros []|].
    intros [H|[]]. left. exact H.
  - intros [H|H]; [left; exact H|right; exact (IH H)].
Qed.

Lemma strip_chars (x : Ascii.ascii) (s : string) :
  In x (list_ascii_of_string (strip s)) -> In x (list_ascii_of_string s).
Proof. intros H. apply lstrip_chars, rstrip_chars, H. Qed.

Lemma split_not_nil (sep : Ascii.ascii) (s : string) : split sep s <> [].
Proof.
  destruct s as [|c s]; [discriminate|].
  cbn [split]. destruct (Ascii.eqb c sep); [discriminate|].
  destruct (split sep s); discriminate.
Qed.

(** No piece of a split holds the separator. *)
Lemma split_pieces (sep : Ascii.ascii) (s piece : string) :
  In piece (split sep s) -> ~ In sep (list_ascii_of_string piece).
Proof.
  revert piece. induction s as [|c s IH]; intros piece.
  - intros [<-|[]] [].
  - cbn [split]. destruct (Ascii.eqb c sep) eqn:E.
    + intros [<-|H]; [intros []|exact (IH _ H)].
    + destruct (split sep s) as [|p ps] eqn:Es.
      * exfalso. exact (split_not_nil _ _ Es).
      * intros [<-|H].
        -- intros [Hc|Hc].
           ++ subst c. rewrite Ascii.eqb_refl in E. discriminate.
           ++ exact (IH p (or_introl eq_refl) Hc).
        -- exact (IH _ (or_intror H)).
Qed.

(** The characters of the pieces are characters of the string. *)
Lemma split_chars (sep x : Ascii.ascii) (s piece : string) :
  In piece (split sep s) -> In x (list_ascii_of_string piece) ->
  In x (list_ascii_of_string s).
Proof.
  revert piece. induction s as [|c s IH]; intros piece.
  - intros [<-|[]] [].
  - cbn [split]. destruct (Ascii.eqb c sep) eqn:E.
    + intros [<-|H]; [intros []|]. intros Hx. right. exact (IH _ H Hx).
    + destruct (split sep s) as [|p ps] eqn:Es.
      * exfalso. exact (split_not_nil _ _ Es).
      * intros [<-|H].
        -- intros [Hc|Hc]; [left; exact Hc|].
           right. exact (IH p (or_introl eq_refl) Hc).
        -- intros Hx. right. exact (IH _ (or_intror H) Hx).
Qed.

Lemma entries_text (s t : string) :
  In t (entries (Text s)) ->
  exists piece, In piece (split "," s) /\ t = strip piece /\ t <> EmptyString.
Proof.
  cbn [entries]. destruct (strip s); [intros []|].
  intros H. apply in_flat_map in H. destruct H as (piece & Hp & Ht).
  exists piece. split; [exact Hp|].
  destruct (strip piece) as [|c r]; [destruct Ht|].
  destruct Ht as [<-|[]]. split; [reflexivity|discriminate].
Qed.

(** X18. Tags and assignees typed as one line come out of the setup
    clean: every entry is a stripped piece between two commas of the line,
    so it is not empty, has no white space at either end, holds no comma and
    only characters of the line; and a blank line gives no entry at all. *)
Theorem X18_typed_entries_are_clean (config : Config) (entry_id : string)
    (line t : string) :
  (config_tags config = Text line /\
   In t (_tags (snd (async_setup_entry config entry_id)))) \/
  (config_assignees config = Text line /\
   In t (_assignee_ids (snd (async_setup_entry config entry_id)))) ->
  t <> EmptyString /\
  strip t = t /\
  ~ In ","%char (list_ascii_of_string t) /\
  (forall x, In x (list_ascii_of_string t) -> In x (list_ascii_of_string line)) /\
  (exists piece, In piece (split "," line) /\ t = strip piece) /\
  strip line <> EmptyString.
Proof.
  assert (Hent : In t (entries (Text line)) ->
    t <> EmptyString /\
    strip t = t /\
    ~ In ","%char (list_ascii_of_string t) /\
    (forall x, In x (list_ascii_of_string t) -> In x (list_ascii_of_string line)) /\
    (exists piece, In piece (split "," line) /\ t = strip piece) /\
    strip line <> EmptyString).
  { intros H. destruct (entries_text _ _ H) as (piece & Hp & Ht & Hne).
    split; [exact Hne|]. split; [subst t; apply strip_idempotent|].
    split; [|split; [|split]].
    - intros Hc. subst t. apply strip_chars in Hc.
      exact (split_pieces _ _ _ Hp Hc).
    - intros x Hx. subst t. apply strip_chars in Hx.
      exact (split_chars _ _ _ _ Hp Hx).
    - exists piece. split; [exact Hp|exact Ht].
    - intros Hb. cbn [entries] in H. rewrite Hb in H. destruct H. }
  unfold async_setup_entry. cbn [snd _tags _assignee_ids].
  intros [[Hline H]|[Hline H]]; rewrite Hline in H; exact (Hent H).
Qed.

Lemma X18_typed_entries_are_clean_witness :
  "chores"%string <> EmptyString /\
  strip "chores" = "chores"%string /\
  ~ In ","%char (list_ascii_of_string "chores") /\
  (forall x, In x (list_ascii_of_string "chores") ->
             In x (list_ascii_of_string " kitchen , ,chores,")) /\
  (exists piece, In piece (split "," " kitchen , ,chores,") /\
                 "chores"%string = strip piece) /\
  strip " kitchen , ,chores," <> EmptyString.
Proof.
  apply (X18_typed_entries_are_clean bins_config "entry1"
           " kitchen , ,chores," "chores").
  left. split; [reflexivity|]. vm_compute. right. left. reflexivity.
Defined.

(** ** The services *)

Lemma for_each_ids (action : nat -> TaskSensor -> TaskSensor)
    (ids : list string) (i : nat) (entities : list Entity) :
  map entity_id (for_each action ids i entities) = map entity_id entities.
Proof.
  revert i. induction entities as [|e rest IH]; intros i; [reflexivity|].
  cbn [for_each map]. rewrite IH. destruct (named ids e); reflexivity.
Qed.

Lemma for_each_nth (action : nat -> TaskSensor -> TaskSensor)
    (ids : list string) (k i : nat) (entities : list Entity) :
  nth_error (for_each action ids k entities) i =
  option_map (fun e => if named ids e
                       then {| entity_id := entity_id e;
                               sensor := action (k + i)%nat (sensor e) |}
                       else e)
             (nth_error entities i).
Proof.
  revert k i. induction entities as [|e rest IH]; intros k i.
  - destruct i; reflexivity.
  - destruct i as [|i]; cbn [for_each nth_error option_map].
    + rewrite Nat.add_0_r. reflexivity.
    + rewrite IH. replace (S k + i)%nat with (k + S i)%nat by lia. reflexivity.
Qed.

Lemma named_In (ids : list string) (e : Entity) :
  named ids e = true <-> In (entity_id e) ids.
Proof.
  unfold named. rewrite existsb_exists. split.
  - intros (x & Hx & E). apply String.eqb_eq in E. subst x. exact Hx.
  - intros H. exists (entity_id e). split; [exact H|apply String.eqb_refl].
Qed.

Lemma for_each_members (action : nat -> TaskSensor -> TaskSensor)
    (ids1 ids2 : list string) (i : nat) (entities : list Entity) :
  (forall e, In e entities -> In (entity_id e) ids1 <-> In (entity_id e) ids2) ->
  for_each action ids1 i entities = for_each action ids2 i entities.
Proof.
  revert i. induction entities as [|e rest IH]; intros i H; [reflexivity|].
  cbn [for_each]. rewrite IH by (intros e' He'; apply H; right; exact He').
  assert (E : named ids1 e = named ids2 e).
  { pose proof (H e (or_introl eq_refl)) as He.
    rewrite <- !named_In in He.
    destruct (named ids1 e), (named ids2 e); try reflexivity.
    - symmetry. apply He. reflexivity.
    - apply He. reflexivity. }
  rewrite E. reflexivity.
Qed.

Lemma for_each_nobody (action : nat -> TaskSensor -> TaskSensor)
    (ids : list string) (i : nat) (entities : list Entity) :
  (forall e, In e entities -> ~ In (entity_id e) ids) ->
  for_each action ids i entities = entities.
Proof.
  revert i. induction entities as [|e rest IH]; intros i H; [reflexivity|].
  cbn [for_each]. rewrite IH by (intros e' He'; apply H; right; exact He').
  destruct (named ids e) eqn:E; [|reflexivity].
  apply named_In in E. destruct (H e (or_introl eq_refl) E).
Qed.

Lemma for_each_invariant (P : TaskSensor -> Prop)
    (action : nat -> TaskSensor -> TaskSensor)
    (ids : list string) (i : nat) (entities : list Entity) :
  (forall j self, P self -> P (action j self)) ->
  Forall (fun e => P (sensor e)) entities ->
  Forall (fun e => P (sensor e)) (for_each action ids i entities).
Proof.
  intros Hact. revert i.
  induction entities as [|e rest IH]; intros i H; [constructor|].
  inversion H as [|? ? He Hrest]; subst.
  cbn [for_each]. constructor; [|exact (IH _ Hrest)].
  destruct (named ids e); [cbn [sensor]; apply Hact|]; exact He.
Qed.

Lemma dispatch_ids (action : nat -> TaskSensor -> TaskSensor)
    (entity_ids : EntityIds) (ids : list string) (entities : list Entity) :
  ids_of entity_ids = Some ids ->
  dispatch action entity_ids entities = Handled (for_each action ids 0 entities).
Proof.
  destruct entity_ids; cbn [ids_of]; intros H; [discriminate| |];
    injection H as <-; reflexivity.
Qed.

(** X19. A completion date that cannot be read is not refused: when the
    date of a [complete_task] call is empty or is no timestamp for the
    parser, the call does what a call without a date does, and every named
    task records the completion at the reading of its own clock. The tasks
    that are not named stay as they are, and no entity is added, dropped or
    moved. *)
Theorem X19_unreadable_date_means_now
    (parse_datetime : string -> result (option datetime)) (call : ServiceCall)
    (clock : nat -> datetime * datetime) (entities : list Entity)
    (s : string) (ids : list string) :
  data_last_done call = Some s ->
  s = EmptyString \/ parse_datetime s = Ok None ->
  ids_of (data_entity_id call) = Some ids ->
  exists entities',
    handle_complete_task parse_datetime call clock entities = Handled entities' /\
    handle_complete_task parse_datetime
      {| data_entity_id := data_entity_id call; data_last_done := None |}
      clock entities = Handled entities' /\
    map entity_id entities' = map entity_id entities /\
    forall i e, nth_error entities i = Some e ->
      exists e',
        nth_error entities' i = Some e' /\
        (In (entity_id e) ids ->
         _history (sensor e')
           = last_n 10 (sorted (_history (sensor e) ++ [fst (clock i)]))) /\
        (~ In (entity_id e) ids -> e' = e).
Proof.
  intros Hs Hbad Hids.
  set (action := fun (i : nat) (self : TaskSensor) =>
                   mark_as_done self None (fst (clock i)) (snd (clock i))).
  exists (for_each action ids 0 entities).
  assert (Hparsed : match data_last_done call with
                    | Some (String c r) => parse_datetime (String c r)
                    | _ => Ok None
                    end = Ok None).
  { rewrite Hs. destruct Hbad as [->|Hp]; [reflexivity|].
    destruct s; [reflexivity|exact Hp]. }
  split; [|split; [|split]].
  - unfold handle_complete_task. rewrite Hparsed.
    apply dispatch_ids, Hids.
  - unfold handle_complete_task. cbn [data_last_done data_entity_id].
    apply dispatch_ids, Hids.
  - apply for_each_ids.
  - intros i e He. rewrite for_each_nth, He. cbn [option_map].
    eexists. split; [reflexivity|]. split.
    + intros Hin. apply named_In in Hin. rewrite Hin. cbn [sensor].
      unfold action. rewrite mark_as_done_history. reflexivity.
    + intros Hnot. destruct (named ids e) eqn:E; [|reflexivity].
      apply named_In in E. destruct (Hnot E).
Qed.

Lemma X19_unreadable_date_means_now_witness :
  exists entities',
    handle_complete_task parse_one bins_done_yesterday tuesday_clock household
      = Handled entities' /\
    handle_complete_task parse_one
      {| data_entity_id := data_entity_id bins_done_yesterday;
         data_last_done := None |}
      tuesday_clock household = Handled entities' /\
    map entity_id entities' = map entity_id household /\
    forall i e, nth_error household i = Some e ->
      exists e',
        nth_error entities' i = Some e' /\
        (In (entity_id e) ["sensor.bins"%string] ->
         _history (sensor e')
           = last_n 10 (sorted (_history (sensor e) ++ [fst (tuesday_clock i)]))) /\
        (~ In (entity_id e) ["sensor.bins"%string] -> e' = e).
Proof.
  apply (X19_unreadable_date_means_now parse_one bins_done_yesterday
           tuesday_clock household "yesterday"%string
           ["sensor.bins"%string]).
  - reflexivity.
  - right. reflexivity.
  - reflexivity.
Defined.

(** X20. The ids of a service call count as a set: two calls whose ids
    name the same registered entities do the same, whether an id is given
    alone or in a list, once or twice, in this order or another, and
    whatever ids of no entity come with it. A call that names no registered
    entity leaves every sensor as it is. *)
Theorem X20_entity_ids_count_as_a_set (parse_datetime : string -> result (option datetime))
    (call1 call2 : ServiceCall)
    (clock : nat -> datetime * datetime) (reading : nat -> datetime)
    (entities : list Entity) (ids1 ids2 : list string) :
  ids_of (data_entity_id call1) = Some ids1 ->
  ids_of (data_entity_id call2) = Some ids2 ->
  data_last_done call1 = data_last_done call2 ->
  (forall e, In e entities -> In (entity_id e) ids1 <-> In (entity_id e) ids2) ->
  handle_complete_task parse_datetime call1 clock entities
    = handle_complete_task parse_datetime call2 clock entities /\
  handle_reset_history call1 reading entities
    = handle_reset_history call2 reading entities /\
  ((forall e, In e entities -> ~ In (entity_id e) ids1) ->
   handle_reset_history call1 reading entities = Handled entities /\
   (handle_complete_task parse_datetime call1 clock entities = Handled entities \/
    exists e, handle_complete_task parse_datetime call1 clock entities
              = Failed (Raised e))).
Proof.
  intros H1 H2 Hd Hsame.
  unfold handle_complete_task, handle_reset_history. rewrite Hd.
  split; [|split].
  - destruct (match data_last_done call2 with
              | Some (String c r) => parse_datetime (String c r)
              | _ => Ok None
              end) as [custom_date|e]; [|reflexivity].
    rewrite (dispatch_ids _ _ _ _ H1), (dispatch_ids _ _ _ _ H2).
    f_equal. apply for_each_members, Hsame.
  - rewrite (dispatch_ids _ _ _ _ H1), (dispatch_ids _ _ _ _ H2).
    f_equal. apply for_each_members, Hsame.
  - intros Hnone. split.
    + rewrite (dispatch_ids _ _ _ _ H1). f_equal. apply for_each_nobody, Hnone.
    + destruct (match data_last_done call2 with
                | Some (String c r) => parse_datetime (String c r)
                | _ => Ok None
                end) as [custom_date|e].
      * left. rewrite (dispatch_ids _ _ _ _ H1). f_equal.
        apply for_each_nobody, Hnone.
      * right. exists e. reflexivity.
Qed.

Lemma X20_entity_ids_count_as_a_set_witness :
  handle_complete_task parse_one reset_bins tuesday_clock household
    = handle_complete_task parse_one reset_bins_twice tuesday_clock household /\
  handle_reset_history reset_bins tuesday_reading household
    = handle_reset_history reset_bins_twice tuesday_reading household /\
  ((forall e, In e household -> ~ In (entity_id e) ["sensor.bins"%string]) ->
   handle_reset_history reset_bins tuesday_reading household = Handled household /\
   (handle_complete_task parse_one reset_bins tuesday_clock household
      = Handled household \/
    exists e, handle_complete_task parse_one reset_bins tuesday_clock household
              = Failed (Raised e))).
Proof.
  apply (X20_entity_ids_count_as_a_set parse_one reset_bins reset_bins_twice
           tuesday_clock tuesday_reading household
           ["sensor.bins"%string]
           ["sensor.bins"; "sensor.car"; "sensor.bins"]%string).
  - reflexivity.
  - reflexivity.
  - reflexivity.
  - intros e [<-|[<-|[]]]; cbn [entity_id In]; split.
    + intros _. left. reflexivity.
    + intros _. left. reflexivity.
    + intros [H|[]]. discriminate H.
    + intros [H|[H|[H|[]]]]; discriminate H.
Defined.

Lemma mark_as_done_tidy (self : TaskSensor) (custom_date : option datetime)
    (clock now : datetime) :
  tidy (mark_as_done self custom_date clock now).
Proof.
  unfold tidy. split; [apply mark_as_done_coherent|].
  rewrite mark_as_done_history. split.
  - apply skipn_sorted, sorted_sorted.
  - rewrite last_n_length. apply Nat.le_min_l.
Qed.

Lemma reset_history_tidy (self : TaskSensor) (now : datetime) :
  tidy (reset_history self now).
Proof.
  unfold tidy. split; [apply reset_history_coherent|].
  unfold reset_history. rewrite (proj1 (update_state_completions _ _)).
  cbn [_history set_completions]. split; [constructor|cbn; lia].
Qed.

(** X21. The services keep the completion fields of the whole registry
    tidy: if every registered sensor has a sorted history of at most ten
    entries whose last entry is its last completion, then so has every
    sensor after a [complete_task] or a [reset_history] call that went
    through, whatever ids and date the call carries; and a call that failed
    is a call without ids on a registry that is not empty, or one whose date
    made the parser raise. *)
Theorem X21_services_keep_the_registry_tidy
    (parse_datetime : string -> result (option datetime))
    (call : ServiceCall)
    (clock : nat -> datetime * datetime) (reading : nat -> datetime)
    (entities : list Entity) :
  Forall (fun e => tidy (sensor e)) entities ->
  (forall entities',
     handle_complete_task parse_datetime call clock entities = Handled entities' \/
     handle_reset_history call reading entities = Handled entities' ->
     Forall (fun e => tidy (sensor e)) entities') /\
  (forall err,
     handle_complete_task parse_datetime call clock entities = Failed err \/
     handle_reset_history call reading entities = Failed err ->
     (err = TypeError /\ data_entity_id call = NoEntityId /\ entities <> []) \/
     (exists s e, data_last_done call = Some s /\ parse_datetime s = Raise e /\
                  err = Raised e)).
Proof.
  intros Htidy.
  assert (Hd : forall action entities',
            (forall j self, tidy self -> tidy (action j self)) ->
            dispatch action (data_entity_id call) entities = Handled entities' ->
            Forall (fun e => tidy (sensor e)) entities').
  { intros action entities' Hact. unfold dispatch.
    destruct (data_entity_id call) as [|id|ids].
    - destruct entities; [|discriminate]. intros H. injection H as <-. constructor.
    - intros H. injection H as <-. apply for_each_invariant; assumption.
    - intros H. injection H as <-. apply for_each_invariant; assumption. }
  assert (Hf : forall action err,
            dispatch action (data_entity_id call) entities = Failed err ->
            err = TypeError /\ data_entity_id call = NoEntityId /\ entities <> []).
  { intros action err. unfold dispatch.
    destruct (data_entity_id call) as [|id|ids]; try discriminate.
    destruct entities; [discriminate|]. intros H. injection H as <-.
    repeat split. discriminate. }
  split.
  - intros entities' [H|H].
    + unfold handle_complete_task in H.
      destruct (match data_last_done call with
                | Some (String c r) => parse_datetime (String c r)
                | _ => Ok None
                end) as [custom_date|e]; [|discriminate].
      apply (Hd _ _ (fun j self _ => mark_as_done_tidy self _ _ _) H).
    + apply (Hd _ _ (fun j self _ => reset_history_tidy self _) H).
  - intros err [H|H].
    + unfold handle_complete_task in H.
      destruct (data_last_done call) as [[|c r]|] eqn:Es.
      * left. exact (Hf _ _ H).
      * destruct (parse_datetime (String c r)) as [custom_date|e] eqn:Ep.
        -- left. exact (Hf _ _ H).
        -- right. exists (String c r), e. injection H as <-.
           repeat split. exact Ep.
      * left. exact (Hf _ _ H).
    + left. exact (Hf _ _ H).
Qed.

Lemma X21_services_keep_the_registry_tidy_witness :
  (forall entities',
     handle_complete_task parse_one bins_done_yesterday tuesday_clock household
       = Handled entities' \/
     handle_reset_history bins_done_yesterday tuesday_reading household
       = Handled entities' ->
     Forall (fun e => tidy (sensor e)) entities') /\
  (forall err,
     handle_complete_task parse_one bins_done_yesterday tuesday_clock household
       = Failed err \/
     handle_reset_history bins_done_yesterday tuesday_reading household
       = Failed err ->
     (err = TypeError /\ data_entity_id bins_done_yesterday = NoEntityId /\
      household <> []) \/
     (exists s e, data_last_done bins_done_yesterday = Some s /\
                  parse_one s = Raise e /\ err = Raised e)).
Proof.
  apply (X21_services_keep_the_registry_tidy parse_one bins_done_yesterday
           tuesday_clock tuesday_reading household).
  repeat constructor.
Defined.
